(** * SMAC-M map-file generator: the ChartSymbols catalog and the
      configuration script

    A shallow embedding of
      chart-installation/generate_map_files/mapgen/chartsymbols.py
      chart-installation/generate_map_files/generate_map_config.py
    Python dictionaries are finite maps, Python exceptions are an error
    monad, the effects of the script are a trace of events. *)

From Stdlib Require Import ZArith Ascii String List.
From stdpp Require Import base option list gmap strings.

Set Warnings "-register-all".
Local Open Scope string_scope.
Local Open Scope list_scope.

(** ** Python values, exceptions and string helpers *)

Module Py.

(** The exception classes the two files distinguish.  A constructor stands
    for the class and its subclasses; [OtherError] is any exception class
    that is neither of the four named ones nor derived from them. *)
Inductive exn : Type :=
| KeyError
| AttributeError
| TypeError
| ValueError
| OtherError (what : string).

(** A computation that returns a value or raises. *)
Inductive Exc (A : Type) : Type :=
| OK (a : A)
| Raise (e : exn).

Arguments OK {A} a.
Arguments Raise {A} e.

Definition bind {A B} (m : Exc A) (k : A -> Exc B) : Exc B :=
  match m with
  | OK a => k a
  | Raise e => Raise e
  end.

(** Evaluating a list of computations left to right, as a generator
    expression unpacked into an argument list does. *)
Fixpoint mapM {A B} (f : A -> Exc B) (l : list A) : Exc (list B) :=
  match l with
  | [] => OK []
  | x :: l' =>
      bind (f x) (fun y => bind (mapM f l') (fun ys => OK (y :: ys)))
  end.

(** A [for] loop whose body updates a state and may raise. *)
Fixpoint foldM {S A} (body : S -> A -> Exc S) (s : S) (l : list A) : Exc S :=
  match l with
  | [] => OK s
  | x :: l' => bind (body s x) (fun s' => foldM body s' l')
  end.

(** [s.split(sep)] for a one-character separator: the result is never
    empty, and [''.split(sep)] is [['']]. *)
Fixpoint split (sep : ascii) (s : string) : list string :=
  match s with
  | EmptyString => [EmptyString]
  | String c s' =>
      if Ascii.eqb c sep then EmptyString :: split sep s'
      else match split sep s' with
           | h :: t => String c h :: t
           | [] => [String c EmptyString]
           end
  end.

(** [sep.join(l)] for a list of [str]. *)
Fixpoint str_join (sep : string) (l : list string) : string :=
  match l with
  | [] => EmptyString
  | x :: l' =>
      match l' with
      | [] => x
      | _ :: _ => String.append x (String.append sep (str_join sep l'))
      end
  end.

(** [c in s] for a character [c]. *)
Fixpoint occurs (c : ascii) (s : string) : bool :=
  match s with
  | EmptyString => false
  | String d s' => Ascii.eqb d c || occurs c s'
  end.

(** Dictionary keys and element texts are [str] or [None]. *)
Definition key : Type := option string.

(** A keyword argument of a call: left out, or passed. *)
Inductive kwarg (A : Type) : Type :=
| Omitted
| Passed (a : A).

Arguments Omitted {A}.
Arguments Passed {A} a.

End Py.

Export Py.

Declare Scope exc_scope.
Delimit Scope exc_scope with exc.
Notation "x <- m ;; k" := (Py.bind m (fun x => k))
  (at level 100, m at next level, right associativity) : exc_scope.
Local Open Scope exc_scope.

(** ** ElementTree documents *)

Module Xml.

(** An [xml.etree.ElementTree.Element]: tag, attribute dictionary, text
    ([None] when the element has none) and children in document order. *)
Inductive Element : Type :=
| Elem (tag : string) (attrib : gmap string string) (text : option string)
       (children : list Element).

Definition tag (e : Element) : string := let 'Elem t _ _ _ := e in t.
Definition attrib (e : Element) : gmap string string := let 'Elem _ a _ _ := e in a.
Definition text (e : Element) : option string := let 'Elem _ _ x _ := e in x.
Definition children (e : Element) : list Element := let 'Elem _ _ _ c := e in c.

(** [e.get(k)]: the attribute, or [None]; it never raises. *)
Definition get (e : Element) (k : string) : option string := attrib e !! k.

(** The element and all its descendants, in document order. *)
Fixpoint descendants (e : Element) : list Element :=
  match e with
  | Elem _ _ _ cs =>
      e :: (fix go (l : list Element) : list Element :=
              match l with
              | [] => []
              | c :: l' => descendants c ++ go l'
              end) cs
  end.

(** [e.iter(t)]: the element itself and its descendants that carry tag [t]. *)
Definition iter (t : string) (e : Element) : list Element :=
  List.filter (fun x => String.eqb (tag x) t) (descendants e).

(** [e.findall(t)]: the direct children with tag [t]. *)
Definition findall (e : Element) (t : string) : list Element :=
  List.filter (fun x => String.eqb (tag x) t) (children e).

(** [e.find(t)]: the first such child, or [None]. *)
Definition find (e : Element) (t : string) : option Element :=
  head (findall e t).

(** [x.text] where [x] came from [find]: an [AttributeError] on [None]. *)
Definition text_of (x : option Element) : Exc (option string) :=
  match x with
  | Some c => OK (text c)
  | None => Raise AttributeError
  end.

(** [x.find(t)] and [x.get(k)] where [x] came from [find]. *)
Definition find_of (x : option Element) (t : string) : Exc (option Element) :=
  match x with
  | Some c => OK (find c t)
  | None => Raise AttributeError
  end.

Definition get_of (x : option Element) (k : string) : Exc (option string) :=
  match x with
  | Some c => OK (get c k)
  | None => Raise AttributeError
  end.

End Xml.

Export Xml.

(** ** The modules of [mapgen] that [chartsymbols.py] imports

    [cs], [filters], [instructions], [layer], [lookup] and [symbol] are
    not among the sources; what [chartsymbols.py] calls in them is a
    parameter here.  Calls may raise.  Objects of [mapgen.lookup] (a
    [Lookup], a Python list of them, what [@] returns) share the type
    [LookupV] and are treated as values: [add_instruction], which updates
    its receiver in place, returns the updated object. *)

(** The keyword arguments of a [Lookup(...)] call. *)
Record LookupArgs (Rules Prio Command : Type) : Type := {
  arg_id : kwarg (option string);
  arg_table : kwarg (option string);
  arg_display : kwarg (option string);
  arg_comment : kwarg (option string);
  arg_instruction : kwarg (list Command);
  arg_rules : kwarg Rules;
  arg_display_priority : kwarg Prio
}.

Arguments arg_id {Rules Prio Command} _.
Arguments arg_table {Rules Prio Command} _.
Arguments arg_display {Rules Prio Command} _.
Arguments arg_comment {Rules Prio Command} _.
Arguments arg_instruction {Rules Prio Command} _.
Arguments arg_rules {Rules Prio Command} _.
Arguments arg_display_priority {Rules Prio Command} _.

Class Mapgen : Type := {
  (** objects of [filters.MSFilter], of [filters.MSAnd], members of
      [layer.DisplayPriority], commands of [instructions], objects of
      [lookup], objects of [symbol], and the values handed through to
      [layer.Layer] untouched *)
  MSFilterV : Type;
  Rules : Type;
  Prio : Type;
  Command : Type;
  LookupV : Type;
  Symbol : Type;
  PyVal : Type;
  (** [MSFilter.from_attrcode(text)], and [MSAnd] applied to the unpacked
      filters *)
  MSFilter_from_attrcode : option string -> Exc MSFilterV;
  MSAnd : list MSFilterV -> Exc Rules;
  (** [DisplayPriority.get(text)] and [DisplayPriority.AreaSymbol] *)
  DisplayPriority_get : option string -> Exc Prio;
  DisplayPriority_AreaSymbol : Prio;
  (** [get_command(part)]; [CS_proc c] is [Some c.proc] when
      [isinstance(c, CS)] and [None] otherwise *)
  get_command : string -> Exc Command;
  CS_proc : Command -> option string;
  (** [lookups_from_cs(details, lookup_type, name)] *)
  lookups_from_cs : string -> option string -> key -> Exc LookupV;
  (** [Lookup] called with keyword arguments, a Python list display of
      lookups, [a @ b],
      [a.add_instruction(c)] and the sequence [iter(a)] yields *)
  Lookup : LookupArgs Rules Prio Command -> LookupV;
  py_list : list LookupV -> LookupV;
  matmul : LookupV -> LookupV -> Exc LookupV;
  add_instruction : LookupV -> Command -> Exc LookupV;
  iter_lookups : LookupV -> list LookupV;
  (** [VectorSymbol(element)], [Pattern.from_element(element)] (which may
      return [None]), [bool(symbol)] and [symbol.name] *)
  VectorSymbol : Element -> Exc Symbol;
  Pattern_from_element : Element -> Exc (option Symbol);
  symbol_bool : Symbol -> bool;
  symbol_name : Symbol -> key;
  (** the built-in [int] on a [str]: [None] when it raises [ValueError] *)
  int_of_str : string -> option Z
}.

(** ** chartsymbols.py *)

Module Chartsymbols.

Section Catalog.

Context `{M : Mapgen}.

(** [class Color]: the three attribute texts as read from the document. *)
Record Color : Type := {
  r : option string;
  g : option string;
  b : option string
}.

(** A value of [symbols_def]: the ['pivot'] and ['size'] pairs. *)
Record SymbolDef : Type := {
  pivot : Z * Z;
  size : Z * Z
}.

(** [class ChartSymbols]: the attributes of an instance. *)
Record ChartSymbols : Type := {
  excluded_lookups : list string;
  root : option Element;
  _color_tables : gmap key (gmap key Color);
  color_table : gmap key Color;
  symbols_def : gmap key SymbolDef;
  line_symbols : gmap key Symbol;
  area_symbols : gmap key Symbol;
  point_lookups : gmap key (list LookupV);
  line_lookups : gmap key (list LookupV);
  polygon_lookups : gmap key (list LookupV)
}.

(** The class attributes, which an instance starts from. *)
Definition class_defaults : ChartSymbols :=
  {| excluded_lookups := ["M_QUAL"];
     root := None;
     _color_tables := ∅;
     color_table := ∅;
     symbols_def := ∅;
     line_symbols := ∅;
     area_symbols := ∅;
     point_lookups := ∅;
     line_lookups := ∅;
     polygon_lookups := ∅ |}.

(** Assignments to, and in-place updates of, the attributes of [self]. *)
Definition set_excluded_lookups (v : list string) (self : ChartSymbols) :=
  {| excluded_lookups := v; root := root self;
     _color_tables := _color_tables self; color_table := color_table self;
     symbols_def := symbols_def self; line_symbols := line_symbols self;
     area_symbols := area_symbols self; point_lookups := point_lookups self;
     line_lookups := line_lookups self;
     polygon_lookups := polygon_lookups self |}.

Definition set_root (v : option Element) (self : ChartSymbols) :=
  {| excluded_lookups := excluded_lookups self; root := v;
     _color_tables := _color_tables self; color_table := color_table self;
     symbols_def := symbols_def self; line_symbols := line_symbols self;
     area_symbols := area_symbols self; point_lookups := point_lookups self;
     line_lookups := line_lookups self;
     polygon_lookups := polygon_lookups self |}.

Definition set__color_tables (v : gmap key (gmap key Color))
    (self : ChartSymbols) :=
  {| excluded_lookups := excluded_lookups self; root := root self;
     _color_tables := v; color_table := color_table self;
     symbols_def := symbols_def self; line_symbols := line_symbols self;
     area_symbols := area_symbols self; point_lookups := point_lookups self;
     line_lookups := line_lookups self;
     polygon_lookups := polygon_lookups self |}.

Definition set_color_table (v : gmap key Color) (self : ChartSymbols) :=
  {| excluded_lookups := excluded_lookups self; root := root self;
     _color_tables := _color_tables self; color_table := v;
     symbols_def := symbols_def self; line_symbols := line_symbols self;
     area_symbols := area_symbols self; point_lookups := point_lookups self;
     line_lookups := line_lookups self;
     polygon_lookups := polygon_lookups self |}.

Definition upd_symbols_def (f : gmap key SymbolDef -> gmap key SymbolDef)
    (self : ChartSymbols) :=
  {| excluded_lookups := excluded_lookups self; root := root self;
     _color_tables := _color_tables self; color_table := color_table self;
     symbols_def := f (symbols_def self); line_symbols := line_symbols self;
     area_symbols := area_symbols self; point_lookups := point_lookups self;
     line_lookups := line_lookups self;
     polygon_lookups := polygon_lookups self |}.

Definition upd_line_symbols (f : gmap key Symbol -> gmap key Symbol)
    (self : ChartSymbols) :=
  {| excluded_lookups := excluded_lookups self; root := root self;
     _color_tables := _color_tables self; color_table := color_table self;
     symbols_def := symbols_def self; line_symbols := f (line_symbols self);
     area_symbols := area_symbols self; point_lookups := point_lookups self;
     line_lookups := line_lookups self;
     polygon_lookups := polygon_lookups self |}.

Definition upd_area_symbols (f : gmap key Symbol -> gmap key Symbol)
    (self : ChartSymbols) :=
  {| excluded_lookups := excluded_lookups self; root := root self;
     _color_tables := _color_tables self; color_table := color_table self;
     symbols_def := symbols_def self; line_symbols := line_symbols self;
     area_symbols := f (area_symbols self);
     point_lookups := point_lookups self;
     line_lookups := line_lookups self;
     polygon_lookups := polygon_lookups self |}.

Definition upd_point_lookups
    (f : gmap key (list LookupV) -> gmap key (list LookupV))
    (self : ChartSymbols) :=
  {| excluded_lookups := excluded_lookups self; root := root self;
     _color_tables := _color_tables self; color_table := color_table self;
     symbols_def := symbols_def self; line_symbols := line_symbols self;
     area_symbols := area_symbols self;
     point_lookups := f (point_lookups self);
     line_lookups := line_lookups self;
     polygon_lookups := polygon_lookups self |}.

Definition upd_line_lookups
    (f : gmap key (list LookupV) -> gmap key (list LookupV))
    (self : ChartSymbols) :=
  {| excluded_lookups := excluded_lookups self; root := root self;
     _color_tables := _color_tables self; color_table := color_table self;
     symbols_def := symbols_def self; line_symbols := line_symbols self;
     area_symbols := area_symbols self; point_lookups := point_lookups self;
     line_lookups := f (line_lookups self);
     polygon_lookups := polygon_lookups self |}.

Definition upd_polygon_lookups
    (f : gmap key (list LookupV) -> gmap key (list LookupV))
    (self : ChartSymbols) :=
  {| excluded_lookups := excluded_lookups self; root := root self;
     _color_tables := _color_tables self; color_table := color_table self;
     symbols_def := symbols_def self; line_symbols := line_symbols self;
     area_symbols := area_symbols self; point_lookups := point_lookups self;
     line_lookups := line_lookups self;
     polygon_lookups := f (polygon_lookups self) |}.

(** *** Colours *)

(** [load_colors]: [self._color_tables.get(color_table, {})]. *)
Definition load_colors (color_table : string) (self : ChartSymbols)
    : ChartSymbols :=
  set_color_table (default ∅ (_color_tables self !! Some color_table)) self.

(** The inner loop of [load_color_table]: one [colors[...] = Color(...)]
    per [color] element below the table. *)
Definition color_of (color : Element) : Color :=
  {| r := get color "r"; g := get color "g"; b := get color "b" |}.

Definition table_colors (table : Element) : gmap key Color :=
  fold_left
    (fun colors color => <[get color "name" := color_of color]> colors)
    (iter "color" table) ∅.

Definition load_color_table (root : Element) : gmap key (gmap key Color) :=
  fold_left
    (fun tables table => <[get table "name" := table_colors table]> tables)
    (iter "color-table" root) ∅.

(** *** Symbols *)

(** [int(x)] for [x] a [str] or [None]. *)
Definition py_int (x : option string) : Exc Z :=
  match x with
  | None => Raise TypeError
  | Some s =>
      match int_of_str s with
      | Some z => OK z
      | None => Raise ValueError
      end
  end.

(** The [try] block of the first loop of [load_symbols]: the key and the
    value of the assignment to [self.symbols_def], or the exception. *)
Definition parse_symbol (symbol : Element) : Exc (key * SymbolDef) :=
  name <- text_of (find symbol "name") ;;
  let bitmap := find symbol "bitmap" in
  pivot <- find_of bitmap "pivot" ;;
  width <- (w <- get_of bitmap "width" ;; py_int w) ;;
  height <- (h <- get_of bitmap "height" ;; py_int h) ;;
  x <- (a <- get_of pivot "x" ;; py_int a) ;;
  y <- (a <- get_of pivot "y" ;; py_int a) ;;
  OK (name, {| pivot := (x, y); size := (width, height) |}).

(** One round of that loop; [except Exception: continue]. *)
Definition load_symbols_body (self : ChartSymbols) (symbol : Element)
    : ChartSymbols :=
  match parse_symbol symbol with
  | OK (name, def) => upd_symbols_def (insert name def) self
  | Raise _ => self
  end.

Definition load_linestyle_body (self : ChartSymbols) (linestyle : Element)
    : Exc ChartSymbols :=
  symbol <- VectorSymbol linestyle ;;
  if symbol_bool symbol
  then OK (upd_line_symbols (insert (symbol_name symbol) symbol) self)
  else OK self.

Definition load_pattern_body (self : ChartSymbols) (pattern : Element)
    : Exc ChartSymbols :=
  symbol <- Pattern_from_element pattern ;;
  match symbol with
  | Some sym =>
      if symbol_bool sym
      then OK (upd_area_symbols (insert (symbol_name sym) sym) self)
      else OK self
  | None => OK self
  end.

Definition load_symbols (root : Element) (self : ChartSymbols)
    : Exc ChartSymbols :=
  let self := fold_left load_symbols_body (iter "symbol" root) self in
  self <- foldM load_linestyle_body self (iter "line-style" root) ;;
  foldM load_pattern_body self (iter "pattern" root).

(** *** Lookups *)

(** [class AllInclusive], and a Python list of strings, as the right
    operand of [in]. *)
Inductive Container : Type :=
| AllInclusive
| PyList (l : list string).

Definition contains (c : Container) (val : option string) : bool :=
  match c with
  | AllInclusive => true
  | PyList l =>
      match val with
      | Some v => bool_decide (v ∈ l)
      | None => false
      end
  end.

(** [if displaycategory is None: displaycategory = AllInclusive()] *)
Definition container_of (displaycategory : option (list string)) : Container :=
  match displaycategory with
  | None => AllInclusive
  | Some l => PyList l
  end.

(** What the [try] block of [load_lookups] binds. *)
Record LookupFields : Type := {
  lf_name : key;
  lf_id : option string;
  lf_lookup_type : option string;
  lf_table_name : option string;
  lf_display : option string;
  lf_comment : option string;
  lf_str_instruction : string;
  lf_rules : Rules;
  lf_display_priority : option string
}.

(** [MSAnd] over the filters of the [attrib-code] children; the generator
    is run to its end before [MSAnd] is called. *)
Definition parse_rules (lookup : Element) : Exc Rules :=
  filters <- mapM (fun attr => MSFilter_from_attrcode (text attr))
                  (findall lookup "attrib-code") ;;
  MSAnd filters.

Definition parse_lookup (lookup : Element) : Exc LookupFields :=
  let name := get lookup "name" in
  let id := get lookup "id" in
  lookup_type <- text_of (find lookup "type") ;;
  table_name <- text_of (find lookup "table-name") ;;
  display <- text_of (find lookup "display-cat") ;;
  comment <- text_of (find lookup "comment") ;;
  instruction <- text_of (find lookup "instruction") ;;
  let str_instruction := default "" instruction in
  rules <- parse_rules lookup ;;
  display_priority <- text_of (find lookup "disp-prio") ;;
  OK {| lf_name := name; lf_id := id; lf_lookup_type := lookup_type;
        lf_table_name := table_name; lf_display := display;
        lf_comment := comment; lf_str_instruction := str_instruction;
        lf_rules := rules; lf_display_priority := display_priority |}.

(** [except (KeyError, AttributeError): continue] *)
Definition skipped (e : exn) : bool :=
  match e with
  | KeyError | AttributeError => true
  | _ => false
  end.

(** [name in self.excluded_lookups] *)
Definition is_excluded (name : key) (excluded : list string) : bool :=
  match name with
  | Some n => bool_decide (n ∈ excluded)
  | None => false
  end.

(** [table_name in (point_style, area_style, 'Lines') and
     display in displaycategory] *)
Definition passes_filter (point_style area_style : string)
    (displaycategory : Container) (f : LookupFields) : bool :=
  bool_decide (lf_table_name f = Some point_style
               ∨ lf_table_name f = Some area_style
               ∨ lf_table_name f = Some "Lines")
  && contains displaycategory (lf_display f).

(** The list [lookup_table] is bound to: the one stored in one of the
    three dictionaries, or a fresh list that nothing else refers to. *)
Inductive TableRef : Type :=
| InPoint
| InLine
| InPolygon
| Detached.

Definition table_for (lookup_type : option string) : TableRef :=
  if decide (lookup_type = Some "Point") then InPoint
  else if decide (lookup_type = Some "Line") then InLine
  else if decide (lookup_type = Some "Area") then InPolygon
  else Detached.

(** Applying an update to the dictionary a [TableRef] points into. *)
Definition upd_table (t : TableRef)
    (f : gmap key (list LookupV) -> gmap key (list LookupV))
    (self : ChartSymbols) : ChartSymbols :=
  match t with
  | InPoint => upd_point_lookups f self
  | InLine => upd_line_lookups f self
  | InPolygon => upd_polygon_lookups f self
  | Detached => self
  end.

Definition table_of (t : TableRef) (self : ChartSymbols)
    : gmap key (list LookupV) :=
  match t with
  | InPoint => point_lookups self
  | InLine => line_lookups self
  | InPolygon => polygon_lookups self
  | Detached => ∅
  end.

(** [d.setdefault(name, [])] *)
Definition setdefault (name : key) (d : gmap key (list LookupV))
    : gmap key (list LookupV) :=
  match d !! name with
  | Some _ => d
  | None => <[name := []]> d
  end.

(** Appending to the list stored under [name], through its alias. *)
Definition append_all (name : key) (new : list LookupV)
    (d : gmap key (list LookupV)) : gmap key (list LookupV) :=
  alter (fun l => l ++ new) name d.

(** The loop over [str_instruction.split(';')]. *)
Definition expand_part (lookup_type : option string) (name : key)
    (lookups : LookupV) (part : string) : Exc LookupV :=
  match part with
  | EmptyString => OK lookups
  | _ =>
      command <- get_command part ;;
      match CS_proc command with
      | Some details =>
          cs <- lookups_from_cs details lookup_type name ;;
          matmul lookups cs
      | None => add_instruction lookups command
      end
  end.

Definition expand_parts (lookup_type : option string) (name : key)
    (lookups : LookupV) (parts : list string) : Exc LookupV :=
  foldM (expand_part lookup_type name) lookups parts.

(** The base [Lookup(...)] of an accepted element. *)
Definition base_lookup (f : LookupFields) (prio : Prio) : LookupV :=
  Lookup {| arg_id := Passed (lf_id f);
            arg_table := Passed (lf_table_name f);
            arg_display := Passed (lf_display f);
            arg_comment := Passed (lf_comment f);
            arg_instruction := Passed [];
            arg_rules := Passed (lf_rules f);
            arg_display_priority := Passed prio |}.

(** The lookups an accepted element yields, in the order they are
    appended. *)
Definition lookup_entries (f : LookupFields) : Exc (list LookupV) :=
  prio <- DisplayPriority_get (lf_display_priority f) ;;
  lookups <- expand_parts (lf_lookup_type f) (lf_name f)
               (base_lookup f prio)
               (split ";" (lf_str_instruction f)) ;;
  OK (iter_lookups lookups).

(** The body of the [if] that filters on table name and display
    category. *)
Definition add_lookup (f : LookupFields) (self : ChartSymbols)
    : Exc ChartSymbols :=
  let lookup_table := table_for (lf_lookup_type f) in
  let self := upd_table lookup_table (setdefault (lf_name f)) self in
  new <- lookup_entries f ;;
  OK (upd_table lookup_table (append_all (lf_name f) new) self).

(** The virtual lookup for X-SNDG. *)
Definition virtual_sndg : Exc (list LookupV) :=
  let head :=
    Lookup {| arg_id := Passed (Some "X-SNDG");
              arg_table := Omitted;
              arg_display := Omitted;
              arg_comment := Passed (Some "non-SOUNDG features with sounding");
              arg_instruction := Omitted;
              arg_rules := Omitted;
              arg_display_priority := Passed DisplayPriority_AreaSymbol |} in
  let table t :=
    Lookup {| arg_id := Omitted; arg_table := Passed (Some t);
              arg_display := Omitted; arg_comment := Omitted;
              arg_instruction := Omitted; arg_rules := Omitted;
              arg_display_priority := Omitted |} in
  tables <- matmul head (py_list [table "Paper"; table "Simplified"]) ;;
  cs <- lookups_from_cs "SOUNDG" (Some "Point") (Some "X-SNDG") ;;
  all <- matmul tables cs ;;
  OK (iter_lookups all).

Definition sndg_key : key := Some "X-SNDG".

Definition add_virtual_sndg (self : ChartSymbols) : Exc ChartSymbols :=
  sndg <- virtual_sndg ;;
  OK (upd_point_lookups (insert sndg_key sndg) self).

(** One round of the loop of [load_lookups]. *)
Definition load_lookups_body (point_style area_style : string)
    (displaycategory : Container) (self : ChartSymbols) (lookup : Element)
    : Exc ChartSymbols :=
  match parse_lookup lookup with
  | Raise e => if skipped e then OK self else Raise e
  | OK f =>
      if is_excluded (lf_name f) (excluded_lookups self) then OK self
      else
        self <- (if passes_filter point_style area_style displaycategory f
                 then add_lookup f self
                 else OK self) ;;
        add_virtual_sndg self
  end.

Definition load_lookups (root : Element) (point_style area_style : string)
    (displaycategory : option (list string)) (self : ChartSymbols)
    : Exc ChartSymbols :=
  let displaycategory := container_of displaycategory in
  foldM (load_lookups_body point_style area_style displaycategory) self
        (iter "lookup" root).

(** *** Construction

    [isfile] is what [os.path.isfile(file)] answers and [parsed] what
    [etree.parse(file).getroot()] returns or raises. *)
Definition init (isfile : bool) (parsed : Exc Element)
    (point_table area_table : string) (displaycategory : option (list string))
    (color_table : string) (excluded_lookups : option (list string))
    : Exc ChartSymbols :=
  if negb isfile then Raise (OtherError "chartsymbol file do not exists")
  else
    let self := class_defaults in
    let self :=
      match excluded_lookups with
      | Some l => set_excluded_lookups l self
      | None => self
      end in
    root <- parsed ;;
    let self := set_root (Some root) self in
    let self := set__color_tables (load_color_table root) self in
    let self := load_colors color_table self in
    let self := upd_point_lookups (fun _ => ∅) self in
    let self := upd_line_lookups (fun _ => ∅) self in
    let self := upd_polygon_lookups (fun _ => ∅) self in
    let self := upd_symbols_def (fun _ => ∅) self in
    let self := upd_line_symbols (fun _ => ∅) self in
    let self := upd_area_symbols (fun _ => ∅) self in
    self <- load_symbols root self ;;
    load_lookups root point_table area_table displaycategory self.

(** *** Layers

    [Layer] and [LightsLayer] are classes of [mapgen.layer]; an object is
    recorded by its class and the arguments it was constructed from. *)
Inductive LayerObj : Type :=
| Layer (layer : PyVal) (feature : key) (geometry : string)
        (group msd fields : PyVal) (lookups : list LookupV)
        (chartsymbols : ChartSymbols)
| LightsLayer (layer : LayerObj).

Definition get_point_mapfile (self : ChartSymbols) (layer : PyVal)
    (feature : key) (group msd fields : PyVal) : LayerObj :=
  let layer := Layer layer feature "POINT" group msd fields
                     (default [] (point_lookups self !! feature)) self in
  if decide (feature = Some "LIGHTS") then LightsLayer layer else layer.

Definition get_line_mapfile (self : ChartSymbols) (layer : PyVal)
    (feature_type : key) (group max_scale_denom fields : PyVal) : LayerObj :=
  Layer layer feature_type "LINE" group max_scale_denom fields
        (default [] (line_lookups self !! feature_type)) self.

Definition get_poly_mapfile (self : ChartSymbols) (layer : PyVal)
    (feature_type : key) (group max_scale_denom fields : PyVal) : LayerObj :=
  Layer layer feature_type "POLYGON" group max_scale_denom fields
        (default [] (polygon_lookups self !! feature_type)) self.

(** The class of a layer object, and the [Layer] at its core. *)
Definition layer_class (l : LayerObj) : string :=
  match l with
  | Layer _ _ _ _ _ _ _ _ => "Layer"
  | LightsLayer _ => "LightsLayer"
  end.

Fixpoint built_layer (l : LayerObj) : LayerObj :=
  match l with
  | Layer _ _ _ _ _ _ _ _ => l
  | LightsLayer inner => built_layer inner
  end.

(** *** The document read as a list of contributions

    These functions are not in the source: they say, element by element,
    what a run of [load_lookups] that returns has stored. *)

#[global] Instance TableRef_eq_dec : EqDecision TableRef.
Proof. solve_decision. Defined.

(** The lookups of an element whose expansion returns. *)
Definition entries_or_nil (f : LookupFields) : list LookupV :=
  match lookup_entries f with
  | OK l => l
  | Raise _ => []
  end.

(** The fields of an element that is fully parsed and not excluded. *)
Definition live_fields (excluded : list string) (lookup : Element)
    : option LookupFields :=
  match parse_lookup lookup with
  | OK f => if is_excluded (lf_name f) excluded then None else Some f
  | Raise _ => None
  end.

(** ... and that passes the filter as well. *)
Definition accepted_fields (point_style area_style : string)
    (displaycategory : Container) (excluded : list string) (lookup : Element)
    : option LookupFields :=
  match live_fields excluded lookup with
  | Some f =>
      if passes_filter point_style area_style displaycategory f
      then Some f else None
  | None => None
  end.

(** What an element appends to the list under key [k] of table [t]. *)
Definition contribution (point_style area_style : string)
    (displaycategory : Container) (excluded : list string)
    (t : TableRef) (k : key) (lookup : Element) : option (list LookupV) :=
  match accepted_fields point_style area_style displaycategory excluded
          lookup with
  | Some f =>
      if decide (table_for (lf_lookup_type f) = t ∧ lf_name f = k)
      then Some (entries_or_nil f) else None
  | None => None
  end.

(** A dictionary entry after batches of lookups were appended to it: it
    exists once [setdefault] has run for it. *)
Definition table_after (before : option (list LookupV))
    (batches : list (list LookupV)) : option (list LookupV) :=
  match batches with
  | [] => before
  | _ => Some (default [] before ++ concat batches)
  end.

(** What the loops of [load_symbols] leave alone. *)
Definition same_lookups (s s' : ChartSymbols) : Prop :=
  point_lookups s' = point_lookups s
  ∧ line_lookups s' = line_lookups s
  ∧ polygon_lookups s' = polygon_lookups s
  ∧ excluded_lookups s' = excluded_lookups s.

(** Some dictionary holds something else under [name] than before. *)
Definition entry_added (name : key) (before after : ChartSymbols) : Prop :=
  point_lookups after !! name ≠ point_lookups before !! name
  ∨ line_lookups after !! name ≠ line_lookups before !! name
  ∨ polygon_lookups after !! name ≠ polygon_lookups before !! name.

(** The filter in the words of the specification. *)
Definition table_and_category_match (point_style area_style : string)
    (displaycategory : option (list string)) (f : LookupFields) : Prop :=
  (lf_table_name f = Some point_style
   ∨ lf_table_name f = Some area_style
   ∨ lf_table_name f = Some "Lines")
  ∧ (displaycategory = None
     ∨ ∃ l d, displaycategory = Some l ∧ lf_display f = Some d ∧ d ∈ l).

(** A lookup node whose extraction returns, or raises what the loop
    passes over. *)
Definition parses_or_is_skipped (lookup : Element) : Prop :=
  ∀ e, parse_lookup lookup = Raise e → skipped e = true.



(** *** The rest of [Color] and of the symbol tables *)

(** [Color.rgb]: [' '.join([self.r, self.g, self.b])], which wants three
    [str]. *)
Definition rgb (c : Color) : Exc string :=
  parts <- mapM (fun x => match x with
                          | Some s => OK s
                          | None => Raise TypeError
                          end) [r c; g c; b c] ;;
  OK (str_join " " parts).

(** What the first loop of [load_symbols] assigns for a node, when it
    assigns. *)
Definition parsed_symbol (symbol : Element) : option (key * SymbolDef) :=
  match parse_symbol symbol with
  | OK kd => Some kd
  | Raise _ => None
  end.

(** The symbols the second and third loop store: the truthy ones. *)
Definition truthy (symbols : list Symbol) : list Symbol :=
  List.filter symbol_bool symbols.

Definition present (symbols : list (option Symbol)) : list Symbol :=
  truthy (omap (fun x => x) symbols).

(** The entry of a dictionary after a run of assignments [d[k] = v], the
    later ones overwriting the earlier. *)
Definition last_assigned {V} (k : key) (assigned : list (key * V))
    (before : option V) : option V :=
  match last (filter (fun kv => fst kv = k) assigned) with
  | Some kv => Some (snd kv)
  | None => before
  end.

(** The attributes of a catalog other than the three symbol tables, and
    other than the three lookup tables. *)
Definition outside_symbols (self : ChartSymbols) :=
  (excluded_lookups self, root self, _color_tables self, color_table self,
   point_lookups self, line_lookups self, polygon_lookups self).

Definition outside_lookups (self : ChartSymbols) :=
  (excluded_lookups self, root self, _color_tables self, color_table self,
   symbols_def self, line_symbols self, area_symbols self).

End Catalog.

(** The claim that the filter alone decides whether a parsed, not excluded
    lookup gets an entry, as the specification words it. *)
Definition filter_alone_adds_entry : Prop :=
  ∀ (M : Mapgen) (point_style area_style : string)
    (displaycategory : option (list string))
    (self self' : ChartSymbols) (lookup : Element) (f : LookupFields),
    parse_lookup lookup = OK f →
    is_excluded (lf_name f) (excluded_lookups self) = false →
    load_lookups_body point_style area_style (container_of displaycategory)
      self lookup = OK self' →
    (entry_added (lf_name f) self self'
     ↔ table_and_category_match point_style area_style displaycategory f).


End Chartsymbols.

(** ** generate_map_config.py *)

Module GenerateMapConfig.

(** A value of the dictionary [toml.load] returns.  [TOther] is a float or
    a date-time, recorded with its truth value. *)
Inductive toml : Type :=
| TString (s : string)
| TInteger (z : Z)
| TBool (b : bool)
| TOther (truth : bool)
| TArray (l : list toml)
| TTable (t : gmap string toml).

(** [class Format] *)
Inductive Format : Type :=
| Chart
| BaseChart
| GeoTIF
| Elevation
| AML.

(** [Format.__str__]: the value of the member. *)
Definition Format_str (f : Format) : string :=
  match f with
  | Chart => "chart"
  | BaseChart => "basechart"
  | GeoTIF => "geotif"
  | Elevation => "elevation"
  | AML => "aml"
  end.

(** The namespace [parse_arguments] returns. *)
Record Args : Type := {
  config_file : string;
  format : Format;
  force : bool;
  base_dir : string;
  config : gmap string toml
}.

(** The arguments of the call to [generate_basechart_config]. *)
Record BasechartArgs : Type := {
  bc_data_path : string;
  bc_map_path : string;
  bc_rule_set_path : string;
  bc_resources_path : string;
  bc_force : bool;
  bc_debug : toml;
  bc_point_table : toml;
  bc_area_table : toml;
  bc_displaycategory : list string;
  bc_chartsymbols : string;
  bc_excluded_lookups : option toml
}.

(** [os.path], the file system, [os.chdir], the modules [utils.dirutils],
    [mapgen.generate_symbolset] and the generators, and [str.lower], none
    of which is among the sources.  The functions of [os.path] and
    [str.lower] return on a [str]; every other call returns or raises,
    as the host decides from its arguments. *)
Class Host : Type := {
  SymbolsetV : Type;
  abspath : string -> string;
  normpath : string -> string;
  join : string -> string -> string;
  dirname : string -> string;
  isfile : string -> bool;
  script_file : string;
  force_sub_dir : string -> string -> Exc string;
  does_color_tables_exist : string -> Exc bool;
  does_layer_rules_exist : string -> Exc bool;
  create_color_rules : string -> string -> Exc unit;
  create_layer_rules : string -> string -> Exc unit;
  chdir : string -> Exc unit;
  generate_basechart_config : BasechartArgs -> Exc unit;
  generate_symbolset : SymbolsetV -> string -> bool -> Exc unit;
  symbolsets : list SymbolsetV;
  str_lower : string -> string
}.

Inductive Stream : Type :=
| Stdout
| Stderr.

(** How a run ends: it falls off the end, calls [sys.exit], or dies of an
    uncaught exception. *)
Inductive Outcome (A : Type) : Type :=
| Returned (a : A)
| Exited (status : Z)
| Uncaught (e : exn).

Arguments Returned {A} a.
Arguments Exited {A} status.
Arguments Uncaught {A} e.

(** The configuration has no [paths] table, or a [paths] table without
    the key [data]. *)
Definition lacks_data_path (cfg : gmap string toml) : Prop :=
  cfg !! "paths" = None
  ∨ ∃ t, cfg !! "paths" = Some (TTable t) ∧ t !! "data" = None.

(** The configuration has no value at [paths.data], whatever else it has:
    there is no table [paths] with a key [data]. *)
Definition no_data_path (cfg : gmap string toml) : Prop :=
  ∀ t, cfg !! "paths" = Some (TTable t) → t !! "data" = None.

Section Script.

Context `{H : Host}.

(** What the script does to the outside: lines printed, environment
    variables set, the working directory changed, and the calls into the
    generators, each with its arguments.  An event says that the call was
    made; a call that raises is the last event of its run. *)
Inductive Event : Type :=
| Print (file : Stream) (line : string)
| Environ (name value : string)
| Chdir (path : string)
| CreateColorRules (resources target : string)
| CreateLayerRules (resources target : string)
| GenerateBasechartConfig (a : BasechartArgs)
| GenerateSymbolset (symbolset : SymbolsetV) (path : string) (update : bool).

Definition Run (A : Type) : Type := list Event * Outcome A.

Definition ret {A} (a : A) : Run A := ([], Returned a).

Definition seq {A B} (m : Run A) (k : A -> Run B) : Run B :=
  match m with
  | (t, Returned a) => let '(t', o) := k a in (t ++ t', o)
  | (t, Exited n) => (t, Exited n)
  | (t, Uncaught e) => (t, Uncaught e)
  end.

(** What the call behind an event answers: [print] and the assignment to
    [os.environ] return, the others return or raise. *)
Definition answer (e : Event) : Exc unit :=
  match e with
  | Print _ _ | Environ _ _ => OK tt
  | Chdir path => chdir path
  | CreateColorRules resources target => create_color_rules resources target
  | CreateLayerRules resources target => create_layer_rules resources target
  | GenerateBasechartConfig a => generate_basechart_config a
  | GenerateSymbolset symbolset path update =>
      generate_symbolset symbolset path update
  end.

(** A call is made, and returns or raises. *)
Definition emit (e : Event) : Run unit :=
  ([e], match answer e with
        | OK _ => Returned tt
        | Raise x => Uncaught x
        end).

Definition sys_exit {A} (status : Z) : Run A := ([], Exited status).

(** An expression evaluated outside any [try]. *)
Definition eval {A} (x : Exc A) : Run A :=
  match x with
  | OK a => ret a
  | Raise e => ([], Uncaught e)
  end.

(** [d[k]] on the loaded dictionary, and [v[k]], [v.get(k)], [v.split(',')],
    [v.lower()] and [bool(v)] on one of its values. *)
Definition getitem (d : gmap string toml) (k : string) : Exc toml :=
  match d !! k with
  | Some v => OK v
  | None => Raise KeyError
  end.

Definition subscript (v : toml) (k : string) : Exc toml :=
  match v with
  | TTable t => getitem t k
  | _ => Raise TypeError
  end.

Definition get_method (v : toml) (k : string) : Exc (option toml) :=
  match v with
  | TTable t => OK (t !! k)
  | _ => Raise AttributeError
  end.

Definition split_method (v : toml) : Exc (list string) :=
  match v with
  | TString s => OK (split "," s)
  | _ => Raise AttributeError
  end.

Definition lower_method (v : toml) : Exc string :=
  match v with
  | TString s => OK (str_lower s)
  | _ => Raise AttributeError
  end.

Definition truth (v : option toml) : bool :=
  match v with
  | None => false
  | Some (TString s) => negb (String.eqb s "")
  | Some (TInteger z) => negb (Z.eqb z 0)
  | Some (TBool b) => b
  | Some (TOther t) => t
  | Some (TArray l) => match l with [] => false | _ => true end
  | Some (TTable t) => negb (bool_decide (t = ∅))
  end.

(** [RESOURCES_PATH] *)
Definition RESOURCES_PATH : string :=
  abspath (normpath (join (dirname script_file) "resources")).

(** [config_relative(path, args)]; [os.path.join] wants a [str]. *)
Definition config_relative (path : toml) (args : Args) : Exc string :=
  match path with
  | TString p => OK (abspath (normpath (join (base_dir args) p)))
  | _ => Raise TypeError
  end.

Definition newline : string := String (ascii_of_nat 10) EmptyString.

Definition dquote : string := String (ascii_of_nat 34) EmptyString.

(** The path a key of [paths] resolves to: [fallback] when the key is
    missing or falsy. *)
Definition path_option (args : Args) (k : string) (fallback : string)
    : Run string :=
  seq (eval (getitem (config args) "paths")) (fun paths =>
  seq (eval (get_method paths k)) (fun p =>
  if truth p then
    match p with
    | Some v => eval (config_relative v args)
    | None => ret fallback
    end
  else ret fallback)).

(** The body of [if __name__ == '__main__':], after [parse_arguments]. *)
Definition main (args : Args) : Run unit :=
  let debug := default (TBool false) (config args !! "debug") in
  seq (match getitem (config args) "paths" with
       | OK paths =>
           match subscript paths "data" with
           | OK v => ret v
           | Raise KeyError =>
               seq (emit (Print Stderr
                            "Data path missing from configuration file"))
                   (fun _ => sys_exit 1%Z)
           | Raise e => ([], Uncaught e)
           end
       | Raise KeyError =>
           seq (emit (Print Stderr
                        "Data path missing from configuration file"))
               (fun _ => sys_exit 1%Z)
       | Raise e => ([], Uncaught e)
       end) (fun data_path =>
  let point_table :=
    default (TString "Simplified") (config args !! "point_table") in
  seq (match config args !! "tablename" with
       | Some v =>
           seq (emit (Print Stdout
                        ("WARNING: `tablename` configuration option is deprecated. "
                         ++ "Use point_table instead" ++ newline)))
               (fun _ => ret v)
       | None => ret point_table
       end) (fun point_table =>
  let area_table := default (TString "Plain") (config args !! "area_table") in
  seq (eval (config_relative data_path args)) (fun data_path =>
  seq (path_option args "map" (normpath (join data_path "../map")))
      (fun map_path =>
  seq (path_option args "ruleset" RESOURCES_PATH) (fun rule_set_path =>
  seq (eval (force_sub_dir rule_set_path "rules")) (fun rule_set_path =>
  seq (eval (does_color_tables_exist rule_set_path))
      (fun color_tables_exist =>
  seq (if color_tables_exist then ret tt
       else emit (CreateColorRules RESOURCES_PATH
                    (join rule_set_path "color_tables"))) (fun _ =>
  seq (path_option args "chartsymbols"
         (abspath (join RESOURCES_PATH "chartsymbols/chartsymbols_S57.xml")))
      (fun chartsymbols =>
  seq (if isfile chartsymbols then ret tt
       else emit (Print Stdout
                    ("chartsymbols.xml not found at: " ++ chartsymbols)))
      (fun _ =>
  seq (eval (split_method
               (default (TString "Standard")
                        (config args !! "displaycategory"))))
      (fun displaycategory =>
  let displaycategory := displaycategory ++ ["Displaybase"] in
  seq (eval (lower_method
               (default (TString "rigid") (config args !! "topmark_type"))))
      (fun topmar_type =>
  seq (if String.eqb topmar_type "rigid"
       then emit (Environ "TOPMAR_FLOATING" "")
       else if String.eqb topmar_type "floating"
       then emit (Environ "TOPMAR_FLOATING" "1")
       else seq (emit (Print Stdout
                         "topmark_type must be either floating or rigid"))
                (fun _ => sys_exit 2%Z)) (fun _ =>
  let excluded_lookups := config args !! "excluded_lookups" in
  seq (match format args with
       | Chart =>
           seq (eval (does_layer_rules_exist rule_set_path))
               (fun layer_definitions_exist =>
           seq (if negb layer_definitions_exist || force args
                then emit (CreateLayerRules RESOURCES_PATH
                             (join rule_set_path "layer_rules"))
                else ret tt) (fun _ =>
           seq (emit (Chdir (dirname script_file))) (fun _ =>
           emit (GenerateBasechartConfig
                   {| bc_data_path := data_path;
                      bc_map_path := map_path;
                      bc_rule_set_path := rule_set_path;
                      bc_resources_path := RESOURCES_PATH;
                      bc_force := force args;
                      bc_debug := debug;
                      bc_point_table := point_table;
                      bc_area_table := area_table;
                      bc_displaycategory := displaycategory;
                      bc_chartsymbols := chartsymbols;
                      bc_excluded_lookups := excluded_lookups |}))))
       | other =>
           seq (emit (Print Stderr
                        ("Data format " ++ dquote ++ Format_str other ++ dquote
                         ++ " has not yet been ported to the configuration "
                         ++ "file. Use the old script to generate your mapfiles")))
               (fun _ => sys_exit 1%Z)
       end) (fun _ =>
  fold_right
    (fun symbolset rest =>
       seq (emit (GenerateSymbolset symbolset (join map_path "symbols") false))
           (fun _ => rest))
    (ret tt) symbolsets)))))))))))))).

(** The calls of the loop that ends [main], and the events that write
    what the script is run for. *)
Definition symbolset_events (map_path : string) : list Event :=
  List.map
    (fun symbolset =>
       GenerateSymbolset symbolset (join map_path "symbols") false)
    symbolsets.

Definition generates (e : Event) : bool :=
  match e with
  | CreateLayerRules _ _ | GenerateBasechartConfig _
  | GenerateSymbolset _ _ _ | Chdir _ => true
  | _ => false
  end.

(** The three lines [main] may print before it gives up. *)
Definition data_path_message : string :=
  "Data path missing from configuration file".

Definition topmark_message : string :=
  "topmark_type must be either floating or rigid".

Definition format_message (f : Format) : string :=
  "Data format " ++ dquote ++ Format_str f ++ dquote
  ++ " has not yet been ported to the configuration "
  ++ "file. Use the old script to generate your mapfiles".

Definition tablename_warning : string :=
  "WARNING: `tablename` configuration option is deprecated. "
  ++ "Use point_table instead" ++ newline.

(** What a run that gets to the generators has printed and created on
    its way, the record it hands over, and the events that stand before
    the environment is set: lines on standard output and the color
    rules. *)
Definition prelude_events (args : Args) (rule_set_path chartsymbols : string)
    : list Event :=
  (match config args !! "tablename" with
   | Some _ => [Print Stdout tablename_warning]
   | None => []
   end)
  ++ (match does_color_tables_exist rule_set_path with
      | OK false => [CreateColorRules RESOURCES_PATH
                       (join rule_set_path "color_tables")]
      | _ => []
      end)
  ++ (if isfile chartsymbols then []
      else [Print Stdout ("chartsymbols.xml not found at: " ++ chartsymbols)]).

Definition layer_rules_events (args : Args) (rule_set_path : string)
    : list Event :=
  match does_layer_rules_exist rule_set_path with
  | OK layer_definitions_exist =>
      if negb layer_definitions_exist || force args
      then [CreateLayerRules RESOURCES_PATH (join rule_set_path "layer_rules")]
      else []
  | Raise _ => []
  end.

Definition basechart_args (args : Args)
    (data_path map_path rule_set_path chartsymbols : string)
    (displaycategory : list string) : BasechartArgs :=
  {| bc_data_path := data_path;
     bc_map_path := map_path;
     bc_rule_set_path := rule_set_path;
     bc_resources_path := RESOURCES_PATH;
     bc_force := force args;
     bc_debug := default (TBool false) (config args !! "debug");
     bc_point_table :=
       match config args !! "tablename" with
       | Some v => v
       | None => default (TString "Simplified") (config args !! "point_table")
       end;
     bc_area_table := default (TString "Plain") (config args !! "area_table");
     bc_displaycategory := displaycategory;
     bc_chartsymbols := chartsymbols;
     bc_excluded_lookups := config args !! "excluded_lookups" |}.

Definition quiet (e : Event) : bool :=
  match e with
  | Print Stdout _ | CreateColorRules _ _ => true
  | _ => false
  end.

(** The value of an optional key of the table [paths]: the fallback when
    the key is missing or falsy. *)
Definition optional_path (args : Args) (tbl : gmap string toml)
    (k fallback : string) : option string :=
  match tbl !! k with
  | Some (TString p) =>
      if String.eqb p "" then Some fallback
      else Some (abspath (normpath (join (base_dir args) p)))
  | Some v => if truth (Some v) then None else Some fallback
  | None => Some fallback
  end.

(** *** The runs of [main], case by case

    Not in the source: what the configuration resolves to when every
    stage before the topmark test returns, and the six ways a run can
    go. *)
Definition resolved (args : Args)
    (data_path map_path rule_set_path chartsymbols : string)
    (displaycategory : list string) (topmark : string) : Prop :=
  ∃ tbl d rules,
    config args !! "paths" = Some (TTable tbl)
    ∧ tbl !! "data" = Some (TString d)
    ∧ data_path = abspath (normpath (join (base_dir args) d))
    ∧ optional_path args tbl "map" (normpath (join data_path "../map"))
      = Some map_path
    ∧ optional_path args tbl "ruleset" RESOURCES_PATH = Some rules
    ∧ force_sub_dir rules "rules" = OK rule_set_path
    ∧ optional_path args tbl "chartsymbols"
        (abspath (join RESOURCES_PATH "chartsymbols/chartsymbols_S57.xml"))
      = Some chartsymbols
    ∧ split_method
        (default (TString "Standard") (config args !! "displaycategory"))
      = OK displaycategory
    ∧ lower_method (default (TString "rigid") (config args !! "topmark_type"))
      = OK topmark.

(** The value [TOPMAR_FLOATING] is set to. *)
Definition floating_flag (topmark : string) : option string :=
  if String.eqb topmark "rigid" then Some ""
  else if String.eqb topmark "floating" then Some "1"
  else None.

(** An exception some call out of the script raises. *)
Definition host_raises (e : exn) : Prop :=
  (∃ ev, answer ev = Raise e)
  ∨ (∃ path sub, force_sub_dir path sub = Raise e)
  ∨ (∃ path, does_color_tables_exist path = Raise e)
  ∨ (∃ path, does_layer_rules_exist path = Raise e).

Inductive RunShape (args : Args) : list Event -> Outcome unit -> Prop :=
| NoDataPath :
    lacks_data_path (config args) ->
    RunShape args [Print Stderr data_path_message] (Exited 1%Z)
| Crashed (t : list Event) (e : exn) :
    e = TypeError \/ e = AttributeError \/ host_raises e ->
    Forall (fun ev => quiet ev = true) t ->
    RunShape args t (Uncaught e)
| Interrupted (data_path map_path rule_set_path chartsymbols : string)
    (displaycategory : list string) (topmark flag : string)
    (made later : list Event) (e : exn) :
    resolved args data_path map_path rule_set_path chartsymbols
      displaycategory topmark ->
    floating_flag topmark = Some flag ->
    format args = Chart ->
    host_raises e ->
    made ++ later
    = layer_rules_events args rule_set_path
      ++ [Chdir (dirname script_file);
          GenerateBasechartConfig
            (basechart_args args data_path map_path rule_set_path
               chartsymbols (displaycategory ++ ["Displaybase"]))]
      ++ symbolset_events map_path ->
    RunShape args
      (prelude_events args rule_set_path chartsymbols
       ++ [Environ "TOPMAR_FLOATING" flag] ++ made)
      (Uncaught e)
| BadTopmark (data_path map_path rule_set_path chartsymbols : string)
    (displaycategory : list string) (topmark : string) :
    resolved args data_path map_path rule_set_path chartsymbols
      displaycategory topmark ->
    floating_flag topmark = None ->
    RunShape args
      (prelude_events args rule_set_path chartsymbols
       ++ [Print Stdout topmark_message])
      (Exited 2%Z)
| OtherFormat (data_path map_path rule_set_path chartsymbols : string)
    (displaycategory : list string) (topmark flag : string) :
    resolved args data_path map_path rule_set_path chartsymbols
      displaycategory topmark ->
    floating_flag topmark = Some flag ->
    format args <> Chart ->
    RunShape args
      (prelude_events args rule_set_path chartsymbols
       ++ [Environ "TOPMAR_FLOATING" flag;
           Print Stderr (format_message (format args))])
      (Exited 1%Z)
| Generated (data_path map_path rule_set_path chartsymbols : string)
    (displaycategory : list string) (topmark flag : string) :
    resolved args data_path map_path rule_set_path chartsymbols
      displaycategory topmark ->
    floating_flag topmark = Some flag ->
    format args = Chart ->
    RunShape args
      (prelude_events args rule_set_path chartsymbols
       ++ [Environ "TOPMAR_FLOATING" flag]
       ++ layer_rules_events args rule_set_path
       ++ [Chdir (dirname script_file);
           GenerateBasechartConfig
             (basechart_args args data_path map_path rule_set_path
                chartsymbols (displaycategory ++ ["Displaybase"]))]
       ++ symbolset_events map_path)
      (Returned tt).

End Script.

(** The claim that a configuration without a value at [paths.data] always
    gets the message and status 1, as the specification words it. *)
Definition missing_data_path_exits : Prop :=
  ∀ (H : Host) (args : Args),
    no_data_path (config args) →
    main args
    = ([Print Stderr "Data path missing from configuration file"],
       Exited 1%Z).

End GenerateMapConfig.

(** ** A small instance of the parameters

    Lookups are lists of records, [@] pairs every lookup on the left with
    every lookup on the right, and a command is a CS command when its text
    starts with [CS].  The instance serves to run the definitions on
    concrete documents. *)

Module Sample.

Import Chartsymbols GenerateMapConfig.

Record SLookup : Type := {
  sl_id : string;
  sl_table : option string;
  sl_instruction : list string
}.

Definition merge (a b : SLookup) : SLookup :=
  {| sl_id := sl_id a +:+ sl_id b;
     sl_table := match sl_table b with
                 | Some t => Some t
                 | None => sl_table a
                 end;
     sl_instruction := sl_instruction a ++ sl_instruction b |}.

Definition passed {A} (d : A) (x : kwarg A) : A :=
  match x with
  | Passed a => a
  | Omitted => d
  end.

Fixpoint digits (acc : Z) (s : string) : option Z :=
  match s with
  | EmptyString => Some acc
  | String c s' =>
      let n := nat_of_ascii c in
      if (48 <=? n)%nat && (n <=? 57)%nat
      then digits (10 * acc + Z.of_nat (n - 48))%Z s'
      else None
  end.

Definition mapgen : Mapgen :=
  {| MSFilterV := string;
     Rules := list string;
     Prio := option string;
     Command := string;
     LookupV := list SLookup;
     Symbol := key;
     PyVal := unit;
     MSFilter_from_attrcode :=
       fun t => match t with Some s => OK s | None => Raise TypeError end;
     MSAnd := OK;
     DisplayPriority_get := OK;
     DisplayPriority_AreaSymbol := Some "Area Symbol";
     get_command := OK;
     CS_proc :=
       fun c =>
         match c with
         | String "C" (String "S" rest) => Some rest
         | _ => None
         end;
     lookups_from_cs :=
       fun details _ _ =>
         OK [ {| sl_id := ""; sl_table := None;
                 sl_instruction := [details +:+ "/1"] |};
              {| sl_id := ""; sl_table := None;
                 sl_instruction := [details +:+ "/2"] |} ];
     Lookup :=
       fun a =>
         [ {| sl_id := default "" (passed None (arg_id a));
              sl_table := passed None (arg_table a);
              sl_instruction := passed [] (arg_instruction a) |} ];
     py_list := fun l => concat l;
     matmul :=
       fun a b => OK (flat_map (fun x => List.map (merge x) b) a);
     add_instruction :=
       fun a c =>
         OK (List.map
               (fun x => {| sl_id := sl_id x; sl_table := sl_table x;
                            sl_instruction := sl_instruction x ++ [c] |}) a);
     iter_lookups := List.map (fun x => [x]);
     VectorSymbol := fun e => OK (get e "name");
     Pattern_from_element := fun e => OK (Some (get e "name"));
     symbol_bool := fun s => match s with Some _ => true | None => false end;
     symbol_name := fun s => s;
     int_of_str :=
       fun s => match s with EmptyString => None | _ => digits 0 s end |}.

Definition host : Host :=
  {| SymbolsetV := string;
     abspath := fun p => p;
     normpath := fun p => p;
     join := fun a b => a +:+ "/" +:+ b;
     dirname := fun _ => ".";
     isfile := fun _ => true;
     script_file := "./generate_map_config.py";
     force_sub_dir := fun a b => OK (a +:+ "/" +:+ b);
     does_color_tables_exist := fun _ => OK true;
     does_layer_rules_exist := fun _ => OK true;
     create_color_rules := fun _ _ => OK tt;
     create_layer_rules := fun _ _ => OK tt;
     chdir := fun _ => OK tt;
     generate_basechart_config := fun _ => OK tt;
     generate_symbolset := fun _ _ _ => OK tt;
     symbolsets := ["symbols"];
     str_lower := fun s => s |}.


(** Documents. *)
Definition leaf (t x : string) : Element := Elem t ∅ (Some x) [].

Definition lookup_elem (name type table display instruction : string)
    : Element :=
  Elem "lookup" {[ "id" := "1"; "name" := name ]} None
       [ leaf "type" type; leaf "disp-prio" "Area 1";
         leaf "table-name" table; leaf "display-cat" display;
         leaf "comment" ""; leaf "instruction" instruction ].

Definition symbol_elem (name : string) : Element :=
  Elem "symbol" ∅ None
       [ leaf "name" name;
         Elem "bitmap" {[ "width" := "12"; "height" := "8" ]} None
              [ Elem "pivot" {[ "x" := "6"; "y" := "4" ]} None [] ] ].

Definition color_elem (name r g b : string) : Element :=
  Elem "color" {[ "name" := name; "r" := r; "g" := g; "b" := b ]} None [].

Definition chart (nodes : list Element) : Element :=
  Elem "chartsymbols" ∅ None nodes.

(** A lookup of a type that is none of Point, Line and Area. *)
Definition odd_lookup : Element :=
  lookup_elem "ACHARE" "Volume" "Simplified" "Standard" "SY(ACHARE02)".

(** A point lookup without its [type] child. *)
Definition broken_lookup : Element :=
  Elem "lookup" {[ "id" := "2"; "name" := "BCNCAR" ]} None
       [ leaf "disp-prio" "Area 1"; leaf "table-name" "Simplified";
         leaf "display-cat" "Standard"; leaf "comment" "";
         leaf "instruction" "SY(BCNCAR01)" ].

(** A symbol whose bitmap has no [pivot]. *)
Definition broken_symbol : Element :=
  Elem "symbol" ∅ None
       [ leaf "name" "ACHARE02";
         Elem "bitmap" {[ "width" := "12"; "height" := "8" ]} None [] ].

(** A small catalog: two color tables, a good and a broken symbol, and
    lookups that are accepted, of an odd type, broken, excluded, filtered
    out by their category, and accepted again. *)
Definition boylat : Element :=
  lookup_elem "BOYLAT" "Point" "Simplified" "Standard"
    "SY(BOYLAT13);CS(TOPMAR01);;TX(OBJNAM)".

Definition boylat_again : Element :=
  lookup_elem "BOYLAT" "Point" "Simplified" "Displaybase" "SY(BOYLAT14)".

Definition m_qual : Element :=
  lookup_elem "M_QUAL" "Area" "Plain" "Standard" "AP(DQUALA11)".

Definition depare : Element :=
  lookup_elem "DEPARE" "Area" "Plain" "Other" "AC(DEPDW)".

Definition depcnt : Element :=
  lookup_elem "DEPCNT" "Line" "Lines" "Displaybase" "LS(SOLD,1,DEPCN)".

Definition day_bright : Element :=
  Elem "color-table" {[ "name" := "DAY_BRIGHT" ]} None
       [ color_elem "NODTA" "163" "180" "183";
         color_elem "CURSR" "235" "125" "54" ].

Definition dusk : Element :=
  Elem "color-table" {[ "name" := "DUSK" ]} None
       [ color_elem "NODTA" "40" "45" "46" ].

Definition catalog : Element :=
  chart [ Elem "color-tables" ∅ None [ day_bright; dusk ];
          symbol_elem "BOYLAT13"; broken_symbol;
          boylat; odd_lookup; broken_lookup; m_qual; depare; boylat_again;
          depcnt ].

(** A catalog whose only lookups are broken or excluded. *)
Definition dead_catalog : Element := chart [ broken_lookup; m_qual ].

Definition fields (name type table display instruction : string)
    : @LookupFields mapgen :=
  @Build_LookupFields mapgen (Some name) (Some "1") (Some type) (Some table)
    (Some display) (Some "") instruction (@nil string) (Some "Area 1").

Definition boylat_fields : @LookupFields mapgen :=
  fields "BOYLAT" "Point" "Simplified" "Standard"
    "SY(BOYLAT13);CS(TOPMAR01);;TX(OBJNAM)".

Definition odd_fields : @LookupFields mapgen :=
  fields "ACHARE" "Volume" "Simplified" "Standard" "SY(ACHARE02)".

Definition m_qual_fields : @LookupFields mapgen :=
  fields "M_QUAL" "Area" "Plain" "Standard" "AP(DQUALA11)".

Definition entry (id table : string) (instruction : list string)
    : @LookupV mapgen :=
  ([ {| sl_id := id; sl_table := Some table;
        sl_instruction := instruction |} ] : list SLookup).

(** The virtual lookup in this instance. *)
Definition sndg_entries : list (@LookupV mapgen) :=
  [ entry "X-SNDG" "Paper" ["SOUNDG/1"]; entry "X-SNDG" "Paper" ["SOUNDG/2"];
    entry "X-SNDG" "Simplified" ["SOUNDG/1"];
    entry "X-SNDG" "Simplified" ["SOUNDG/2"] ].

(** A value handed through to a layer. *)
Definition val : @PyVal mapgen := tt.

(** Arguments of the script. *)
Definition args_of (cfg : gmap string toml) : Args :=
  {| config_file := "chart.toml"; format := Chart; force := false;
     base_dir := "."; config := cfg |}.

Definition good_config : gmap string toml :=
  {[ "paths" := TTable {[ "data" := TString "enc" ]};
     "displaycategory" := TString "Standard,Other" ]}.

(** The small instance with symbol constructors that raise on an element
    without a [name]. *)
Definition strict : Mapgen :=
  {| MSFilterV := @MSFilterV mapgen;
     Rules := @Rules mapgen;
     Prio := @Prio mapgen;
     Command := @Command mapgen;
     LookupV := @LookupV mapgen;
     Symbol := @Symbol mapgen;
     PyVal := @PyVal mapgen;
     MSFilter_from_attrcode := @MSFilter_from_attrcode mapgen;
     MSAnd := @MSAnd mapgen;
     DisplayPriority_get := @DisplayPriority_get mapgen;
     DisplayPriority_AreaSymbol := @DisplayPriority_AreaSymbol mapgen;
     get_command := @get_command mapgen;
     CS_proc := @CS_proc mapgen;
     lookups_from_cs := @lookups_from_cs mapgen;
     Lookup := @Lookup mapgen;
     py_list := @py_list mapgen;
     matmul := @matmul mapgen;
     add_instruction := @add_instruction mapgen;
     iter_lookups := @iter_lookups mapgen;
     VectorSymbol :=
       fun e => match get e "name" with
                | Some n => OK (Some n)
                | None => Raise KeyError
                end;
     Pattern_from_element :=
       fun e => match get e "name" with
                | Some n => OK (Some (Some n))
                | None => Raise KeyError
                end;
     symbol_bool := @symbol_bool mapgen;
     symbol_name := @symbol_name mapgen;
     int_of_str := @int_of_str mapgen |}.

(** Line styles and patterns, with and without a name. *)
Definition line_style (name : string) : Element :=
  Elem "line-style" {[ "name" := name ]} None [].

Definition nameless_style : Element := Elem "line-style" ∅ None [].

Definition pattern_elem (name : string) : Element :=
  Elem "pattern" {[ "name" := name ]} None [].

Definition styled_catalog : Element :=
  chart [ line_style "DASH"; nameless_style; pattern_elem "DIAMOND1" ].

(** A point lookup without a [name] attribute. *)
Definition nameless_lookup : Element :=
  Elem "lookup" {[ "id" := "7" ]} None
       [ leaf "type" "Point"; leaf "disp-prio" "Area 1";
         leaf "table-name" "Simplified"; leaf "display-cat" "Standard";
         leaf "comment" ""; leaf "instruction" "SY(QUESMRK1)" ].

Definition nameless_fields : @LookupFields mapgen :=
  @Build_LookupFields mapgen None (Some "7") (Some "Point")
    (Some "Simplified") (Some "Standard") (Some "") "SY(QUESMRK1)"
    (@nil string) (Some "Area 1").

Definition nameless_catalog : Element := chart [ nameless_lookup ].

(** A lookup whose instruction is made of separators. *)
Definition blank_fields : @LookupFields mapgen :=
  fields "NEWOBJ" "Point" "Simplified" "Standard" ";;".


(** A lookup with an [attrib-code] child without text, on which the
    filter of the instance raises [TypeError]. *)
Definition unfiltered_lookup : Element :=
  Elem "lookup" {[ "id" := "3"; "name" := "LNDARE" ]} None
       [ leaf "type" "Area"; leaf "disp-prio" "Area 1";
         leaf "table-name" "Plain"; leaf "display-cat" "Standard";
         leaf "comment" ""; leaf "instruction" "AC(LANDA)";
         Elem "attrib-code" ∅ None [] ].

Definition strange_catalog : Element :=
  chart [ boylat; unfiltered_lookup; depcnt ].

(** A catalog that already has a line lookup. *)
Definition old_entry : @LookupV mapgen :=
  entry "0" "Lines" ["LS(DASH,1,CHBLK)"].

Definition stocked : @ChartSymbols mapgen :=
  @upd_line_lookups mapgen (insert (Some "DEPCNT") [old_entry])
    (@class_defaults mapgen).

(** Configurations: a topmark type that is neither rigid nor floating, a
    [paths] that is a text, and the deprecated [tablename]. *)
Definition sideways_config : gmap string toml :=
  {[ "paths" := TTable {[ "data" := TString "enc" ]};
     "topmark_type" := TString "sideways" ]}.

Definition flat_config : gmap string toml :=
  {[ "paths" := TString "enc" ]}.

Definition old_config : gmap string toml :=
  {[ "paths" := TTable {[ "data" := TString "enc" ]};
     "tablename" := TString "Paper";
     "point_table" := TString "Simplified" ]}.

End Sample.

(** * Properties *)

(** ** The error monad and its loops *)

Module PyFacts.

Lemma bind_OK {A B} (m : Exc A) (k : A -> Exc B) (b : B) :
  Py.bind m k = OK b ↔ ∃ a, m = OK a ∧ k a = OK b.
Proof.
  destruct m as [a|e]; simpl; split.
  - intros Hk. by exists a.
  - by intros (a' & [= <-] & Hk).
  - discriminate.
  - by intros (a' & [=] & _).
Qed.

Lemma foldM_app {S A} (body : S -> A -> Exc S) (l1 l2 : list A) (s : S) :
  foldM body s (l1 ++ l2)
  = Py.bind (foldM body s l1) (fun s' => foldM body s' l2).
Proof.
  revert s. induction l1 as [|x l1 IH]; intros s; simpl; [done|].
  destruct (body s x) as [s'|e]; simpl; [apply IH | done].
Qed.

(** An invariant of the loop body is one of the loop. *)
Lemma foldM_invariant {S A} (P : S -> Prop) (body : S -> A -> Exc S)
    (l : list A) (s s' : S) :
  (∀ s1 x s2, P s1 → body s1 x = OK s2 → P s2) →
  P s → foldM body s l = OK s' → P s'.
Proof.
  intros Hstep. revert s. induction l as [|x l IH]; intros s Hs; simpl.
  - by intros [= <-].
  - intros (s1 & Hx & Hl)%bind_OK. eapply IH; [|done]. eauto.
Qed.


Lemma omap_cons {A B} (f : A -> option B) (x : A) (l : list A) :
  omap f (x :: l)
  = match f x with
    | Some y => y :: omap f l
    | None => omap f l
    end.
Proof. reflexivity. Qed.

Lemma split_nonempty (sep : ascii) (s : string) : split sep s ≠ [].
Proof.
  destruct s as [|c s]; simpl; [done|].
  destruct (Ascii.eqb c sep); [done|]. by destruct (split sep s).
Qed.

End PyFacts.

(** ** The catalog *)

Module CatalogFacts.

Import PyFacts Chartsymbols.

Section Colours.

Context `{M : Mapgen}.

(** A dictionary filled by a loop of assignments holds, under a key, the
    value of the last round that assigned to it. *)
Lemma fold_insert_lookup {A V} (kf : A -> key) (vf : A -> V) (l : list A)
    (m : gmap key V) (n : key) :
  fold_left (fun m x => <[kf x := vf x]> m) l m !! n
  = match last (filter (fun x => kf x = n) l) with
    | Some x => Some (vf x)
    | None => m !! n
    end.
Proof.
  revert m. induction l as [|a l IH]; intros m; simpl; [done|].
  rewrite IH, filter_cons. destruct (decide (kf a = n)) as [<-|Hne].
  - destruct (filter _ l) as [|y ys]; simpl.
    + by rewrite lookup_insert_eq.
    + destruct (last (y :: ys)) eqn:Hlast; [done|].
      by apply last_None in Hlast.
  - destruct (last (filter _ l)); [done|]. by rewrite lookup_insert_ne.
Qed.

Lemma last_filter_elem {A} (P : A -> Prop) `{!∀ x, Decision (P x)}
    (l : list A) (x : A) :
  x ∈ l → P x → ∃ y, last (filter P l) = Some y ∧ y ∈ l ∧ P y.
Proof.
  intros Hx HP.
  assert (Hin : x ∈ filter P l) by (apply list_elem_of_filter; done).
  destruct (last (filter P l)) as [y|] eqn:Hlast.
  - exists y. split; [done|]. apply last_Some in Hlast as [l' Hl'].
    assert (Hy : y ∈ filter P l) by (rewrite Hl'; apply elem_of_app; right; constructor).
    by apply list_elem_of_filter in Hy as [? ?].
  - apply last_None in Hlast. rewrite Hlast in Hin. by apply elem_of_nil in Hin.
Qed.

(** C6.  [load_color_table] maps the name of every color-table element of
    the document to a dictionary that sends the name of each color below
    the table to the [Color] of its r, g and b attributes (the last table
    of a name, and the last color of a name, being the one that stays);
    [load_colors] makes the table of the configured name the active one,
    and the empty dictionary when the document has no table of that
    name. *)
Theorem color_tables_loaded (root : Element) (name : string)
    (self : ChartSymbols) :
  let tables := load_color_table root in
  let active :=
    color_table (load_colors name (set__color_tables tables self)) in
  (∀ n, tables !! n
        = table_colors
            <$> last (filter (fun t => get t "name" = n)
                             (iter "color-table" root)))
  ∧ (∀ table, table ∈ iter "color-table" root →
       ∃ t', t' ∈ iter "color-table" root
             ∧ get t' "name" = get table "name"
             ∧ tables !! get table "name" = Some (table_colors t'))
  ∧ (∀ table n, table_colors table !! n
        = color_of
            <$> last (filter (fun c => get c "name" = n)
                             (iter "color" table)))
  ∧ (∀ table color, color ∈ iter "color" table →
       ∃ c', c' ∈ iter "color" table
             ∧ get c' "name" = get color "name"
             ∧ table_colors table !! get color "name"
               = Some {| r := get c' "r"; g := get c' "g"; b := get c' "b" |})
  ∧ active = default ∅ (tables !! Some name)
  ∧ ((∀ t, t ∈ iter "color-table" root → get t "name" ≠ Some name) →
     active = ∅).
Proof.
  intros tables active.
  assert (Htab : ∀ n, tables !! n
      = table_colors <$> last (filter (fun t => get t "name" = n)
                                      (iter "color-table" root))).
  { intros n. unfold tables, load_color_table.
    rewrite (fold_insert_lookup (fun t => get t "name") table_colors).
    rewrite lookup_empty. by destruct (last _). }
  assert (Hcol : ∀ table n, table_colors table !! n
      = color_of <$> last (filter (fun c => get c "name" = n)
                                  (iter "color" table))).
  { intros table n. unfold table_colors.
    rewrite (fold_insert_lookup (fun c => get c "name") color_of).
    rewrite lookup_empty. by destruct (last _). }
  split; [done|]. split; [|split; [done|split; [|split]]].
  - intros table Hin.
    destruct (last_filter_elem (fun t => get t "name" = get table "name")
                _ table Hin eq_refl) as (y & Hlast & Hy & Hname).
    exists y. rewrite Htab, Hlast. done.
  - intros table color Hin.
    destruct (last_filter_elem (fun c => get c "name" = get color "name")
                _ color Hin eq_refl) as (y & Hlast & Hy & Hname).
    exists y. rewrite Hcol, Hlast. done.
  - done.
  - intros Hnone. unfold active, load_colors; simpl. fold tables.
    rewrite Htab.
    destruct (last _) as [y|] eqn:Hlast; [|done].
    apply last_Some in Hlast as [l' Hl'].
    assert (Hy : y ∈ filter (fun t => get t "name" = Some name)
                        (iter "color-table" root))
      by (rewrite Hl'; apply elem_of_app; right; constructor).
    apply list_elem_of_filter in Hy as [Hname Hy]. by destruct (Hnone y Hy).
Qed.

End Colours.

Section Lookups.

Context `{M : Mapgen}.

(** *** Updates of one dictionary leave the others alone *)

Lemma table_of_upd_same (t : TableRef) f (self : ChartSymbols) :
  t ≠ Detached → table_of t (upd_table t f self) = f (table_of t self).
Proof. by destruct t. Qed.

Lemma table_of_upd_other (t t' : TableRef) f (self : ChartSymbols) :
  t' ≠ t → table_of t' (upd_table t f self) = table_of t' self.
Proof. by destruct t, t'. Qed.

Lemma excluded_upd_table (t : TableRef) f (self : ChartSymbols) :
  excluded_lookups (upd_table t f self) = excluded_lookups self.
Proof. by destruct t. Qed.

Lemma lookup_append_setdefault (name k : key) (new : list LookupV)
    (d : gmap key (list LookupV)) :
  append_all name new (setdefault name d) !! k
  = if decide (k = name) then Some (default [] (d !! name) ++ new)
    else d !! k.
Proof.
  unfold append_all, setdefault. destruct (decide (k = name)) as [->|Hne].
  - rewrite lookup_alter_eq. destruct (d !! name) as [l|] eqn:Hd.
    + by rewrite Hd.
    + by rewrite lookup_insert_eq.
  - rewrite lookup_alter_ne by done. destruct (d !! name); [done|].
    by rewrite lookup_insert_ne.
Qed.

(** *** The two halves of a round *)

Lemma add_lookup_OK (f : LookupFields) (self self' : ChartSymbols) :
  add_lookup f self = OK self' ↔
  ∃ new, lookup_entries f = OK new
         ∧ self' = upd_table (table_for (lf_lookup_type f))
                     (fun d => append_all (lf_name f) new
                                 (setdefault (lf_name f) d)) self.
Proof.
  unfold add_lookup. rewrite bind_OK. split.
  - intros (new & Hnew & [= <-]). exists new. split; [done|].
    by destruct (table_for _).
  - intros (new & Hnew & ->). exists new. split; [done|].
    by destruct (table_for _).
Qed.

Lemma add_virtual_sndg_OK (self self' : ChartSymbols) :
  add_virtual_sndg self = OK self' ↔
  ∃ sndg, virtual_sndg = OK sndg
          ∧ self' = upd_point_lookups (insert sndg_key sndg) self.
Proof.
  unfold add_virtual_sndg. rewrite bind_OK. split.
  - intros (sndg & Hs & [= <-]). by exists sndg.
  - intros (sndg & Hs & ->). by exists sndg.
Qed.

Lemma table_of_add_virtual (t : TableRef) (k : key) sndg
    (self : ChartSymbols) :
  (t, k) ≠ (InPoint, sndg_key) →
  table_of t (upd_point_lookups (insert sndg_key sndg) self) !! k
  = table_of t self !! k.
Proof.
  intros Hne. destruct t; simpl; try done.
  rewrite lookup_insert_ne; [done|]. congruence.
Qed.

(** *** One round of the loop *)

Variables point_style area_style : string.
Variable displaycategory : Container.

Local Abbreviation body :=
  (load_lookups_body point_style area_style displaycategory).
Local Abbreviation contrib excluded :=
  (contribution point_style area_style displaycategory excluded).

Lemma body_excluded (self self' : ChartSymbols) (lookup : Element) :
  body self lookup = OK self' →
  excluded_lookups self' = excluded_lookups self.
Proof.
  unfold load_lookups_body.
  destruct (parse_lookup lookup) as [f|e].
  - destruct (is_excluded _ _); [by intros [= <-]|].
    intros (s1 & Hs1 & (sndg & _ & ->)%add_virtual_sndg_OK)%bind_OK.
    simpl. destruct (passes_filter _ _ _ _).
    + apply add_lookup_OK in Hs1 as (new & _ & ->).
      apply excluded_upd_table.
    + by injection Hs1 as <-.
  - destruct (skipped e); [by intros [= <-]|done].
Qed.


(** What a round that returns has stored. *)
Lemma body_tables (self self' : ChartSymbols) (lookup : Element) :
  body self lookup = OK self' →
  (∀ t k, t ≠ Detached → (t, k) ≠ (InPoint, sndg_key) →
     table_of t self' !! k
     = match contrib (excluded_lookups self) t k lookup with
       | Some new => Some (default [] (table_of t self !! k) ++ new)
       | None => table_of t self !! k
       end)
  ∧ point_lookups self' !! sndg_key
    = match live_fields (excluded_lookups self) lookup with
      | Some _ =>
          match virtual_sndg with
          | OK sndg => Some sndg
          | Raise _ => None
          end
      | None => point_lookups self !! sndg_key
      end.
Proof.
  unfold load_lookups_body, contribution, accepted_fields, live_fields.
  destruct (parse_lookup lookup) as [f|e]; cycle 1.
  { destruct (skipped e); [|done]. by intros [= <-]. }
  destruct (is_excluded _ _); [by intros [= <-]|].
  intros (s1 & Hs1 & (sndg & Hsndg & ->)%add_virtual_sndg_OK)%bind_OK.
  rewrite Hsndg. split; [|simpl; by rewrite lookup_insert_eq].
  intros t k Ht Htk. rewrite table_of_add_virtual by done.
  destruct (passes_filter _ _ _ _); [|by injection Hs1 as <-].
  apply add_lookup_OK in Hs1 as (new & Hnew & ->).
  unfold entries_or_nil. rewrite Hnew.
  destruct (decide (table_for (lf_lookup_type f) = t ∧ lf_name f = k))
    as [[<- <-]|Hno].
  - rewrite table_of_upd_same by done.
    rewrite lookup_append_setdefault. by rewrite decide_True.
  - destruct (decide (table_for (lf_lookup_type f) = t)) as [<-|Hneq].
    + rewrite table_of_upd_same by done.
      rewrite lookup_append_setdefault. rewrite decide_False; [done|].
      intros ->. by apply Hno.
    + by rewrite table_of_upd_other.
Qed.

(** Whatever the parameters are, a round that returns for a lookup of a
    type other than Point, Line and Area has put nothing under the name of
    the lookup. *)
Lemma odd_type_adds_nothing (self self' : ChartSymbols) (lookup : Element)
    (f : LookupFields) :
  parse_lookup lookup = OK f →
  table_for (lf_lookup_type f) = Detached →
  lf_name f ≠ sndg_key →
  body self lookup = OK self' →
  ¬ entry_added (lf_name f) self self'.
Proof.
  intros Hparse Hodd Hname Hbody.
  destruct (body_tables _ _ _ Hbody) as [Hsame _].
  assert (Hkeep : ∀ t, t ≠ Detached →
            table_of t self' !! lf_name f = table_of t self !! lf_name f).
  { intros t Ht. rewrite (Hsame t (lf_name f) Ht) by congruence.
    unfold contribution, accepted_fields, live_fields. rewrite Hparse.
    destruct (is_excluded _ _); [done|].
    destruct (passes_filter _ _ _ _); [|done].
    rewrite decide_False; [done|]. intros [Ht' _]. congruence. }
  intros [Hne|[Hne|Hne]]; apply Hne.
  - by apply (Hkeep InPoint).
  - by apply (Hkeep InLine).
  - by apply (Hkeep InPolygon).
Qed.

(** *** The whole loop *)

Lemma loop_excluded (elems : list Element) (self self' : ChartSymbols) :
  foldM body self elems = OK self' →
  excluded_lookups self' = excluded_lookups self.
Proof.
  intros Hloop.
  apply (foldM_invariant
           (fun s => excluded_lookups s = excluded_lookups self)
           body elems self self'); [|done|done].
  intros s1 x s2 Hs1 Hx. rewrite <- Hs1. by eapply body_excluded.
Qed.

Lemma loop_tables (elems : list Element) (self self' : ChartSymbols)
    (t : TableRef) (k : key) :
  foldM body self elems = OK self' →
  t ≠ Detached → (t, k) ≠ (InPoint, sndg_key) →
  table_of t self' !! k
  = table_after (table_of t self !! k)
      (omap (contrib (excluded_lookups self) t k) elems).
Proof.
  intros Hloop Ht Htk. revert self Hloop.
  induction elems as [|x elems IH]; intros self.
  { by intros [= <-]. }
  cbn [foldM]. intros (s1 & Hx & Hrest)%bind_OK.
  rewrite (IH s1 Hrest), (body_excluded _ _ _ Hx), omap_cons.
  destruct (body_tables _ _ _ Hx) as [Htab _].
  rewrite (Htab t k Ht Htk).
  destruct (contrib (excluded_lookups self) t k x) as [new|]; [|done].
  destruct (omap _ elems) as [|b bs]; simpl.
  - by rewrite app_nil_r.
  - by rewrite <- !app_assoc.
Qed.

Lemma loop_sndg (elems : list Element) (self self' : ChartSymbols) :
  foldM body self elems = OK self' →
  point_lookups self' !! sndg_key
  = match omap (live_fields (excluded_lookups self)) elems with
    | [] => point_lookups self !! sndg_key
    | _ :: _ =>
        match virtual_sndg with
        | OK sndg => Some sndg
        | Raise _ => None
        end
    end.
Proof.
  revert self. induction elems as [|x elems IH]; intros self.
  { by intros [= <-]. }
  cbn [foldM]. intros (s1 & Hx & Hrest)%bind_OK.
  rewrite (IH s1 Hrest), (body_excluded _ _ _ Hx), omap_cons.
  destruct (body_tables _ _ _ Hx) as [_ Hs]. rewrite Hs.
  destruct (live_fields (excluded_lookups self) x) as [f|].
  - by destruct (omap _ elems).
  - done.
Qed.

(** When some element is live the virtual lookup was built. *)
Lemma loop_sndg_built (elems : list Element) (self self' : ChartSymbols)
    (x : Element) :
  foldM body self elems = OK self' →
  x ∈ elems → is_Some (live_fields (excluded_lookups self) x) →
  ∃ sndg, virtual_sndg = OK sndg.
Proof.
  revert self. induction elems as [|y elems IH]; intros self; simpl.
  { intros _ Hx. by apply elem_of_nil in Hx. }
  intros (s1 & Hy & Hrest)%bind_OK Hx Hlive.
  apply elem_of_cons in Hx as [->|Hx].
  - revert Hy. unfold load_lookups_body. destruct Hlive as [f Hf].
    unfold live_fields in Hf. destruct (parse_lookup y) as [f'|e]; [|done].
    destruct (is_excluded _ _); [done|].
    intros (s2 & _ & (sndg & Hs & _)%add_virtual_sndg_OK)%bind_OK.
    by exists sndg.
  - eapply (IH s1); [done|done|]. by rewrite (body_excluded _ _ _ Hy).
Qed.

(** The expansion of every accepted element of a loop that returns did
    return. *)
Lemma loop_entries_built (elems : list Element) (self self' : ChartSymbols)
    (x : Element) (f : LookupFields) :
  foldM body self elems = OK self' →
  x ∈ elems →
  accepted_fields point_style area_style displaycategory
    (excluded_lookups self) x = Some f →
  ∃ new, lookup_entries f = OK new.
Proof.
  revert self. induction elems as [|y elems IH]; intros self.
  { intros _ Hx. by apply elem_of_nil in Hx. }
  cbn [foldM]. intros (s1 & Hy & Hrest)%bind_OK Hx Hacc.
  apply elem_of_cons in Hx as [->|Hx].
  - revert Hy Hacc. unfold load_lookups_body, accepted_fields, live_fields.
    destruct (parse_lookup y) as [f'|e]; [|done].
    destruct (is_excluded _ _); [done|].
    destruct (passes_filter _ _ _ _); [|done].
    intros (s2 & (new & Hnew & _)%add_lookup_OK & _)%bind_OK [= <-].
    by exists new.
  - eapply (IH s1); [done|done|]. by rewrite (body_excluded _ _ _ Hy).
Qed.


End Lookups.

Section Filter.

Context `{M : Mapgen}.

Lemma passes_filter_spec (point_style area_style : string)
    (displaycategory : option (list string)) (f : LookupFields) :
  passes_filter point_style area_style (container_of displaycategory) f
  = true
  ↔ table_and_category_match point_style area_style displaycategory f.
Proof.
  unfold passes_filter, table_and_category_match.
  rewrite andb_true_iff, bool_decide_eq_true.
  apply and_iff_compat_l.
  destruct displaycategory as [l|]; simpl.
  - destruct (lf_display f) as [d|].
    + rewrite bool_decide_eq_true. split.
      * intros Hd. right. by exists l, d.
      * intros [[=]|(l' & d' & [= <-] & [= <-] & Hd)]. done.
    + split; [done|]. by intros [[=]|(l' & d' & _ & [=] & _)].
  - split; [by left|done].
Qed.

Lemma table_for_typed (lookup_type : option string) :
  table_for lookup_type ≠ Detached
  ↔ lookup_type = Some "Point" ∨ lookup_type = Some "Line"
    ∨ lookup_type = Some "Area".
Proof.
  unfold table_for. repeat case_decide; intuition congruence.
Qed.

End Filter.

Section Symbols.

Context `{M : Mapgen}.

Lemma symbols_loop_same_lookups (l : list Element) (self : ChartSymbols) :
  same_lookups self (fold_left load_symbols_body l self).
Proof.
  revert self. induction l as [|x l IH]; intros self; simpl.
  { by repeat split. }
  destruct (IH (load_symbols_body self x)) as (H1 & H2 & H3 & H4).
  unfold same_lookups. rewrite H1, H2, H3, H4.
  unfold load_symbols_body. by destruct (parse_symbol x) as [[n d]|e].
Qed.

Lemma linestyle_body_same (s s' : ChartSymbols) (x : Element) :
  load_linestyle_body s x = OK s' →
  same_lookups s s' ∧ symbols_def s' = symbols_def s.
Proof.
  unfold load_linestyle_body. intros (sym & _ & Hs)%bind_OK.
  destruct (symbol_bool sym); by injection Hs as <-.
Qed.

Lemma pattern_body_same (s s' : ChartSymbols) (x : Element) :
  load_pattern_body s x = OK s' →
  same_lookups s s' ∧ symbols_def s' = symbols_def s.
Proof.
  unfold load_pattern_body. intros ([sym|] & _ & Hs)%bind_OK.
  - destruct (symbol_bool sym); by injection Hs as <-.
  - by injection Hs as <-.
Qed.

Lemma load_symbols_same (root : Element) (self self' : ChartSymbols) :
  load_symbols root self = OK self' →
  same_lookups self self'
  ∧ symbols_def self'
    = symbols_def (fold_left load_symbols_body (iter "symbol" root) self).
Proof.
  unfold load_symbols. intros (s1 & H1 & H2)%bind_OK.
  pose (P := fun s0 s : ChartSymbols =>
               same_lookups s0 s ∧ symbols_def s = symbols_def s0).
  assert (Hs1 : P (fold_left load_symbols_body (iter "symbol" root) self) s1).
  { eapply (foldM_invariant (P _)); [|split; done|exact H1].
    intros a x b (Ha & Hd) Hx.
    destruct (linestyle_body_same _ _ _ Hx) as [(? & ? & ? & ?) ?].
    destruct Ha as (? & ? & ? & ?). unfold P, same_lookups.
    repeat split; congruence. }
  assert (Hs2 : P s1 self').
  { eapply (foldM_invariant (P _)); [|split; done|exact H2].
    intros a x b (Ha & Hd) Hx.
    destruct (pattern_body_same _ _ _ Hx) as [(? & ? & ? & ?) ?].
    destruct Ha as (? & ? & ? & ?). unfold P, same_lookups.
    repeat split; congruence. }
  destruct Hs1 as [(? & ? & ? & ?) ?], Hs2 as [(? & ? & ? & ?) ?].
  destruct (symbols_loop_same_lookups (iter "symbol" root) self)
    as (? & ? & ? & ?).
  unfold same_lookups. repeat split; congruence.
Qed.

(** Construction: the document is read, and the lookups are loaded into
    empty tables. *)
Lemma init_OK (isfile : bool) (parsed : Exc Element)
    (point_table area_table : string) (displaycategory : option (list string))
    (color_table : string) (excluded : option (list string))
    (c : ChartSymbols) :
  init isfile parsed point_table area_table displaycategory color_table
    excluded = OK c →
  ∃ root self,
    parsed = OK root
    ∧ load_lookups root point_table area_table displaycategory self = OK c
    ∧ point_lookups self = ∅ ∧ line_lookups self = ∅
    ∧ polygon_lookups self = ∅
    ∧ excluded_lookups self = default ["M_QUAL"] excluded.
Proof.
  unfold init. destruct isfile; simpl; [|done].
  intros (root & Hroot & (s1 & Hsym & Hload)%bind_OK)%bind_OK.
  exists root, s1. split; [done|]. split; [done|].
  destruct (load_symbols_same _ _ _ Hsym) as [(-> & -> & -> & ->) _].
  by destruct excluded.
Qed.





End Symbols.

Section Claims.

Context `{M : Mapgen}.

(** C1, amended.  For a lookup element that is parsed, not excluded and
    of type Point, Line or Area, the lookups it expands to are appended
    under its name to the table of its type if and only if its table name
    is the point table, the area table or 'Lines' and its display category
    is among the configured ones (any category when none is configured);
    the round then ends with the assignment of the virtual X-SNDG entry,
    which touches no other key. *)
Theorem filter_adds_entry_of_typed_lookup (point_style area_style : string)
    (displaycategory : option (list string)) (self self' : ChartSymbols)
    (lookup : Element) (f : LookupFields) :
  parse_lookup lookup = OK f →
  is_excluded (lf_name f) (excluded_lookups self) = false →
  lf_lookup_type f = Some "Point" ∨ lf_lookup_type f = Some "Line"
    ∨ lf_lookup_type f = Some "Area" →
  load_lookups_body point_style area_style (container_of displaycategory)
    self lookup = OK self' →
  let t := table_for (lf_lookup_type f) in
  let pass :=
    table_and_category_match point_style area_style displaycategory f in
  ∃ s1, add_virtual_sndg s1 = OK self'
    ∧ (pass →
       ∃ new, lookup_entries f = OK new
         ∧ table_of t s1 !! lf_name f
           = Some (default [] (table_of t self !! lf_name f) ++ new))
    ∧ (¬ pass → s1 = self)
    ∧ (table_of t self !! lf_name f = None →
       (is_Some (table_of t s1 !! lf_name f) ↔ pass))
    ∧ (∀ t' k, t' ≠ Detached → (t', k) ≠ (InPoint, sndg_key) →
       table_of t' self' !! k = table_of t' s1 !! k).
Proof.
  intros Hparse Hexcl Htype%table_for_typed. unfold load_lookups_body.
  rewrite Hparse, Hexcl. cbv beta iota zeta.
  intros (s1 & Hs1 & Hend)%bind_OK.
  set (pass := table_and_category_match _ _ _ _).
  exists s1. split; [done|].
  assert (Hlast : ∀ t' k, t' ≠ Detached → (t', k) ≠ (InPoint, sndg_key) →
            table_of t' self' !! k = table_of t' s1 !! k).
  { apply add_virtual_sndg_OK in Hend as (sndg & _ & ->).
    intros t' k _ Hk. by apply table_of_add_virtual. }
  destruct (passes_filter _ _ _ f) eqn:Hpass.
  - apply passes_filter_spec in Hpass.
    apply add_lookup_OK in Hs1 as (new & Hnew & ->).
    assert (Hnow : table_of (table_for (lf_lookup_type f))
              (upd_table (table_for (lf_lookup_type f))
                 (fun d => append_all (lf_name f) new
                             (setdefault (lf_name f) d)) self)
              !! lf_name f
            = Some (default []
                      (table_of (table_for (lf_lookup_type f)) self
                         !! lf_name f) ++ new)).
    { rewrite table_of_upd_same by done.
      rewrite lookup_append_setdefault. by rewrite decide_True. }
    split; [|split; [|split; [|done]]].
    + intros _. by exists new.
    + intros Hno. by destruct Hno.
    + intros _. rewrite Hnow. split; [done|]. by eexists.
  - injection Hs1 as <-.
    assert (Hno : ¬ pass).
    { intros Hp%passes_filter_spec. congruence. }
    split; [|split; [|split; [|done]]].
    + intros Hp. by destruct Hno.
    + done.
    + intros Hnone. rewrite Hnone. split; [by intros [l [=]]|done].
Qed.



(** C4.  Each lookup that passes the filter is appended under its name to
    the one table its type names (Point: [point_lookups], Line:
    [line_lookups], Area: [polygon_lookups]) and the other tables keep
    what they had; a lookup of any other type is appended to a list that is
    in none of the three.  After the loop a table holds, under a name, the
    lookups of the accepted elements of that type and name in document
    order, the key of the virtual entry in [point_lookups] apart, which
    the end of every round overwrites. *)
Theorem lookups_stored_by_type (root : Element)
    (point_style area_style : string)
    (displaycategory : option (list string)) (self final : ChartSymbols) :
  load_lookups root point_style area_style displaycategory self = OK final →
  let accepted :=
    accepted_fields point_style area_style (container_of displaycategory)
      (excluded_lookups self) in
  let appended :=
    contribution point_style area_style (container_of displaycategory)
      (excluded_lookups self) in
  (table_for (Some "Point") = InPoint ∧ table_for (Some "Line") = InLine
   ∧ table_for (Some "Area") = InPolygon
   ∧ ∀ lookup_type, lookup_type ≠ Some "Point" → lookup_type ≠ Some "Line" →
       lookup_type ≠ Some "Area" → table_for lookup_type = Detached)
  ∧ (∀ f (s s' : ChartSymbols), add_lookup f s = OK s' →
       ∃ new, lookup_entries f = OK new
         ∧ ∀ t k, t ≠ Detached →
             table_of t s' !! k
             = if decide (table_for (lf_lookup_type f) = t ∧ lf_name f = k)
               then Some (default [] (table_of t s !! k) ++ new)
               else table_of t s !! k)
  ∧ (∀ lookup t k new,
       appended t k lookup = Some new
       ↔ ∃ f, accepted lookup = Some f
              ∧ table_for (lf_lookup_type f) = t ∧ lf_name f = k
              ∧ new = entries_or_nil f)
  ∧ (∀ lookup f, lookup ∈ iter "lookup" root → accepted lookup = Some f →
       lookup_entries f = OK (entries_or_nil f))
  ∧ (∀ t k, t ≠ Detached → (t, k) ≠ (InPoint, sndg_key) →
       table_of t final !! k
       = table_after (table_of t self !! k)
           (omap (appended t k) (iter "lookup" root))).
Proof.
  intros Hload accepted appended.
  split; [|split; [|split; [|split]]].
  - split; [done|]. split; [done|]. split; [done|].
    intros ty H1 H2 H3. unfold table_for. by repeat case_decide.
  - intros f s s' (new & Hnew & ->)%add_lookup_OK. exists new.
    split; [done|]. intros t k Ht.
    destruct (decide (table_for (lf_lookup_type f) = t)) as [<-|Hne].
    + rewrite table_of_upd_same by done. rewrite lookup_append_setdefault.
      destruct (decide (k = lf_name f)) as [->|Hk].
      * by rewrite decide_True.
      * rewrite decide_False; [done|]. by intros [_ <-].
    + rewrite table_of_upd_other by done.
      rewrite decide_False; [done|]. by intros [? _].
  - intros lookup t k new. unfold appended, contribution. fold accepted.
    destruct (accepted lookup) as [f|]; cycle 1.
    { split; [done|]. by intros (f & [=] & _). }
    case_decide as Hd.
    + split.
      * intros [= <-]. exists f. by destruct Hd.
      * by intros (f' & [= <-] & _ & _ & ->).
    + split; [done|]. intros (f' & [= <-] & Ht & Hk & _). by destruct Hd.
  - intros lookup f Hin Hacc.
    destruct (loop_entries_built _ _ _ _ _ _ _ _ Hload Hin Hacc)
      as [new Hnew].
    unfold entries_or_nil. by rewrite Hnew.
  - intros t k Ht Htk. by apply loop_tables.
Qed.

(** C5.  [get_point_mapfile] returns a [LightsLayer] around the layer it
    built exactly when the feature is 'LIGHTS', and the built layer itself
    otherwise; the layer is a 'POINT' layer on the [point_lookups] entry of
    the feature, on the empty list when there is none;
    [get_line_mapfile] and [get_poly_mapfile] build 'LINE' and 'POLYGON'
    layers on the entries of [line_lookups] and [polygon_lookups] in the
    same way. *)
Theorem mapfile_layers (self : ChartSymbols) (layer group msd fields : PyVal)
    (feature : key) :
  let point := get_point_mapfile self layer feature group msd fields in
  let line := get_line_mapfile self layer feature group msd fields in
  let poly := get_poly_mapfile self layer feature group msd fields in
  (layer_class point = "LightsLayer" ↔ feature = Some "LIGHTS")
  ∧ (layer_class point = "Layer" ↔ feature ≠ Some "LIGHTS")
  ∧ (feature = Some "LIGHTS" → point = LightsLayer (built_layer point))
  ∧ (feature ≠ Some "LIGHTS" → point = built_layer point)
  ∧ built_layer point
    = Layer layer feature "POINT" group msd fields
        (default [] (point_lookups self !! feature)) self
  ∧ (point_lookups self !! feature = None →
     built_layer point = Layer layer feature "POINT" group msd fields [] self)
  ∧ line = Layer layer feature "LINE" group msd fields
             (default [] (line_lookups self !! feature)) self
  ∧ (line_lookups self !! feature = None →
     line = Layer layer feature "LINE" group msd fields [] self)
  ∧ poly = Layer layer feature "POLYGON" group msd fields
             (default [] (polygon_lookups self !! feature)) self
  ∧ (polygon_lookups self !! feature = None →
     poly = Layer layer feature "POLYGON" group msd fields [] self).
Proof.
  unfold get_point_mapfile, get_line_mapfile, get_poly_mapfile.
  cbv zeta. destruct (decide (feature = Some "LIGHTS")) as [Hl|Hl]; simpl.
  - repeat split; try done; try (by intros ->).
  - repeat split; try done; try (by intros ->).
Qed.


(** C10.  After construction [point_lookups] has the key 'X-SNDG' if and
    only if some lookup element of the document is fully parsed and not
    excluded; the entry is then the virtual lookup, expanded over the Paper
    and Simplified tables and the SOUNDG procedure, and a document without
    such an element gives a catalog without the key. *)
Theorem virtual_sndg_iff_live_lookup (isfile : bool) (parsed : Exc Element)
    (point_table area_table : string) (displaycategory : option (list string))
    (color_table : string) (excluded : option (list string))
    (c : ChartSymbols) :
  init isfile parsed point_table area_table displaycategory color_table
    excluded = OK c →
  ∃ root, parsed = OK root
    ∧ (is_Some (point_lookups c !! sndg_key)
       ↔ ∃ lookup f, lookup ∈ iter "lookup" root
                     ∧ parse_lookup lookup = OK f
                     ∧ is_excluded (lf_name f)
                         (default ["M_QUAL"] excluded) = false)
    ∧ (∀ sndg, point_lookups c !! sndg_key = Some sndg →
         virtual_sndg = OK sndg)
    ∧ ((∀ lookup, lookup ∈ iter "lookup" root →
          live_fields (default ["M_QUAL"] excluded) lookup = None) →
       point_lookups c !! sndg_key = None)
    ∧ (∀ sndg, point_lookups c !! sndg_key = Some sndg →
         ∃ tables cs all,
           matmul
             (Lookup {| arg_id := Passed (Some "X-SNDG");
                        arg_table := Omitted;
                        arg_display := Omitted;
                        arg_comment :=
                          Passed (Some "non-SOUNDG features with sounding");
                        arg_instruction := Omitted;
                        arg_rules := Omitted;
                        arg_display_priority :=
                          Passed DisplayPriority_AreaSymbol |})
             (py_list
                [ Lookup {| arg_id := Omitted;
                            arg_table := Passed (Some "Paper");
                            arg_display := Omitted; arg_comment := Omitted;
                            arg_instruction := Omitted; arg_rules := Omitted;
                            arg_display_priority := Omitted |};
                  Lookup {| arg_id := Omitted;
                            arg_table := Passed (Some "Simplified");
                            arg_display := Omitted; arg_comment := Omitted;
                            arg_instruction := Omitted; arg_rules := Omitted;
                            arg_display_priority := Omitted |} ])
           = OK tables
           ∧ lookups_from_cs "SOUNDG" (Some "Point") (Some "X-SNDG") = OK cs
           ∧ matmul tables cs = OK all
           ∧ sndg = iter_lookups all).
Proof.
  intros (root & self & Hroot & Hload & Hp & _ & _ & Hex)%init_OK.
  exists root. split; [done|]. unfold load_lookups in Hload.
  pose proof (loop_sndg _ _ _ _ _ _ Hload) as Hs.
  rewrite Hp, lookup_empty, Hex in Hs.
  assert (Hlive : ∀ lookup,
            is_Some (live_fields (default ["M_QUAL"] excluded) lookup)
            ↔ ∃ f, parse_lookup lookup = OK f
                   ∧ is_excluded (lf_name f) (default ["M_QUAL"] excluded)
                     = false).
  { intros lookup. unfold live_fields.
    destruct (parse_lookup lookup) as [f|e].
    - destruct (is_excluded _ _) eqn:He.
      + split; [by intros [? [=]]|]. intros (f' & [= <-] & ?). congruence.
      + split; [|by eexists]. intros _. by exists f.
    - split; [by intros [? [=]]|]. by intros (f' & [=] & _). }
  assert (Hvalue : ∀ sndg, point_lookups c !! sndg_key = Some sndg →
            virtual_sndg = OK sndg).
  { intros sndg. rewrite Hs. destruct (omap _ _); [done|].
    destruct virtual_sndg; [|done]. by intros [= <-]. }
  split; [|split; [exact Hvalue|split]].
  - rewrite Hs. split.
    + destruct (omap _ _) as [|f fs] eqn:Hom; [by intros [? [=]]|].
      intros _.
      assert (Hf : f ∈ omap (live_fields (default ["M_QUAL"] excluded))
                       (iter "lookup" root)) by (rewrite Hom; constructor).
      apply list_elem_of_omap in Hf as (lookup & Hin & Hf).
      exists lookup, f. split; [done|].
      assert (Hsome : is_Some (live_fields (default ["M_QUAL"] excluded)
                                 lookup)) by (by eexists).
      apply Hlive in Hsome as (f' & Hparse & Hexcl).
      unfold live_fields in Hf. rewrite Hparse, Hexcl in Hf.
      injection Hf as <-. done.
    + intros (lookup & f & Hin & Hparse & Hexcl).
      assert (Hsome : is_Some (live_fields (default ["M_QUAL"] excluded)
                                 lookup)).
      { apply Hlive. by exists f. }
      rewrite <- Hex in Hsome.
      destruct (loop_sndg_built _ _ _ _ _ _ _ Hload Hin Hsome)
        as [sndg Hsndg].
      rewrite Hex in Hsome. destruct Hsome as [f' Hf'].
      assert (Hy : f' ∈ omap (live_fields (default ["M_QUAL"] excluded))
                        (iter "lookup" root)).
      { apply list_elem_of_omap. by exists lookup. }
      destruct (omap _ _) as [|y ys]; [by apply elem_of_nil in Hy|].
      rewrite Hsndg. by eexists.
  - intros Hnone. rewrite Hs.
    destruct (omap _ _) as [|f fs] eqn:Hom; [done|].
    assert (Hf : f ∈ omap (live_fields (default ["M_QUAL"] excluded))
                     (iter "lookup" root)) by (rewrite Hom; constructor).
    apply list_elem_of_omap in Hf as (lookup & Hin & Hf).
    rewrite (Hnone lookup Hin) in Hf. done.
  - intros sndg Hsndg%Hvalue. revert Hsndg. unfold virtual_sndg.
    cbv zeta.
    intros (tables & Ht & (cs & Hcs & (all & Hall & [= <-])%bind_OK)%bind_OK)
             %bind_OK.
    by exists tables, cs, all.
Qed.

End Claims.

End CatalogFacts.

(** ** The script *)

Module ScriptFacts.

Import PyFacts Chartsymbols GenerateMapConfig.

Section Script.

Context `{H : Host}.

Lemma elem_seq {A B} (m : Run A) (k : A -> Run B) (e : Event) :
  e ∈ fst (seq m k) →
  e ∈ fst m ∨ ∃ a, snd m = Returned a ∧ e ∈ fst (k a).
Proof.
  destruct m as [t [a|n|x]]; simpl; [|by left..].
  destruct (k a) as [t' o] eqn:Hk; simpl.
  intros [Ht|Ht']%elem_of_app; [by left|]. right. exists a.
  by rewrite Hk.
Qed.

Lemma elem_eval {A} (x : Exc A) (e : Event) : e ∈ fst (eval x) → False.
Proof. destruct x; simpl; apply not_elem_of_nil. Qed.

Lemma eval_returned {A} (x : Exc A) (a : A) :
  snd (eval x) = Returned a → x = OK a.
Proof. destruct x; simpl; [by intros [= ->]|done]. Qed.

Lemma elem_path_option (args : Args) (k fallback : string) (e : Event) :
  e ∈ fst (path_option args k fallback) → False.
Proof.
  unfold path_option.
  intros [He|(paths & _ & [He|(p & _ & He)]%elem_seq)]%elem_seq.
  - by apply elem_eval in He.
  - by apply elem_eval in He.
  - destruct (truth p); [destruct p|]; simpl in He.
    + by apply elem_eval in He.
    + by apply not_elem_of_nil in He.
    + by apply not_elem_of_nil in He.
Qed.

Lemma elem_emit (e e' : Event) : e' ∈ fst (emit e) → e' = e.
Proof. unfold emit. cbn [fst]. by intros ->%list_elem_of_singleton. Qed.

Lemma elem_symbolsets (path : string) (l : list SymbolsetV)
    (a : BasechartArgs) :
  GenerateBasechartConfig a
    ∈ fst (fold_right
             (fun symbolset rest =>
                seq (emit (GenerateSymbolset symbolset path false))
                    (fun _ => rest))
             (ret tt) l) →
  False.
Proof.
  induction l as [|x l IH]; cbn [fold_right].
  - apply not_elem_of_nil.
  - intros [He|(u & _ & He)]%elem_seq; [|by apply IH].
    by apply elem_emit in He.
Qed.

(** Following an event through the stages of [main]. *)
Ltac hunt He :=
  repeat (cbv beta zeta in He;
          match type of He with
          | _ ∈ fst (seq _ _) =>
              apply elem_seq in He as [He|(? & ? & He)]
          | _ ∈ fst (eval _) => by apply elem_eval in He
          | _ ∈ fst (path_option _ _ _) => by apply elem_path_option in He
          | _ ∈ fst (fold_right _ _ _) => by apply elem_symbolsets in He
          | _ ∈ fst (ret _) => by apply not_elem_of_nil in He
          | _ ∈ fst (sys_exit _) => by apply not_elem_of_nil in He
          | _ ∈ fst (emit _) => apply elem_emit in He
          | _ ∈ fst ([], _) => by apply not_elem_of_nil in He
          | _ ∈ fst (if ?c then _ else _) => destruct c
          | _ ∈ fst (match ?x with _ => _ end) => destruct x
          | Print _ _ = _ => discriminate He
          | _ = Print _ _ => discriminate He
          | _ = Environ _ _ => discriminate He
          | _ = CreateColorRules _ _ => discriminate He
          | _ = CreateLayerRules _ _ => discriminate He
          | _ = Chdir _ => discriminate He
          end).

(** A [paths] that is not a table is no missing key: the subscript raises
    [TypeError], which nothing catches. *)
Lemma paths_not_a_table (args : Args) (v : toml) :
  config args !! "paths" = Some v → (∀ t, v ≠ TTable t) →
  main args = ([], Uncaught TypeError).
Proof.
  intros Hv Hnt. unfold main, getitem, subscript. rewrite Hv.
  destruct v; try done. by destruct (Hnt t).
Qed.

(** The ways a configuration can be without a value at [paths.data]. *)
Lemma no_data_path_cases (cfg : gmap string toml) :
  no_data_path cfg ↔
  lacks_data_path cfg
  ∨ ∃ v, cfg !! "paths" = Some v ∧ ∀ t, v ≠ TTable t.
Proof.
  unfold no_data_path, lacks_data_path. split.
  - intros Hno. destruct (cfg !! "paths") as [v|] eqn:Hv; [|by left; left].
    destruct v as [| | | | |t];
      try (right; eexists; split; [done|]; by intros t').
    left. right. exists t. split; [done|]. by apply Hno.
  - intros [[Hnone|(t & Ht & Hd)]|(v & Hv & Hnt)] t' Ht'.
    + congruence.
    + rewrite Ht in Ht'. by injection Ht' as <-.
    + rewrite Hv in Ht'. injection Ht' as ->. by destruct (Hnt t').
Qed.

(** C7, amended.  A configuration without the key [paths], or whose
    table [paths] has no key [data], makes the script print 'Data path
    missing from configuration file' on standard error and exit with
    status 1; that line is all the run does.  These are the
    configurations on which the lookup raises [KeyError].  A configuration
    has no value at [paths.data] in one more way, a [paths] that is not a
    table: there the run dies of an uncaught [TypeError] and prints
    nothing. *)
Theorem data_path_missing (args : Args) :
  (lacks_data_path (config args) →
   main args
   = ([Print Stderr "Data path missing from configuration file"],
      Exited 1%Z))
  ∧ (no_data_path (config args) →
     (lacks_data_path (config args)
      ∧ main args
        = ([Print Stderr "Data path missing from configuration file"],
           Exited 1%Z))
     ∨ ((∃ v, config args !! "paths" = Some v ∧ ∀ t, v ≠ TTable t)
        ∧ main args = ([], Uncaught TypeError)))
  ∧ (no_data_path (config args) →
     ∀ e, e ∈ fst (main args) →
          e = Print Stderr "Data path missing from configuration file").
Proof.
  assert (Hexit : lacks_data_path (config args) →
            main args
            = ([Print Stderr "Data path missing from configuration file"],
               Exited 1%Z)).
  { intros [Hnone|(t & Hpaths & Hdata)]; unfold main, getitem, subscript.
    - by rewrite Hnone.
    - rewrite Hpaths. unfold getitem. by rewrite Hdata. }
  split; [exact Hexit|]. split.
  - intros [Hlacks|(v & Hv & Hnt)]%no_data_path_cases.
    + left. split; [done|]. by apply Hexit.
    + right. split; [by exists v|]. by eapply paths_not_a_table.
  - intros [Hlacks|(v & Hv & Hnt)]%no_data_path_cases e.
    + rewrite (Hexit Hlacks). cbn [fst].
      by intros ->%list_elem_of_singleton.
    + rewrite (paths_not_a_table _ _ Hv Hnt). cbn [fst].
      by intros ?%elem_of_nil.
Qed.

(** C8.  The display categories [main] hands to
    [generate_basechart_config] are the configured [displaycategory]
    string, 'Standard' when there is none, split on commas, with
    'Displaybase' appended; a lookup whose display category is
    'Displaybase' therefore passes the category test of [load_lookups],
    and the filter reduces to the test on its table name. *)
Theorem displaybase_always_passed (args : Args) (a : BasechartArgs) :
  GenerateBasechartConfig a ∈ fst (main args) →
  ∃ s, default (TString "Standard") (config args !! "displaycategory")
       = TString s
    ∧ bc_displaycategory a = split "," s ++ ["Displaybase"]
    ∧ (config args !! "displaycategory" = None →
       bc_displaycategory a = ["Standard"; "Displaybase"])
    ∧ contains (container_of (Some (bc_displaycategory a)))
        (Some "Displaybase") = true
    ∧ ∀ (M : Mapgen) (point_style area_style : string) (f : LookupFields),
        lf_display f = Some "Displaybase" →
        passes_filter point_style area_style
          (container_of (Some (bc_displaycategory a))) f
        = bool_decide (lf_table_name f = Some point_style
                       ∨ lf_table_name f = Some area_style
                       ∨ lf_table_name f = Some "Lines").
Proof.
  intros He. unfold main in He. hunt He.
  injection He as ->. simpl.
  match goal with
  | Hs : snd (eval (split_method _)) = Returned _ |- _ =>
      apply eval_returned in Hs; rename Hs into Hsplit
  end.
  destruct (default _ (config args !! "displaycategory")) as [s| | | | |]
    eqn:Hdc; try done.
  injection Hsplit as <-. exists s. split; [done|]. split; [done|].
  assert (Hin : "Displaybase" ∈ split "," s ++ ["Displaybase"]).
  { apply elem_of_app. right. constructor. }
  split; [|split].
  - intros Hnone. rewrite Hnone in Hdc. by injection Hdc as <-.
  - by apply bool_decide_eq_true.
  - intros M ps ars f Hf. unfold passes_filter. simpl. rewrite Hf.
    rewrite (bool_decide_eq_true_2 _ Hin). apply andb_true_r.
Qed.

End Script.

End ScriptFacts.

(** ** Joining and splitting *)

Module StringFacts.

Import PyFacts.

(** Joining what [split] gave with the separator gives the string back. *)
Lemma join_split (sep : ascii) (s : string) :
  str_join (String sep EmptyString) (split sep s) = s.
Proof.
  induction s as [|c s IH]; [done|]. cbn [split].
  destruct (Ascii.eqb c sep) eqn:Hc.
  - apply Ascii.eqb_eq in Hc as ->.
    destruct (split sep s) as [|h t] eqn:Hs.
    { by destruct (split_nonempty sep s). }
    change (str_join (String sep "") ("" :: h :: t))
      with (String sep (str_join (String sep "") (h :: t))).
    by rewrite IH.
  - destruct (split sep s) as [|h t] eqn:Hs.
    { by destruct (split_nonempty sep s). }
    rewrite <- IH. by destruct t.
Qed.

(** No part [split] gives holds the separator. *)
Lemma split_parts_free (sep : ascii) (s : string) :
  Forall (fun part => occurs sep part = false) (split sep s).
Proof.
  induction s as [|c s IH]; cbn [split].
  - by repeat constructor.
  - destruct (Ascii.eqb c sep) eqn:Hc.
    + by constructor.
    + destruct (split sep s) as [|h t] eqn:Hs.
      { by destruct (split_nonempty sep s). }
      apply Forall_cons in IH as [Hh Ht]. constructor; [|done].
      cbn [occurs]. by rewrite Hc.
Qed.

Lemma split_free (sep : ascii) (s : string) :
  occurs sep s = false → split sep s = [s].
Proof.
  induction s as [|c s IH]; [done|]. cbn [occurs split].
  intros [Hc Hs]%orb_false_iff. rewrite Hc, (IH Hs). done.
Qed.

Lemma split_append (sep : ascii) (x rest : string) :
  occurs sep x = false →
  split sep (String.append x (String sep rest)) = x :: split sep rest.
Proof.
  induction x as [|c x IH]; simpl.
  - intros _. by rewrite Ascii.eqb_refl.
  - intros [Hc Hx]%orb_false_iff. by rewrite Hc, (IH Hx).
Qed.

(** Splitting what [str_join] made of parts without the separator gives
    the parts back. *)
Lemma split_join (sep : ascii) (l : list string) :
  l ≠ [] → Forall (fun part => occurs sep part = false) l →
  split sep (str_join (String sep EmptyString) l) = l.
Proof.
  induction l as [|x l IH]; [done|]. intros _ [Hx Hl]%Forall_cons.
  destruct l as [|y l].
  - by apply split_free.
  - change (str_join (String sep "") (x :: y :: l))
      with (String.append x
              (String sep (str_join (String sep "") (y :: l)))).
    rewrite split_append by done. f_equal. by apply IH.
Qed.

End StringFacts.

(** ** Colors and symbols *)

Module SymbolFacts.

Import PyFacts StringFacts Chartsymbols CatalogFacts.

Section Colours.

Context `{M : Mapgen}.

(** X1.  [Color.rgb] returns exactly when the color has all of r, g and
    b, and gives them joined by single spaces; splitting the result on
    spaces gives the three back when none of them holds a space.  A color
    built from an element that lacks one of the attributes makes it raise
    [TypeError]. *)
Theorem rgb_joins_components (c : Color) :
  (∀ s, rgb c = OK s ↔
        ∃ r0 g0 b0, r c = Some r0 ∧ g c = Some g0 ∧ b c = Some b0
                    ∧ s = str_join " " [r0; g0; b0])
  ∧ (r c = None ∨ g c = None ∨ b c = None ↔ rgb c = Raise TypeError)
  ∧ (∀ s r0 g0 b0,
       rgb c = OK s → r c = Some r0 → g c = Some g0 → b c = Some b0 →
       occurs " " r0 = false → occurs " " g0 = false →
       occurs " " b0 = false →
       split " " s = [r0; g0; b0])
  ∧ (∀ color, c = color_of color →
       (is_Some (get color "r") ∧ is_Some (get color "g")
        ∧ is_Some (get color "b"))
       ↔ ∃ s, rgb c = OK s).
Proof.
  assert (Hok : ∀ s, rgb c = OK s ↔
            ∃ r0 g0 b0, r c = Some r0 ∧ g c = Some g0 ∧ b c = Some b0
                        ∧ s = str_join " " [r0; g0; b0]).
  { intros s. unfold rgb. cbn [mapM Py.bind].
    destruct (r c) as [r0|], (g c) as [g0|], (b c) as [b0|]; cbn;
      split; try done; try by intros (? & ? & ? & [=] & _).
    - intros [= <-]. by exists r0, g0, b0.
    - by intros (? & ? & ? & [= <-] & [= <-] & [= <-] & ->).
    - by intros (? & ? & ? & _ & _ & [=] & _).
    - by intros (? & ? & ? & _ & [=] & _).
    - by intros (? & ? & ? & _ & [=] & _). }
  split; [exact Hok|]. split; [|split].
  - unfold rgb. cbn [mapM Py.bind].
    destruct (r c), (g c), (b c); cbn; split; try done; try tauto;
      intros [?|[?|?]]; done.
  - intros s r0 g0 b0 Hs Hr Hg Hb Fr Fg Fb.
    apply Hok in Hs as (r1 & g1 & b1 & Hr1 & Hg1 & Hb1 & ->).
    rewrite Hr1 in Hr. rewrite Hg1 in Hg. rewrite Hb1 in Hb.
    injection Hr as ->. injection Hg as ->. injection Hb as ->.
    apply (split_join " " [r0; g0; b0]); [done|].
    by repeat constructor.
  - intros color ->. cbn [color_of]. split.
    + intros ([r0 Hr] & [g0 Hg] & [b0 Hb]).
      exists (str_join " " [r0; g0; b0]). apply Hok.
      by exists r0, g0, b0.
    + intros [s (r0 & g0 & b0 & Hr & Hg & Hb & _)%Hok].
      cbn in Hr, Hg, Hb. rewrite Hr, Hg, Hb. by repeat split.
Qed.

End Colours.

Section Symbols.

Context `{M : Mapgen}.

Lemma symbols_loop_def (l : list Element) (self : ChartSymbols) :
  symbols_def (fold_left load_symbols_body l self)
  = fold_left (fun d kd => <[fst kd := snd kd]> d) (omap parsed_symbol l)
      (symbols_def self).
Proof.
  revert self. induction l as [|x l IH]; intros self; [done|].
  cbn [fold_left]. rewrite IH, omap_cons.
  unfold load_symbols_body, parsed_symbol.
  by destruct (parse_symbol x) as [[n d]|e].
Qed.

(** X2.  After [load_symbols] a name of [symbols_def] holds the pivot and
    size of the last symbol node of that name whose fields could be
    extracted; a malformed node of the same name neither replaces nor
    removes it, and a name no well-formed node carries keeps what it
    had. *)
Theorem symbols_def_last_well_formed (root : Element)
    (self self' : ChartSymbols) (name : key) :
  load_symbols root self = OK self' →
  symbols_def self' !! name
  = last_assigned name (omap parsed_symbol (iter "symbol" root))
      (symbols_def self !! name).
Proof.
  intros Hload. destruct (load_symbols_same _ _ _ Hload) as [_ ->].
  rewrite symbols_loop_def. unfold last_assigned.
  by rewrite (fold_insert_lookup fst snd).
Qed.

(** The second and third loop, once all constructors returned. *)
Lemma linestyle_loop (l : list Element) (self self' : ChartSymbols) :
  foldM load_linestyle_body self l = OK self' ↔
  ∃ symbols, mapM VectorSymbol l = OK symbols
    ∧ self' = fold_left
                (fun s sym =>
                   upd_line_symbols (insert (symbol_name sym) sym) s)
                (truthy symbols) self.
Proof.
  revert self. induction l as [|x l IH]; intros self; cbn [foldM mapM].
  - split; [intros [= <-]; by exists []|]. by intros (? & [= <-] & ->).
  - unfold load_linestyle_body at 1.
    destruct (VectorSymbol x) as [sym|e]; cbn [Py.bind]; cycle 1.
    { split; [done|]. by intros (? & [=] & _). }
    destruct (symbol_bool sym) eqn:Hb; cbn [Py.bind]; rewrite IH; split.
    + intros (symbols & -> & ->). exists (sym :: symbols).
      split; [done|]. unfold truthy. cbn [List.filter]. by rewrite Hb.
    + destruct (mapM VectorSymbol l) as [symbols|e]; cbn [Py.bind];
        [|by intros (? & [=] & _)].
      intros (? & [= <-] & ->). exists symbols. split; [done|].
      unfold truthy. cbn [List.filter]. by rewrite Hb.
    + intros (symbols & -> & ->). exists (sym :: symbols).
      split; [done|]. unfold truthy. cbn [List.filter]. by rewrite Hb.
    + destruct (mapM VectorSymbol l) as [symbols|e]; cbn [Py.bind];
        [|by intros (? & [=] & _)].
      intros (? & [= <-] & ->). exists symbols. split; [done|].
      unfold truthy. cbn [List.filter]. by rewrite Hb.
Qed.

Lemma pattern_loop (l : list Element) (self self' : ChartSymbols) :
  foldM load_pattern_body self l = OK self' ↔
  ∃ symbols, mapM Pattern_from_element l = OK symbols
    ∧ self' = fold_left
                (fun s sym =>
                   upd_area_symbols (insert (symbol_name sym) sym) s)
                (present symbols) self.
Proof.
  revert self. induction l as [|x l IH]; intros self; cbn [foldM mapM].
  - split; [intros [= <-]; by exists []|]. by intros (? & [= <-] & ->).
  - unfold load_pattern_body at 1.
    destruct (Pattern_from_element x) as [[sym|]|e]; cbn [Py.bind]; cycle 2.
    { split; [done|]. by intros (? & [=] & _). }
    + destruct (symbol_bool sym) eqn:Hb; cbn [Py.bind]; rewrite IH; split.
      * intros (symbols & -> & ->). exists (Some sym :: symbols).
        split; [done|]. unfold present, truthy.
        rewrite omap_cons. cbn [List.filter]. by rewrite Hb.
      * destruct (mapM Pattern_from_element l) as [symbols|e];
          cbn [Py.bind]; [|by intros (? & [=] & _)].
        intros (? & [= <-] & ->). exists symbols. split; [done|].
        unfold present, truthy. rewrite omap_cons. cbn [List.filter].
        by rewrite Hb.
      * intros (symbols & -> & ->). exists (Some sym :: symbols).
        split; [done|]. unfold present, truthy.
        rewrite omap_cons. cbn [List.filter]. by rewrite Hb.
      * destruct (mapM Pattern_from_element l) as [symbols|e];
          cbn [Py.bind]; [|by intros (? & [=] & _)].
        intros (? & [= <-] & ->). exists symbols. split; [done|].
        unfold present, truthy. rewrite omap_cons. cbn [List.filter].
        by rewrite Hb.
    + rewrite IH; split.
      * intros (symbols & -> & ->). by exists (None :: symbols).
      * destruct (mapM Pattern_from_element l) as [symbols|e];
          cbn [Py.bind]; [|by intros (? & [=] & _)].
        intros (? & [= <-] & ->). by exists symbols.
Qed.

Lemma line_symbols_fold (symbols : list Symbol) (self : ChartSymbols) :
  let after :=
    fold_left (fun s sym => upd_line_symbols (insert (symbol_name sym) sym) s)
      symbols self in
  line_symbols after
  = fold_left (fun d kv => <[fst kv := snd kv]> d)
      (List.map (fun sym => (symbol_name sym, sym)) symbols)
      (line_symbols self)
  ∧ area_symbols after = area_symbols self
  ∧ symbols_def after = symbols_def self
  ∧ outside_symbols after = outside_symbols self.
Proof.
  revert self. induction symbols as [|sym symbols IH]; intros self.
  { by repeat split. }
  cbn [fold_left List.map]. cbv zeta.
  destruct (IH (upd_line_symbols (insert (symbol_name sym) sym) self))
    as (-> & -> & -> & ->).
  by repeat split.
Qed.

Lemma area_symbols_fold (symbols : list Symbol) (self : ChartSymbols) :
  let after :=
    fold_left (fun s sym => upd_area_symbols (insert (symbol_name sym) sym) s)
      symbols self in
  area_symbols after
  = fold_left (fun d kv => <[fst kv := snd kv]> d)
      (List.map (fun sym => (symbol_name sym, sym)) symbols)
      (area_symbols self)
  ∧ line_symbols after = line_symbols self
  ∧ symbols_def after = symbols_def self
  ∧ outside_symbols after = outside_symbols self.
Proof.
  revert self. induction symbols as [|sym symbols IH]; intros self.
  { by repeat split. }
  cbn [fold_left List.map]. cbv zeta.
  destruct (IH (upd_area_symbols (insert (symbol_name sym) sym) self))
    as (-> & -> & -> & ->).
  by repeat split.
Qed.

Lemma symbols_loop_frame (l : list Element) (self : ChartSymbols) :
  let after := fold_left load_symbols_body l self in
  line_symbols after = line_symbols self
  ∧ area_symbols after = area_symbols self
  ∧ outside_symbols after = outside_symbols self.
Proof.
  revert self. induction l as [|x l IH]; intros self.
  { by repeat split. }
  cbn [fold_left]. cbv zeta.
  destruct (IH (load_symbols_body self x)) as (-> & -> & ->).
  unfold load_symbols_body. by destruct (parse_symbol x) as [[n d]|e].
Qed.

(** [load_symbols] taken apart into its three loops. *)
Lemma load_symbols_OK (root : Element) (self self' : ChartSymbols) :
  load_symbols root self = OK self' ↔
  ∃ lines patterns,
    mapM VectorSymbol (iter "line-style" root) = OK lines
    ∧ mapM Pattern_from_element (iter "pattern" root) = OK patterns
    ∧ self'
      = fold_left
          (fun s sym => upd_area_symbols (insert (symbol_name sym) sym) s)
          (present patterns)
          (fold_left
             (fun s sym =>
                upd_line_symbols (insert (symbol_name sym) sym) s)
             (truthy lines)
             (fold_left load_symbols_body (iter "symbol" root) self)).
Proof.
  unfold load_symbols. rewrite bind_OK. split.
  - intros (s1 & (lines & Hl & ->)%linestyle_loop
               & (patterns & Hp & ->)%pattern_loop).
    by exists lines, patterns.
  - intros (lines & patterns & Hl & Hp & ->). eexists. split.
    + apply linestyle_loop. by exists lines.
    + apply pattern_loop. by exists patterns.
Qed.

(** X3.  [load_symbols] stores a line style or a pattern only when the
    symbol built from it is truthy, under the name of the symbol, a later
    one of the same name replacing an earlier; [Pattern.from_element] may
    return [None], which stores nothing; names no stored symbol carries
    keep what they had. *)
Theorem truthy_symbols_stored (root : Element) (self self' : ChartSymbols) :
  load_symbols root self = OK self' →
  ∃ lines patterns,
    mapM VectorSymbol (iter "line-style" root) = OK lines
    ∧ mapM Pattern_from_element (iter "pattern" root) = OK patterns
    ∧ (∀ k, line_symbols self' !! k
            = last_assigned k
                (List.map (fun sym => (symbol_name sym, sym)) (truthy lines))
                (line_symbols self !! k))
    ∧ (∀ k, area_symbols self' !! k
            = last_assigned k
                (List.map (fun sym => (symbol_name sym, sym))
                   (present patterns))
                (area_symbols self !! k)).
Proof.
  intros (lines & patterns & Hl & Hp & ->)%load_symbols_OK.
  exists lines, patterns. split; [done|]. split; [done|].
  pose proof (area_symbols_fold (present patterns)) as Ha.
  pose proof (line_symbols_fold (truthy lines)) as Hli.
  pose proof (symbols_loop_frame (iter "symbol" root) self) as Hs.
  cbv zeta in Ha, Hli, Hs. split; intros k; unfold last_assigned.
  - destruct (Ha (fold_left
                    (fun s sym =>
                       upd_line_symbols (insert (symbol_name sym) sym) s)
                    (truthy lines)
                    (fold_left load_symbols_body (iter "symbol" root) self)))
      as (_ & -> & _).
    destruct (Hli (fold_left load_symbols_body (iter "symbol" root) self))
      as (-> & _).
    destruct Hs as (-> & _). by rewrite (fold_insert_lookup fst snd).
  - destruct (Ha (fold_left
                    (fun s sym =>
                       upd_line_symbols (insert (symbol_name sym) sym) s)
                    (truthy lines)
                    (fold_left load_symbols_body (iter "symbol" root) self)))
      as (-> & _).
    destruct (Hli (fold_left load_symbols_body (iter "symbol" root) self))
      as (_ & -> & _).
    destruct Hs as (_ & -> & _). by rewrite (fold_insert_lookup fst snd).
Qed.

Lemma load_symbols_outside (root : Element) (self self' : ChartSymbols) :
  load_symbols root self = OK self' →
  outside_symbols self' = outside_symbols self.
Proof.
  intros (lines & patterns & Hl & Hp & ->)%load_symbols_OK.
  pose proof (area_symbols_fold (present patterns)) as Ha.
  pose proof (line_symbols_fold (truthy lines)) as Hli.
  pose proof (symbols_loop_frame (iter "symbol" root) self) as Hs.
  cbv zeta in Ha, Hli, Hs.
  destruct (Ha (fold_left
                  (fun s sym =>
                     upd_line_symbols (insert (symbol_name sym) sym) s)
                  (truthy lines)
                  (fold_left load_symbols_body (iter "symbol" root) self)))
    as (_ & _ & _ & ->).
  destruct (Hli (fold_left load_symbols_body (iter "symbol" root) self))
    as (_ & _ & _ & ->).
  by destruct Hs as (_ & _ & ->).
Qed.

(** X4.  [load_symbols] changes the three symbol tables and nothing else
    of the catalog: not the lookup tables, the colors, the excluded names
    or the root. *)
Theorem load_symbols_frame (root : Element) (self self' : ChartSymbols) :
  load_symbols root self = OK self' →
  point_lookups self' = point_lookups self
  ∧ line_lookups self' = line_lookups self
  ∧ polygon_lookups self' = polygon_lookups self
  ∧ _color_tables self' = _color_tables self
  ∧ color_table self' = color_table self
  ∧ excluded_lookups self' = excluded_lookups self
  ∧ Chartsymbols.root self' = Chartsymbols.root self.
Proof.
  intros Hout%load_symbols_outside. unfold outside_symbols in Hout.
  injection Hout as Hex Hroot Htabs Htab Hp Hl Hpoly.
  by repeat split.
Qed.

Lemma mapM_OK {A B} (f : A -> Exc B) (l : list A) :
  Forall (fun x => ∃ y, f x = OK y) l → ∃ ys, mapM f l = OK ys.
Proof.
  induction l as [|x l IH]; [by exists []|].
  intros [[y Hy] [ys Hys]%IH]%Forall_cons. exists (y :: ys).
  cbn [mapM]. by rewrite Hy, Hys.
Qed.

Lemma mapM_raise {A B} (f : A -> Exc B) (pre post : list A) (x : A)
    (e : exn) :
  Forall (fun x => ∃ y, f x = OK y) pre → f x = Raise e →
  mapM f (pre ++ x :: post) = Raise e.
Proof.
  induction pre as [|p pre IH]; cbn [app mapM].
  - intros _ ->. done.
  - intros [[y ->] Hpre]%Forall_cons Hx. cbn [Py.bind].
    by rewrite (IH Hpre Hx).
Qed.

(** X5.  Unlike the loop over symbols, the loops over line styles and
    patterns catch nothing: the first element on which [VectorSymbol] or
    [Pattern.from_element] raises makes [load_symbols] raise the same
    exception, whatever the symbols were. *)
Theorem symbol_constructor_errors_abort (root : Element)
    (self : ChartSymbols) (pre post : list Element) (x : Element) (e : exn) :
  (iter "line-style" root = pre ++ x :: post →
   Forall (fun y => ∃ sym, VectorSymbol y = OK sym) pre →
   VectorSymbol x = Raise e →
   load_symbols root self = Raise e)
  ∧ (iter "pattern" root = pre ++ x :: post →
     Forall (fun y => ∃ sym, VectorSymbol y = OK sym)
       (iter "line-style" root) →
     Forall (fun y => ∃ sym, Pattern_from_element y = OK sym) pre →
     Pattern_from_element x = Raise e →
     load_symbols root self = Raise e).
Proof.
  split.
  - intros Hiter Hpre Hx.
    destruct (load_symbols root self) as [s'|e'] eqn:Hload.
    + apply load_symbols_OK in Hload as (lines & _ & Hl & _).
      rewrite Hiter, (mapM_raise _ _ _ _ _ Hpre Hx) in Hl. done.
    + revert Hload. unfold load_symbols.
      destruct (foldM load_linestyle_body _ _) as [s1|e1] eqn:H1.
      * apply linestyle_loop in H1 as (lines & Hl & _).
        rewrite Hiter, (mapM_raise _ _ _ _ _ Hpre Hx) in Hl. done.
      * cbn [Py.bind]. intros [= <-]. f_equal.
        revert H1. rewrite Hiter, foldM_app.
        destruct (mapM_OK _ _ Hpre) as [syms Hsyms].
        assert (Hok : ∃ s1, foldM load_linestyle_body
                   (fold_left load_symbols_body (iter "symbol" root) self)
                   pre = OK s1).
        { eexists. apply linestyle_loop. by exists syms. }
        destruct Hok as [s1 ->]. cbn [Py.bind foldM].
        unfold load_linestyle_body at 1. rewrite Hx. by intros [= ->].
  - intros Hiter Hlines Hpre Hx.
    destruct (mapM_OK _ _ Hlines) as [lines Hl].
    unfold load_symbols.
    assert (Hok : ∃ s1, foldM load_linestyle_body
               (fold_left load_symbols_body (iter "symbol" root) self)
               (iter "line-style" root) = OK s1).
    { eexists. apply linestyle_loop. by exists lines. }
    destruct Hok as [s1 ->]. cbn [Py.bind].
    rewrite Hiter, foldM_app.
    destruct (mapM_OK _ _ Hpre) as [pats Hpats].
    assert (Hok : ∃ s2, foldM load_pattern_body s1 pre = OK s2).
    { eexists. apply pattern_loop. by exists pats. }
    destruct Hok as [s2 ->]. cbn [Py.bind foldM].
    unfold load_pattern_body at 1. by rewrite Hx.
Qed.

End Symbols.

End SymbolFacts.

(** ** The lookup tables and the constructed catalog *)

Module LookupFacts.

Import PyFacts StringFacts Chartsymbols CatalogFacts SymbolFacts.

Section Lookups.

Context `{M : Mapgen}.

Lemma body_frame (point_style area_style : string) (dc : Container)
    (self self' : ChartSymbols) (lookup : Element) :
  load_lookups_body point_style area_style dc self lookup = OK self' →
  outside_lookups self' = outside_lookups self.
Proof.
  unfold load_lookups_body.
  destruct (parse_lookup lookup) as [f|e].
  - destruct (is_excluded _ _); [by intros [= <-]|].
    intros (s1 & Hs1 & (sndg & _ & ->)%add_virtual_sndg_OK)%bind_OK.
    destruct (passes_filter _ _ _ _).
    + apply add_lookup_OK in Hs1 as (new & _ & ->).
      by destruct (table_for _).
    + by injection Hs1 as <-.
  - destruct (skipped e); [by intros [= <-]|done].
Qed.

Lemma load_lookups_outside (root : Element)
    (point_style area_style : string)
    (displaycategory : option (list string)) (self final : ChartSymbols) :
  load_lookups root point_style area_style displaycategory self = OK final →
  outside_lookups final = outside_lookups self.
Proof.
  unfold load_lookups. intros Hload.
  eapply (foldM_invariant
            (fun s => outside_lookups s = outside_lookups self));
    [|done|exact Hload].
  intros s1 x s2 Hs1 Hx. rewrite <- Hs1. by eapply body_frame.
Qed.

(** X6.  [load_lookups] changes the three lookup tables and nothing else
    of the catalog: not the symbol tables, the colors, the excluded names
    or the root. *)
Theorem load_lookups_frame (root : Element) (point_style area_style : string)
    (displaycategory : option (list string)) (self final : ChartSymbols) :
  load_lookups root point_style area_style displaycategory self = OK final →
  symbols_def final = symbols_def self
  ∧ line_symbols final = line_symbols self
  ∧ area_symbols final = area_symbols self
  ∧ _color_tables final = _color_tables self
  ∧ color_table final = color_table self
  ∧ excluded_lookups final = excluded_lookups self
  ∧ Chartsymbols.root final = Chartsymbols.root self.
Proof.
  intros Hout%load_lookups_outside. unfold outside_lookups in Hout.
  injection Hout as Hex Hroot Htabs Htab Hs Hl Ha.
  by repeat split.
Qed.

(** X7.  [load_lookups] only ever extends what a table holds: a list that
    was under a name stays a prefix of the list under that name, and a
    name that was a key stays one.  The virtual key of [point_lookups] is
    the exception to the first: its list is replaced. *)
Theorem tables_only_grow (root : Element) (point_style area_style : string)
    (displaycategory : option (list string)) (self final : ChartSymbols)
    (t : TableRef) (k : key) (l : list LookupV) :
  load_lookups root point_style area_style displaycategory self = OK final →
  t ≠ Detached → table_of t self !! k = Some l →
  is_Some (table_of t final !! k)
  ∧ ((t, k) ≠ (InPoint, sndg_key) →
     ∃ more, table_of t final !! k = Some (l ++ more)).
Proof.
  unfold load_lookups. intros Hload Ht Hl.
  assert (Hgrow : (t, k) ≠ (InPoint, sndg_key) →
            ∃ more, table_of t final !! k = Some (l ++ more)).
  { intros Hk.
    rewrite (loop_tables _ _ _ _ _ _ t k Hload Ht Hk), Hl.
    unfold table_after. destruct (omap _ _) as [|b bs].
    - exists []. by rewrite app_nil_r.
    - by eexists. }
  split; [|done].
  destruct (decide ((t, k) = (InPoint, sndg_key))) as [[= -> ->]|Hk].
  - cbn [table_of] in *. rewrite (loop_sndg _ _ _ _ _ _ Hload), Hl.
    destruct (omap _ _) as [|f fs] eqn:Hom; [done|].
    assert (Hf : f ∈ omap (live_fields (excluded_lookups self))
                     (iter "lookup" root)) by (rewrite Hom; constructor).
    apply list_elem_of_omap in Hf as (x & Hx & Hf).
    destruct (loop_sndg_built _ _ _ _ _ _ x Hload Hx) as [sndg ->];
      by eexists.
  - destruct (Hgrow Hk) as [more ->]. by eexists.
Qed.

Lemma contribution_Some (point_style area_style : string) (dc : Container)
    (excluded : list string) (t : TableRef) (k : key) (lookup : Element)
    (new : list LookupV) :
  contribution point_style area_style dc excluded t k lookup = Some new ↔
  ∃ f, accepted_fields point_style area_style dc excluded lookup = Some f
       ∧ table_for (lf_lookup_type f) = t ∧ lf_name f = k
       ∧ new = entries_or_nil f.
Proof.
  unfold contribution.
  destruct (accepted_fields _ _ _ _ _) as [f|]; cycle 1.
  { split; [done|]. by intros (f & [=] & _). }
  case_decide as Hd.
  - split.
    + intros [= <-]. exists f. by destruct Hd.
    + by intros (f' & [= <-] & _ & _ & ->).
  - split; [done|]. intros (f' & [= <-] & Ht & Hk & _). by destruct Hd.
Qed.

(** X8.  After [load_lookups] a name is a key of a table exactly when it
    was one before or some lookup element of that name and of the type of
    the table was parsed, not excluded and passed the filter (the virtual
    key of [point_lookups] apart). *)
Theorem keys_are_accepted_names (root : Element)
    (point_style area_style : string)
    (displaycategory : option (list string)) (self final : ChartSymbols)
    (t : TableRef) (k : key) :
  load_lookups root point_style area_style displaycategory self = OK final →
  t ≠ Detached → (t, k) ≠ (InPoint, sndg_key) →
  (is_Some (table_of t final !! k)
   ↔ is_Some (table_of t self !! k)
     ∨ ∃ lookup f,
         lookup ∈ iter "lookup" root
         ∧ accepted_fields point_style area_style
             (container_of displaycategory) (excluded_lookups self) lookup
           = Some f
         ∧ table_for (lf_lookup_type f) = t ∧ lf_name f = k).
Proof.
  unfold load_lookups. intros Hload Ht Hk.
  rewrite (loop_tables _ _ _ _ _ _ t k Hload Ht Hk). unfold table_after.
  destruct (omap _ _) as [|b bs] eqn:Hom.
  - split; [by left|]. intros [Hbefore|(lookup & f & Hin & Hacc & Hty & Hn)];
      [done|].
    assert (Hb : entries_or_nil f
                 ∈ omap (contribution point_style area_style
                           (container_of displaycategory)
                           (excluded_lookups self) t k)
                     (iter "lookup" root)).
    { apply list_elem_of_omap. exists lookup. split; [done|].
      apply contribution_Some. by exists f. }
    rewrite Hom in Hb. by apply elem_of_nil in Hb.
  - split; [|by eexists]. intros _. right.
    assert (Hb : b ∈ omap (contribution point_style area_style
                             (container_of displaycategory)
                             (excluded_lookups self) t k)
                       (iter "lookup" root)) by (rewrite Hom; constructor).
    apply list_elem_of_omap in Hb as (lookup & Hin & Hb).
    apply contribution_Some in Hb as (f & Hacc & Hty & Hn & _).
    by exists lookup, f.
Qed.

(** X9.  On a constructed catalog the layer of a feature carries the
    lookups of the accepted elements of that feature name and of the
    geometry asked for, in document order, and no lookups when there is
    no such element; for points this holds for every feature but
    'X-SNDG'. *)
Theorem layers_of_constructed_catalog (isfile : bool) (parsed : Exc Element)
    (point_table area_table : string) (displaycategory : option (list string))
    (color_table : string) (excluded : option (list string))
    (c : ChartSymbols) (layer group msd fields : PyVal) (feature : key) :
  init isfile parsed point_table area_table displaycategory color_table
    excluded = OK c →
  ∃ root, parsed = OK root ∧
    let lookups t :=
      concat (omap (contribution point_table area_table
                      (container_of displaycategory)
                      (default ["M_QUAL"] excluded) t feature)
                (iter "lookup" root)) in
    get_line_mapfile c layer feature group msd fields
    = Layer layer feature "LINE" group msd fields (lookups InLine) c
    ∧ get_poly_mapfile c layer feature group msd fields
      = Layer layer feature "POLYGON" group msd fields (lookups InPolygon) c
    ∧ (feature ≠ sndg_key →
       built_layer (get_point_mapfile c layer feature group msd fields)
       = Layer layer feature "POINT" group msd fields (lookups InPoint) c).
Proof.
  intros (root & self & Hroot & Hload & Hp & Hl & Hpoly & Hex)%init_OK.
  exists root. split; [done|]. unfold load_lookups in Hload.
  assert (Htab : ∀ t, t ≠ Detached → (t, feature) ≠ (InPoint, sndg_key) →
            default [] (table_of t c !! feature)
            = concat (omap (contribution point_table area_table
                              (container_of displaycategory)
                              (default ["M_QUAL"] excluded) t feature)
                        (iter "lookup" root))).
  { intros t Ht Hk.
    rewrite (loop_tables _ _ _ _ _ _ t feature Hload Ht Hk), Hex.
    assert (Hnone : table_of t self !! feature = None).
    { destruct t; cbn [table_of]; by rewrite ?Hp, ?Hl, ?Hpoly. }
    rewrite Hnone. unfold table_after. by destruct (omap _ _). }
  cbv zeta. split; [|split].
  - unfold get_line_mapfile. f_equal. by apply (Htab InLine).
  - unfold get_poly_mapfile. f_equal. by apply (Htab InPolygon).
  - intros Hne. unfold get_point_mapfile.
    assert (Hpt : default [] (point_lookups c !! feature)
                  = concat (omap (contribution point_table area_table
                                    (container_of displaycategory)
                                    (default ["M_QUAL"] excluded) InPoint
                                    feature)
                              (iter "lookup" root))).
    { apply (Htab InPoint); [done|]. congruence. }
    case_decide; cbn [built_layer]; by rewrite Hpt.
Qed.

(** The fields a parsed lookup got: its attributes, and the text of the
    first child of each tag. *)
Lemma parse_lookup_fields (lookup : Element) (f : LookupFields) :
  parse_lookup lookup = OK f →
  lf_name f = get lookup "name" ∧ lf_id f = get lookup "id"
  ∧ (∃ i, find lookup "instruction" = Some i
          ∧ lf_str_instruction f = default "" (text i))
  ∧ parse_rules lookup = OK (lf_rules f).
Proof.
  unfold parse_lookup, text_of.
  repeat (match goal with
          | |- context [find lookup ?t] =>
              destruct (find lookup t) eqn:?; cbn [Py.bind]; [|done]
          end).
  destruct (parse_rules lookup) as [rules|err]; cbn [Py.bind]; [|done].
  destruct (find lookup "disp-prio"); cbn [Py.bind]; [|done].
  intros [= <-]. cbn. repeat split; try done. by eexists.
Qed.

Lemma elem_of_concat_split {A} (x : list A) (l : list (list A)) :
  x ∈ l → ∃ before after, concat l = before ++ x ++ after.
Proof.
  intros (l1 & l2 & ->)%list_elem_of_split.
  exists (concat l1), (concat l2). by rewrite concat_app.
Qed.

(** X10.  A lookup element without a [name] attribute is not passed over
    and cannot be excluded: when it passes the filter its lookups are in
    the table of its type under the key [None]. *)
Theorem nameless_lookup_is_stored (root : Element)
    (point_style area_style : string)
    (displaycategory : option (list string)) (self final : ChartSymbols)
    (lookup : Element) (f : LookupFields) :
  load_lookups root point_style area_style displaycategory self = OK final →
  lookup ∈ iter "lookup" root →
  parse_lookup lookup = OK f →
  get lookup "name" = None →
  passes_filter point_style area_style (container_of displaycategory) f
  = true →
  table_for (lf_lookup_type f) ≠ Detached →
  lf_name f = None
  ∧ is_excluded (lf_name f) (excluded_lookups self) = false
  ∧ ∃ new before after,
      lookup_entries f = OK new
      ∧ table_of (table_for (lf_lookup_type f)) final !! None
        = Some (before ++ new ++ after).
Proof.
  intros Hload Hin Hparse Hname Hpass Ht.
  destruct (parse_lookup_fields _ _ Hparse) as (Hn & _).
  rewrite Hname in Hn. rewrite Hn. split; [done|]. split; [done|].
  assert (Hacc : accepted_fields point_style area_style
                   (container_of displaycategory) (excluded_lookups self)
                   lookup = Some f).
  { unfold accepted_fields, live_fields. rewrite Hparse. cbv beta iota.
    rewrite Hn. cbn [is_excluded]. by rewrite Hpass. }
  unfold load_lookups in Hload.
  destruct (loop_entries_built _ _ _ _ _ _ _ _ Hload Hin Hacc) as [new Hnew].
  exists new.
  assert (Hb : new ∈ omap (contribution point_style area_style
                             (container_of displaycategory)
                             (excluded_lookups self)
                             (table_for (lf_lookup_type f)) None)
                       (iter "lookup" root)).
  { apply list_elem_of_omap. exists lookup. split; [done|].
    apply contribution_Some. exists f. repeat split; try done.
    unfold entries_or_nil. by rewrite Hnew. }
  pose proof (loop_tables _ _ _ _ _ _ _ None Hload Ht
                ltac:(unfold sndg_key; congruence)) as Htab.
  unfold table_after in Htab.
  destruct (omap _ _) as [|b bs] eqn:Hom.
  { by apply elem_of_nil in Hb. }
  rewrite <- Hom in Htab.
  destruct (elem_of_concat_split _ _ Hb) as (l1 & l2 & Hcat).
  rewrite Hom, Hcat in Htab.
  exists (default [] (table_of (table_for (lf_lookup_type f)) self !! None)
          ++ l1), l2.
  split; [done|]. etrans; [exact Htab|]. by rewrite <- !app_assoc.
Qed.

Lemma expand_empty_parts (lookup_type : option string) (name : key)
    (parts : list string) (lookups : LookupV) :
  Forall (fun part => part = "") parts →
  expand_parts lookup_type name lookups parts = OK lookups.
Proof.
  induction parts as [|p parts IH]; [done|].
  intros [-> Hparts]%Forall_cons. unfold expand_parts. cbn [foldM].
  cbn [expand_part Py.bind]. by apply IH.
Qed.

(** X11.  An instruction text that is empty, missing, or made of ';'
    only gives a lookup that is stored as its base lookup: no part reaches
    [get_command], so the lookups do not depend on it. *)
Theorem empty_instruction_keeps_base (f : LookupFields) :
  Forall (fun part => part = "") (split ";" (lf_str_instruction f)) →
  lookup_entries f
  = (prio <- DisplayPriority_get (lf_display_priority f) ;;
     OK (iter_lookups (base_lookup f prio)))
  ∧ (∀ lookup i, parse_lookup lookup = OK f →
       find lookup "instruction" = Some i →
       text i = None ∨ text i = Some "" →
       lf_str_instruction f = "").
Proof.
  intros Hempty. split.
  - unfold lookup_entries.
    destruct (DisplayPriority_get _) as [prio|e]; [|done]. cbn [Py.bind].
    by rewrite (expand_empty_parts _ _ _ _ Hempty).
  - intros lookup i Hparse Hi Htext.
    destruct (parse_lookup_fields _ _ Hparse) as (_ & _ & (i' & Hi' & ->) & _).
    rewrite Hi in Hi'. injection Hi' as <-. by destruct Htext as [->| ->].
Qed.

(** X12.  [load_lookups] catches [KeyError] and [AttributeError] of the
    extraction and nothing else: an element whose extraction raises
    another exception, or an accepted element whose expansion raises,
    makes [load_lookups] raise that exception, after the rounds of the
    elements before it. *)
Theorem other_errors_abort_load (root : Element)
    (point_style area_style : string)
    (displaycategory : option (list string)) (self s1 : ChartSymbols)
    (pre post : list Element) (x : Element) (e : exn) :
  iter "lookup" root = pre ++ x :: post →
  foldM (load_lookups_body point_style area_style
           (container_of displaycategory)) self pre = OK s1 →
  (parse_lookup x = Raise e ∧ skipped e = false)
  ∨ (∃ f, parse_lookup x = OK f
          ∧ is_excluded (lf_name f) (excluded_lookups self) = false
          ∧ passes_filter point_style area_style
              (container_of displaycategory) f = true
          ∧ lookup_entries f = Raise e) →
  load_lookups root point_style area_style displaycategory self = Raise e.
Proof.
  intros Hiter Hpre Hx. unfold load_lookups.
  rewrite Hiter, foldM_app, Hpre. cbn [Py.bind foldM].
  unfold load_lookups_body at 1.
  destruct Hx as [[-> ->]|(f & -> & Hex & Hpass & Hraise)]; [done|].
  rewrite (loop_excluded _ _ _ _ _ _ Hpre), Hex, Hpass.
  unfold add_lookup. by rewrite Hraise.
Qed.

(** X13.  A catalog is constructed only from an existing file that
    parses.  It then keeps the root, all color tables of the document, as
    active table the one of the name asked for (or an empty one), the
    excluded names passed (or ['M_QUAL']), and under each symbol name the
    last well-formed symbol of the document: loading the symbols and the
    lookups disturbs none of this. *)
Theorem init_keeps_document (isfile : bool) (parsed : Exc Element)
    (point_table area_table : string) (displaycategory : option (list string))
    (color : string) (excluded : option (list string)) (c : ChartSymbols) :
  init isfile parsed point_table area_table displaycategory color excluded
  = OK c →
  isfile = true
  ∧ ∃ root,
      parsed = OK root
      ∧ Chartsymbols.root c = Some root
      ∧ _color_tables c = load_color_table root
      ∧ color_table c = default ∅ (load_color_table root !! Some color)
      ∧ excluded_lookups c = default ["M_QUAL"] excluded
      ∧ ∀ name, symbols_def c !! name
                = last_assigned name
                    (omap parsed_symbol (iter "symbol" root)) None.
Proof.
  unfold init. destruct isfile; cbn [negb]; [|done].
  destruct parsed as [root|e]; cbn [Py.bind]; [|done].
  intros (s1 & Hsym & Hload)%bind_OK. split; [done|].
  exists root. split; [done|].
  pose proof (load_lookups_outside _ _ _ _ _ _ Hload) as Hout.
  pose proof (load_symbols_outside _ _ _ Hsym) as Hout1.
  pose proof (load_symbols_same _ _ _ Hsym) as [_ Hdef].
  unfold outside_lookups in Hout. unfold outside_symbols in Hout1.
  injection Hout as -> -> -> -> Hdefs _ _.
  injection Hout1 as -> -> -> -> _ _ _.
  split; [done|]. split; [done|]. split; [done|].
  split; [by destruct excluded|].
  intros name. rewrite Hdefs, Hdef, symbols_loop_def.
  unfold last_assigned. by rewrite (fold_insert_lookup fst snd).
Qed.

End Lookups.

End LookupFacts.

(** ** The runs of the script *)

Module RunFacts.

Import PyFacts StringFacts Chartsymbols GenerateMapConfig ScriptFacts.

Section Script.

Context `{H : Host}.

(** *** Taking a run apart *)

Lemma seq_inv {A B} (m : Run A) (k : A -> Run B) (t : list Event)
    (o : Outcome B) :
  seq m k = (t, o) →
  (∃ t1 a t2, m = (t1, Returned a) ∧ k a = (t2, o) ∧ t = t1 ++ t2)
  ∨ (∃ n, m = (t, Exited n) ∧ o = Exited n)
  ∨ (∃ e, m = (t, Uncaught e) ∧ o = Uncaught e).
Proof.
  destruct m as [t1 [a|n|e]]; cbn [seq].
  - destruct (k a) as [t2 o2] eqn:Hk. intros [= <- <-]. left.
    by exists t1, a, t2.
  - intros [= <- <-]. right. left. by exists n.
  - intros [= <- <-]. right. right. by exists e.
Qed.

Lemma seq_returned {A B} (m : Run A) (k : A -> Run B) (t : list Event)
    (b : B) :
  seq m k = (t, Returned b) →
  ∃ t1 a t2, m = (t1, Returned a) ∧ k a = (t2, Returned b) ∧ t = t1 ++ t2.
Proof.
  intros [Hr|[(n & _ & [=])|(e & _ & [=])]]%seq_inv. exact Hr.
Qed.

Lemma eval_inv {A} (x : Exc A) (t : list Event) (o : Outcome A) :
  eval x = (t, o) →
  t = [] ∧ ((∃ a, x = OK a ∧ o = Returned a)
            ∨ (∃ e, x = Raise e ∧ o = Uncaught e)).
Proof.
  destruct x as [a|e]; intros [= <- <-]; (split; [done|]).
  - left. by exists a.
  - right. by exists e.
Qed.

(** The three optional paths, once [paths] is known to be a table. *)
Lemma path_option_table (args : Args) (tbl : gmap string toml)
    (k fallback : string) :
  config args !! "paths" = Some (TTable tbl) →
  path_option args k fallback
  = ([], match tbl !! k with
         | Some (TString p) =>
             if String.eqb p ""
             then Returned fallback
             else Returned (abspath (normpath (join (base_dir args) p)))
         | Some v => if truth (Some v) then Uncaught TypeError
                     else Returned fallback
         | None => Returned fallback
         end).
Proof.
  intros Hpaths. unfold path_option, getitem. rewrite Hpaths.
  cbn [eval seq ret get_method app].
  destruct (tbl !! k) as [v|]; [|done].
  destruct v as [p|z|b|o|l|tb]; cbn [truth config_relative].
  - by destruct (String.eqb p "").
  - by destruct (Z.eqb z 0).
  - by destruct b.
  - by destruct o.
  - by destruct l.
  - by destruct (bool_decide (tb = ∅)).
Qed.

Lemma path_option_inv (args : Args) (tbl : gmap string toml)
    (k fallback : string) (t : list Event) (o : Outcome string) :
  config args !! "paths" = Some (TTable tbl) →
  path_option args k fallback = (t, o) →
  t = []
  ∧ ((∃ p, o = Returned p
           ∧ ((truth (tbl !! k) = false ∧ p = fallback)
              ∨ (∃ s, tbl !! k = Some (TString s) ∧ s ≠ ""
                      ∧ p = abspath (normpath (join (base_dir args) s)))))
     ∨ o = Uncaught TypeError).
Proof.
  intros Hpaths. rewrite (path_option_table _ _ _ _ Hpaths).
  intros [= <- <-]. split; [done|].
  destruct (tbl !! k) as [v|]; [|left; eexists; split; [done|by left]].
  destruct v as [p|z|b|o|l|tb]; cbn [truth].
  - destruct (String.eqb p "") eqn:Hp.
    + left. eexists. split; [done|]. by left.
    + left. eexists. split; [done|]. right. exists p.
      split; [done|]. split; [|done]. intros ->. done.
  - destruct (Z.eqb z 0); [left; eexists; split; [done|by left]|by right].
  - destruct b; [by right|left; eexists; split; [done|by left]].
  - destruct o; [by right|left; eexists; split; [done|by left]].
  - destruct l; [left; eexists; split; [done|by left]|by right].
  - destruct (bool_decide (tb = ∅));
      [left; eexists; split; [done|by left]|by right].
Qed.

(** A call returns, or raises what the host says. *)
Lemma emit_cases (e : Event) :
  emit e = ([e], Returned tt)
  ∨ ∃ x, answer e = Raise x ∧ emit e = ([e], Uncaught x).
Proof.
  unfold emit. destruct (answer e) as [[]|x]; [by left|].
  right. by exists x.
Qed.

Lemma answer_raises (e : Event) (x : exn) :
  answer e = Raise x → host_raises x.
Proof. intros He. left. by exists e. Qed.

(** The last loop makes its calls in order, up to the first that
    raises. *)
Lemma symbolsets_loop (path : string) (l : list SymbolsetV) :
  fold_right
    (fun symbolset rest =>
       seq (emit (GenerateSymbolset symbolset path false)) (fun _ => rest))
    (ret tt) l
  = (List.map (fun symbolset => GenerateSymbolset symbolset path false) l,
     Returned tt)
  ∨ ∃ made later x,
      fold_right
        (fun symbolset rest =>
           seq (emit (GenerateSymbolset symbolset path false))
               (fun _ => rest))
        (ret tt) l
      = (made, Uncaught x)
      ∧ made ++ later
        = List.map (fun symbolset => GenerateSymbolset symbolset path false) l
      ∧ host_raises x.
Proof.
  induction l as [|s l IH]; [by left|]. cbn [fold_right List.map].
  destruct (emit_cases (GenerateSymbolset s path false))
    as [->|(x & Hx & ->)]; cbn [seq].
  - destruct IH as [->|(made & later & x & -> & <- & Hx)]; [by left|].
    right. exists (GenerateSymbolset s path false :: made), later, x.
    split; [done|]. by split.
  - right.
    exists [GenerateSymbolset s path false],
      (List.map (fun symbolset => GenerateSymbolset symbolset path false) l),
      x.
    split; [done|]. split; [done|]. by eapply answer_raises.
Qed.

(** The first stage: the data path, or the way out. *)
Lemma data_stage (args : Args) :
  match getitem (config args) "paths" with
  | OK paths =>
      match subscript paths "data" with
      | OK v => ret v
      | Raise KeyError =>
          seq (emit (Print Stderr "Data path missing from configuration file"))
              (fun _ => sys_exit 1%Z)
      | Raise e => ([], Uncaught e)
      end
  | Raise KeyError =>
      seq (emit (Print Stderr "Data path missing from configuration file"))
          (fun _ => sys_exit 1%Z)
  | Raise e => ([], Uncaught e)
  end
  = match config args !! "paths" with
    | None => ([Print Stderr data_path_message], Exited 1%Z)
    | Some (TTable tbl) =>
        match tbl !! "data" with
        | Some v => ([], Returned v)
        | None => ([Print Stderr data_path_message], Exited 1%Z)
        end
    | Some _ => ([], Uncaught TypeError)
    end.
Proof.
  unfold getitem. destruct (config args !! "paths") as [v|]; [|done].
  destruct v as [p|z|b|o|l|tb]; try done.
  unfold subscript, getitem. by destruct (tb !! "data").
Qed.

Lemma seq_ret {A B} (t1 : list Event) (a : A) (k : A -> Run B) :
  seq (t1, Returned a) k = (t1 ++ fst (k a), snd (k a)).
Proof. cbn [seq]. by destruct (k a). Qed.

Lemma path_option_optional (args : Args) (tbl : gmap string toml)
    (k fallback : string) :
  config args !! "paths" = Some (TTable tbl) →
  path_option args k fallback
  = ([], match optional_path args tbl k fallback with
         | Some p => Returned p
         | None => Uncaught TypeError
         end).
Proof.
  intros Hpaths. rewrite (path_option_table _ _ _ _ Hpaths).
  unfold optional_path. destruct (tbl !! k) as [v|]; [|done].
  destruct v as [p|z|b|o|l|tb]; cbn [truth].
  - by destruct (String.eqb p "").
  - by destruct (Z.eqb z 0).
  - by destruct b.
  - by destruct o.
  - by destruct l.
  - by destruct (bool_decide (tb = ∅)).
Qed.

Lemma quiet_prelude (args : Args) (rule_set_path chartsymbols : string) :
  Forall (fun e => quiet e = true)
    (prelude_events args rule_set_path chartsymbols).
Proof.
  unfold prelude_events. repeat (apply Forall_app; split).
  - destruct (config args !! "tablename"); by repeat constructor.
  - destruct (does_color_tables_exist _) as [[]|]; by repeat constructor.
  - destruct (isfile _); by repeat constructor.
Qed.

Lemma split_method_raise (v : toml) (e : exn) :
  split_method v = Raise e → e = AttributeError.
Proof. destruct v; cbn; by intros [= <-]. Qed.

Lemma lower_method_raise (v : toml) (e : exn) :
  lower_method v = Raise e → e = AttributeError.
Proof. destruct v; cbn; by intros [= <-]. Qed.

(** One stage of a run returns, or dies; [pre] is what has happened
    before it. *)
Lemma shape_step {A} (args : Args) (pre : list Event) (m : Run A)
    (t : list Event) (a : A) (k : A -> Run unit) :
  m = (t, Returned a) →
  RunShape args ((pre ++ t) ++ fst (k a)) (snd (k a)) →
  RunShape args (pre ++ fst (seq m k)) (snd (seq m k)).
Proof.
  intros ->. cbn [seq]. destruct (k a) as [t2 o]. cbn [fst snd].
  by rewrite app_assoc.
Qed.

Lemma shape_crash {A} (args : Args) (pre : list Event) (m : Run A)
    (t : list Event) (e : exn) (k : A -> Run unit) :
  m = (t, Uncaught e) →
  e = TypeError ∨ e = AttributeError ∨ host_raises e →
  Forall (fun ev => quiet ev = true) (pre ++ t) →
  RunShape args (pre ++ fst (seq m k)) (snd (seq m k)).
Proof. intros -> He Hq. cbn [seq fst snd]. by apply Crashed. Qed.

Lemma shape_eq (args : Args) (pre : list Event) (m r : Run unit) :
  m = r → RunShape args (pre ++ fst r) (snd r) →
  RunShape args (pre ++ fst m) (snd m).
Proof. by intros ->. Qed.

(** The stages after the topmark type is known, whatever the generation
    [chart] and the last loop [loop] do. *)
Lemma final_stage (args : Args) (topmark : string) (chart loop : Run unit) :
  seq (if String.eqb topmark "rigid"
       then emit (Environ "TOPMAR_FLOATING" "")
       else if String.eqb topmark "floating"
       then emit (Environ "TOPMAR_FLOATING" "1")
       else seq (emit (Print Stdout
                         "topmark_type must be either floating or rigid"))
                (fun _ => sys_exit 2%Z)) (fun _ =>
  seq (match format args with
       | Chart => chart
       | other =>
           seq (emit (Print Stderr
                        ("Data format " ++ dquote ++ Format_str other ++ dquote
                         ++ " has not yet been ported to the configuration "
                         ++ "file. Use the old script to generate your mapfiles")))
               (fun _ => sys_exit 1%Z)
       end) (fun _ => loop))
  = match floating_flag topmark with
    | None => ([Print Stdout topmark_message], Exited 2%Z)
    | Some flag =>
        match format args with
        | Chart =>
            ([Environ "TOPMAR_FLOATING" flag]
             ++ fst (seq chart (fun _ => loop)),
             snd (seq chart (fun _ => loop)))
        | _ =>
            ([Environ "TOPMAR_FLOATING" flag;
              Print Stderr (format_message (format args))],
             Exited 1%Z)
        end
    end.
Proof.
  unfold floating_flag.
  destruct (String.eqb topmark "rigid");
    [|destruct (String.eqb topmark "floating"); [|done]];
    (destruct (format args); [|done..]);
    cbn [emit answer seq app]; by destruct (seq chart _).
Qed.

(** The generation for the chart format: all of its calls in order, or
    the calls up to the first that raises. *)
Lemma chart_stage (args : Args) (rule_set_path map_path : string)
    (a : BasechartArgs) :
  let run :=
    seq (seq (eval (does_layer_rules_exist rule_set_path))
             (fun layer_definitions_exist =>
         seq (if negb layer_definitions_exist || force args
              then emit (CreateLayerRules RESOURCES_PATH
                           (join rule_set_path "layer_rules"))
              else ret tt) (fun _ =>
         seq (emit (Chdir (dirname script_file))) (fun _ =>
         emit (GenerateBasechartConfig a))))) (fun _ =>
    fold_right
      (fun symbolset rest =>
         seq (emit (GenerateSymbolset symbolset (join map_path "symbols")
                      false))
             (fun _ => rest))
      (ret tt) symbolsets) in
  let all :=
    layer_rules_events args rule_set_path
    ++ [Chdir (dirname script_file); GenerateBasechartConfig a]
    ++ symbolset_events map_path in
  run = (all, Returned tt)
  ∨ ∃ made later x,
      run = (made, Uncaught x) ∧ made ++ later = all ∧ host_raises x.
Proof.
  cbv zeta. unfold layer_rules_events, symbolset_events.
  destruct (does_layer_rules_exist rule_set_path) as [exist|x] eqn:Hexist;
    cycle 1.
  { right. eexists [], _, x. cbn [eval seq app].
    split; [done|]. split; [done|]. right. right. right. by eexists. }
  cbn [eval ret seq app].
  set (rules := if negb exist || force args
                then [CreateLayerRules RESOURCES_PATH
                        (join rule_set_path "layer_rules")]
                else []).
  assert (Hrules :
    (if negb exist || force args
     then emit (CreateLayerRules RESOURCES_PATH
                  (join rule_set_path "layer_rules"))
     else ret tt) = (rules, Returned tt)
    ∨ ∃ x, (if negb exist || force args
            then emit (CreateLayerRules RESOURCES_PATH
                         (join rule_set_path "layer_rules"))
            else ret tt) = (rules, Uncaught x)
           ∧ host_raises x).
  { unfold rules. destruct (negb exist || force args); [|by left].
    destruct (emit_cases (CreateLayerRules RESOURCES_PATH
                            (join rule_set_path "layer_rules")))
      as [->|(x & Hx & ->)]; [by left|].
    right. exists x. split; [done|]. by eapply answer_raises. }
  destruct Hrules as [->|(x & -> & Hx)]; cycle 1.
  { right. eexists rules, _, x. cbn [seq]. split; [done|]. by split. }
  cbn [seq].
  destruct (emit_cases (Chdir (dirname script_file)))
    as [->|(x & Hx & ->)]; cycle 1.
  { right.
    eexists (rules ++ [Chdir (dirname script_file)]), _, x.
    cbn [seq app]. split; [done|].
    split; [|by eapply answer_raises]. by rewrite <- app_assoc. }
  cbn [seq].
  destruct (emit_cases (GenerateBasechartConfig a))
    as [->|(x & Hx & ->)]; cycle 1.
  { right.
    eexists (rules ++ [Chdir (dirname script_file);
                       GenerateBasechartConfig a]), _, x.
    cbn [seq app]. split; [done|].
    split; [|by eapply answer_raises]. by rewrite <- app_assoc. }
  cbn [seq app].
  destruct (symbolsets_loop (join map_path "symbols") symbolsets)
    as [->|(made & later & x & -> & <- & Hx)].
  - left. by rewrite <- app_assoc.
  - right.
    exists ((rules ++ [Chdir (dirname script_file);
                       GenerateBasechartConfig a]) ++ made), later, x.
    split; [done|]. split; [|done]. by rewrite <- !app_assoc.
Qed.

(** Every run of [main] has one of the six shapes. *)
Lemma main_shape (args : Args) :
  RunShape args (fst (main args)) (snd (main args)).
Proof.
  change (RunShape args ([] ++ fst (main args)) (snd (main args))).
  unfold main. cbv zeta. rewrite data_stage.
  destruct (config args !! "paths") as [pv|] eqn:Hpaths; cycle 1.
  { apply NoDataPath. by left. }
  destruct pv as [?|?|?|?|?|tbl]; cbv beta iota;
    try (cbn [seq fst snd app]; apply Crashed; [by left|constructor]).
  destruct (tbl !! "data") as [d|] eqn:Hdata; cbv beta iota; cycle 1.
  { apply NoDataPath. right. by exists tbl. }
  eapply shape_step; [reflexivity|]. cbv beta.
  (* the deprecated table name *)
  set (warn := match config args !! "tablename" with
               | Some _ => [Print Stdout tablename_warning]
               | None => []
               end).
  assert (Hwarn : Forall (fun ev => quiet ev = true) warn).
  { unfold warn. destruct (config args !! "tablename");
      by repeat constructor. }
  eapply (shape_step _ _ _ warn
            (match config args !! "tablename" with
             | Some v => v
             | None => default (TString "Simplified")
                         (config args !! "point_table")
             end)).
  { unfold warn. by destruct (config args !! "tablename"). }
  cbv beta. rewrite app_nil_r. cbn [app].
  (* the data path *)
  destruct d as [dp|?|?|?|?|?];
    try (eapply shape_crash; [reflexivity|by left|by rewrite app_nil_r]).
  eapply shape_step; [reflexivity|]. cbv beta. rewrite app_nil_r.
  (* the map path *)
  rewrite (path_option_optional _ _ "map" _ Hpaths).
  destruct (optional_path args tbl "map" _) as [map_path|] eqn:Hmap;
    cycle 1.
  { eapply shape_crash; [reflexivity|by left|by rewrite app_nil_r]. }
  eapply shape_step; [reflexivity|]. cbv beta. rewrite app_nil_r.
  (* the rule set path *)
  rewrite (path_option_optional _ _ "ruleset" _ Hpaths).
  destruct (optional_path args tbl "ruleset" _) as [rules|] eqn:Hrules;
    cycle 1.
  { eapply shape_crash; [reflexivity|by left|by rewrite app_nil_r]. }
  eapply shape_step; [reflexivity|]. cbv beta. rewrite app_nil_r.
  destruct (force_sub_dir rules "rules") as [rule_set_path|x] eqn:Hsub;
    cycle 1.
  { eapply shape_crash; [reflexivity| |by rewrite app_nil_r].
    right. right. right. left. by eexists _, _. }
  eapply shape_step; [reflexivity|]. cbv beta. rewrite app_nil_r.
  (* the color rules *)
  destruct (does_color_tables_exist rule_set_path) as [exist|x] eqn:Hexist;
    cycle 1.
  { eapply shape_crash; [reflexivity| |by rewrite app_nil_r].
    right. right. right. right. left. by eexists. }
  eapply shape_step; [reflexivity|]. cbv beta. rewrite app_nil_r.
  set (colors := match does_color_tables_exist rule_set_path with
                 | OK false => [CreateColorRules RESOURCES_PATH
                                  (join rule_set_path "color_tables")]
                 | _ => []
                 end).
  assert (Hqcolors : Forall (fun ev => quiet ev = true) colors).
  { unfold colors. rewrite Hexist. destruct exist; by repeat constructor. }
  assert (Hcolors :
    (if exist then ret tt
     else emit (CreateColorRules RESOURCES_PATH
                  (join rule_set_path "color_tables")))
    = (colors, Returned tt)
    ∨ ∃ x, (if exist then ret tt
            else emit (CreateColorRules RESOURCES_PATH
                         (join rule_set_path "color_tables")))
           = (colors, Uncaught x)
           ∧ host_raises x).
  { unfold colors. rewrite Hexist. destruct exist; [by left|].
    destruct (emit_cases (CreateColorRules RESOURCES_PATH
                            (join rule_set_path "color_tables")))
      as [->|(x & Hx & ->)]; [by left|].
    right. exists x. split; [done|]. by eapply answer_raises. }
  destruct Hcolors as [Hcolors|(x & Hcolors & Hx)]; cycle 1.
  { eapply shape_crash; [exact Hcolors|by right; right|].
    by apply Forall_app. }
  eapply shape_step; [exact Hcolors|]. cbv beta. clear Hcolors.
  (* the chartsymbols path *)
  rewrite (path_option_optional _ _ "chartsymbols" _ Hpaths).
  destruct (optional_path args tbl "chartsymbols" _) as [chartsymbols|]
    eqn:Hchart; cycle 1.
  { eapply shape_crash; [reflexivity|by left|].
    rewrite app_nil_r. by apply Forall_app. }
  eapply shape_step; [reflexivity|]. cbv beta. rewrite app_nil_r.
  eapply (shape_step _ _ _
            (if isfile chartsymbols then []
             else [Print Stdout
                     ("chartsymbols.xml not found at: " ++ chartsymbols)]) tt).
  { by destruct (isfile _). }
  cbv beta.
  assert (Hpre : (warn ++ colors)
                 ++ (if isfile chartsymbols then []
                     else [Print Stdout
                             ("chartsymbols.xml not found at: "
                              ++ chartsymbols)])
                 = prelude_events args rule_set_path chartsymbols).
  { unfold prelude_events. by rewrite <- app_assoc. }
  rewrite Hpre. clear Hpre.
  pose proof (quiet_prelude args rule_set_path chartsymbols) as Hquiet.
  (* the display categories and the topmark type *)
  destruct (split_method _) as [cats|e] eqn:Hcats; cycle 1.
  { apply split_method_raise in Hcats as ->.
    eapply shape_crash; [reflexivity|by right; left|by rewrite app_nil_r]. }
  eapply shape_step; [reflexivity|]. cbv beta. rewrite app_nil_r.
  destruct (lower_method _) as [topmark|e] eqn:Htop; cycle 1.
  { apply lower_method_raise in Htop as ->.
    eapply shape_crash; [reflexivity|by right; left|by rewrite app_nil_r]. }
  eapply shape_step; [reflexivity|]. cbv beta. rewrite app_nil_r.
  assert (Hres : resolved args
                   (abspath (normpath (join (base_dir args) dp)))
                   map_path rule_set_path chartsymbols cats topmark).
  { by exists tbl, dp, rules. }
  eapply shape_eq; [apply final_stage|].
  destruct (floating_flag topmark) as [flag|] eqn:Hflag; cycle 1.
  { exact (BadTopmark args _ _ _ _ _ _ Hres Hflag). }
  destruct (format args) eqn:Hfmt; cbn [fst snd].
  - match goal with
    | |- context [GenerateBasechartConfig ?a] =>
        destruct (chart_stage args rule_set_path map_path a)
          as [Hrun|(made & later & x & Hrun & Hsplit & Hx)]
    end; cbv zeta in Hrun; rewrite Hrun; cbn [fst snd].
    + exact (Generated args _ _ _ _ _ _ _ Hres Hflag Hfmt).
    + exact (Interrupted args _ _ _ _ _ _ _ made later x Hres Hflag Hfmt Hx
               Hsplit).
  - assert (Hne : format args ≠ Chart) by (by rewrite Hfmt).
    pose proof (OtherFormat args _ _ _ _ _ _ _ Hres Hflag Hne) as Shape.
    by rewrite Hfmt in Shape.
  - assert (Hne : format args ≠ Chart) by (by rewrite Hfmt).
    pose proof (OtherFormat args _ _ _ _ _ _ _ Hres Hflag Hne) as Shape.
    by rewrite Hfmt in Shape.
  - assert (Hne : format args ≠ Chart) by (by rewrite Hfmt).
    pose proof (OtherFormat args _ _ _ _ _ _ _ Hres Hflag Hne) as Shape.
    by rewrite Hfmt in Shape.
  - assert (Hne : format args ≠ Chart) by (by rewrite Hfmt).
    pose proof (OtherFormat args _ _ _ _ _ _ _ Hres Hflag Hne) as Shape.
    by rewrite Hfmt in Shape.
Qed.

Lemma quiet_not_generating (e : Event) :
  quiet e = true → generates e = false ∧ ∀ name value, e ≠ Environ name value.
Proof. by destruct e as [[]| | | | | |]. Qed.

Lemma quiet_all_not_generating (t : list Event) :
  Forall (fun e => quiet e = true) t →
  Forall (fun e => generates e = false) t.
Proof.
  intros Hq. eapply Forall_impl; [exact Hq|].
  intros e He. by apply quiet_not_generating.
Qed.

(** The events of the generation, and what they are not. *)
Lemma generation_generates (args : Args) (rule_set_path map_path : string)
    (a : BasechartArgs) (e : Event) :
  e ∈ layer_rules_events args rule_set_path
      ++ [Chdir (dirname script_file); GenerateBasechartConfig a]
      ++ symbolset_events map_path →
  generates e = true
  ∧ (∀ b, e = GenerateBasechartConfig b → b = a).
Proof.
  intros Hin. apply elem_of_app in Hin as [Hin|Hin].
  { unfold layer_rules_events in Hin.
    destruct (does_layer_rules_exist rule_set_path) as [exist|x];
      [|by apply elem_of_nil in Hin].
    destruct (negb exist || force args); [|by apply elem_of_nil in Hin].
    apply list_elem_of_singleton in Hin as ->. by split. }
  apply elem_of_app in Hin as [Hin|Hin].
  { apply elem_of_cons in Hin as [->|Hin]; [by split|].
    apply list_elem_of_singleton in Hin as ->.
    split; [done|]. by intros b [= ->]. }
  unfold symbolset_events in Hin.
  apply list_elem_of_In, in_map_iff in Hin as (x & <- & _). by split.
Qed.

(** X14.  When [main] exits it has said why, and generated nothing: status
    1 with the one line on standard error when the data path is missing;
    status 2 after the line on standard output when the topmark type is
    neither rigid nor floating; status 1 after [TOPMAR_FLOATING] was set
    and the line on standard error when the format is not chart.  Before
    the last two it may have printed warnings and created the color
    rules. *)
Theorem exits_explained (args : Args) (t : list Event) (n : Z) :
  main args = (t, Exited n) →
  Forall (fun e => generates e = false) t
  ∧ ((n = 1%Z ∧ lacks_data_path (config args)
      ∧ t = [Print Stderr data_path_message])
     ∨ (n = 2%Z
        ∧ ∃ pre topmark,
            lower_method
              (default (TString "rigid") (config args !! "topmark_type"))
            = OK topmark
            ∧ topmark ≠ "rigid" ∧ topmark ≠ "floating"
            ∧ Forall (fun e => quiet e = true) pre
            ∧ t = pre ++ [Print Stdout topmark_message])
     ∨ (n = 1%Z ∧ format args ≠ Chart
        ∧ ∃ pre flag,
            Forall (fun e => quiet e = true) pre
            ∧ t = pre ++ [Environ "TOPMAR_FLOATING" flag;
                          Print Stderr (format_message (format args))])).
Proof.
  intros Hm. pose proof (main_shape args) as Shape.
  rewrite Hm in Shape. cbn [fst snd] in Shape.
  inversion Shape as
    [Hlack|
     |
     |dp mp rs cs cats topmark Hres Hflag
     |dp mp rs cs cats topmark flag Hres Hflag Hfmt|]; subst.
  - split; [by repeat constructor|]. left. by repeat split.
  - pose proof (quiet_prelude args rs cs) as Hq. split.
    + apply Forall_app. split; [by apply quiet_all_not_generating|].
      by repeat constructor.
    + right. left. split; [done|].
      destruct Hres as (tbl & d & rules & _ & _ & _ & _ & _ & _ & _ & _ & Hl).
      exists (prelude_events args rs cs), topmark.
      unfold floating_flag in Hflag.
      destruct (String.eqb topmark "rigid") eqn:Hr; [done|].
      destruct (String.eqb topmark "floating") eqn:Hf; [done|].
      apply String.eqb_neq in Hr, Hf. by repeat split.
  - pose proof (quiet_prelude args rs cs) as Hq. split.
    + apply Forall_app. split; [by apply quiet_all_not_generating|].
      by repeat constructor.
    + right. right. split; [done|]. split; [done|].
      by exists (prelude_events args rs cs), flag.
Qed.


(** X16.  A run of [main] that returns was asked for the chart format and
    did, in this order: the warnings and the color rules, the setting of
    [TOPMAR_FLOATING] ('' for rigid, '1' for floating), the layer rules
    when they are missing or forced, the change of directory, one call of
    [generate_basechart_config], and one call of [generate_symbolset]
    for every symbol set, in their order, below the map path handed to
    the former. *)
Theorem returned_run (args : Args) (t : list Event) :
  main args = (t, Returned tt) →
  format args = Chart
  ∧ ∃ data_path map_path rule_set_path chartsymbols displaycategory topmark
      flag,
      resolved args data_path map_path rule_set_path chartsymbols
        displaycategory topmark
      ∧ ((topmark = "rigid" ∧ flag = "")
         ∨ (topmark = "floating" ∧ flag = "1"))
      ∧ t = prelude_events args rule_set_path chartsymbols
            ++ [Environ "TOPMAR_FLOATING" flag]
            ++ layer_rules_events args rule_set_path
            ++ [Chdir (dirname script_file);
                GenerateBasechartConfig
                  (basechart_args args data_path map_path rule_set_path
                     chartsymbols (displaycategory ++ ["Displaybase"]))]
            ++ symbolset_events map_path.
Proof.
  intros Hm. pose proof (main_shape args) as Shape.
  rewrite Hm in Shape. cbn [fst snd] in Shape.
  inversion Shape as
    [| | | | |dp mp rs cs cats topmark flag Hres Hflag Hfmt]; subst.
  split; [done|]. exists dp, mp, rs, cs, cats, topmark, flag.
  split; [done|]. split; [|done].
  unfold floating_flag in Hflag.
  destruct (String.eqb topmark "rigid") eqn:Hr.
  { apply String.eqb_eq in Hr. injection Hflag as <-. by left. }
  destruct (String.eqb topmark "floating") eqn:Hf; [|done].
  apply String.eqb_eq in Hf. injection Hflag as <-. by right.
Qed.

(** What generates stands in a run that got to the generation: one that
    returned, or one that a call out of the script cut short. *)
Lemma generating_run (args : Args) (e : Event) :
  e ∈ fst (main args) → generates e = true →
  ∃ data_path map_path rule_set_path chartsymbols displaycategory topmark
    flag made later,
    resolved args data_path map_path rule_set_path chartsymbols
      displaycategory topmark
    ∧ floating_flag topmark = Some flag
    ∧ format args = Chart
    ∧ fst (main args)
      = prelude_events args rule_set_path chartsymbols
        ++ [Environ "TOPMAR_FLOATING" flag] ++ made
    ∧ made ++ later
      = layer_rules_events args rule_set_path
        ++ [Chdir (dirname script_file);
            GenerateBasechartConfig
              (basechart_args args data_path map_path rule_set_path
                 chartsymbols (displaycategory ++ ["Displaybase"]))]
        ++ symbolset_events map_path
    ∧ ((snd (main args) = Returned tt ∧ later = [])
       ∨ ∃ x, snd (main args) = Uncaught x ∧ host_raises x).
Proof.
  intros Hin Hgen. pose proof (main_shape args) as Shape.
  destruct (main args) as [t o]. cbn [fst snd] in *.
  inversion Shape as
    [Hlack|t' e' He Hq
     |dp mp rs cs cats topmark flag made later x Hres Hflag Hfmt Hx Hsplit
     |dp mp rs cs cats topmark Hres Hflag
     |dp mp rs cs cats topmark flag Hres Hflag Hfmt
     |dp mp rs cs cats topmark flag Hres Hflag Hfmt]; subst.
  - apply list_elem_of_singleton in Hin as ->. done.
  - apply quiet_all_not_generating in Hq. rewrite Forall_forall in Hq.
    apply Hq in Hin. congruence.
  - exists dp, mp, rs, cs, cats, topmark, flag, made, later.
    do 5 (split; [done|]). right. by exists x.
  - pose proof (quiet_all_not_generating _ (quiet_prelude args rs cs)) as Hq.
    rewrite Forall_forall in Hq.
    apply elem_of_app in Hin as [Hin|Hin]; [apply Hq in Hin; congruence|].
    apply list_elem_of_singleton in Hin as ->. done.
  - pose proof (quiet_all_not_generating _ (quiet_prelude args rs cs)) as Hq.
    rewrite Forall_forall in Hq.
    apply elem_of_app in Hin as [Hin|Hin]; [apply Hq in Hin; congruence|].
    apply elem_of_cons in Hin as [->|Hin]; [done|].
    apply list_elem_of_singleton in Hin as ->. done.
  - eexists dp, mp, rs, cs, cats, topmark, flag, _, [].
    do 4 (split; [done|]). split; [by rewrite app_nil_r|]. by left.
Qed.

(** The one call of [generate_basechart_config]. *)
Lemma basechart_call (args : Args) (a : BasechartArgs) :
  GenerateBasechartConfig a ∈ fst (main args) →
  ∃ data_path map_path rule_set_path chartsymbols displaycategory topmark
    flag made later,
    resolved args data_path map_path rule_set_path chartsymbols
      displaycategory topmark
    ∧ floating_flag topmark = Some flag
    ∧ format args = Chart
    ∧ a = basechart_args args data_path map_path rule_set_path chartsymbols
            (displaycategory ++ ["Displaybase"])
    ∧ fst (main args)
      = prelude_events args rule_set_path chartsymbols
        ++ [Environ "TOPMAR_FLOATING" flag] ++ made
    ∧ made ++ later
      = layer_rules_events args rule_set_path
        ++ [Chdir (dirname script_file); GenerateBasechartConfig a]
        ++ symbolset_events map_path.
Proof.
  intros Hin.
  destruct (generating_run args _ Hin eq_refl)
    as (dp & mp & rs & cs & cats & topmark & flag & made & later
        & Hres & Hflag & Hfmt & Hm & Hsplit & _).
  exists dp, mp, rs, cs, cats, topmark, flag, made, later.
  assert (Ha : a = basechart_args args dp mp rs cs (cats ++ ["Displaybase"])).
  { rewrite Hm in Hin.
    pose proof (quiet_all_not_generating _ (quiet_prelude args rs cs)) as Hq.
    rewrite Forall_forall in Hq.
    apply elem_of_app in Hin as [Hin|Hin]; [apply Hq in Hin; done|].
    apply elem_of_app in Hin as [Hin|Hin].
    { apply list_elem_of_singleton in Hin. done. }
    assert (Hall : GenerateBasechartConfig a ∈ made ++ later)
      by (apply elem_of_app; by left).
    rewrite Hsplit in Hall.
    by apply generation_generates in Hall as [_ Hb]; apply Hb. }
  subst a. by repeat split.
Qed.


(** X18.  The point table handed to [generate_basechart_config] is the
    value of [tablename] when the configuration has that key, whatever
    [point_table] says, and the deprecation warning is then among the
    lines printed; without [tablename] it is the value of [point_table],
    [Simplified] when that is missing too, and no warning is printed. *)
Theorem tablename_overrides_point_table (args : Args) (a : BasechartArgs) :
  GenerateBasechartConfig a ∈ fst (main args) →
  match config args !! "tablename" with
  | Some v =>
      bc_point_table a = v
      ∧ Print Stdout tablename_warning ∈ fst (main args)
  | None =>
      bc_point_table a
      = default (TString "Simplified") (config args !! "point_table")
      ∧ Print Stdout tablename_warning ∉ fst (main args)
  end.
Proof.
  intros Hin.
  destruct (basechart_call args a Hin)
    as (dp & mp & rs & cs & cats & topmark & flag & made & later
        & Hres & Hflag & Hfmt & -> & Hm & Hsplit).
  rewrite Hm. cbn [bc_point_table basechart_args].
  unfold prelude_events.
  destruct (config args !! "tablename") as [v|].
  - split; [done|]. apply elem_of_app. left. apply elem_of_app. left.
    apply list_elem_of_singleton. done.
  - split; [done|]. intros Hw.
    apply elem_of_app in Hw as [Hw|Hw].
    { apply elem_of_app in Hw as [Hw|Hw]; [by apply elem_of_nil in Hw|].
      apply elem_of_app in Hw as [Hw|Hw].
      - destruct (does_color_tables_exist rs) as [[]|].
        + by apply elem_of_nil in Hw.
        + apply list_elem_of_singleton in Hw. done.
        + by apply elem_of_nil in Hw.
      - destruct (isfile cs).
        + by apply elem_of_nil in Hw.
        + apply list_elem_of_singleton in Hw. injection Hw as Hw.
          unfold tablename_warning in Hw. cbn in Hw. done. }
    apply elem_of_app in Hw as [Hw|Hw].
    { apply list_elem_of_singleton in Hw. done. }
    assert (Hall : Print Stdout tablename_warning ∈ made ++ later)
      by (apply elem_of_app; by left).
    rewrite Hsplit in Hall.
    by apply generation_generates in Hall as [Hgen _].
Qed.

(** A key of [paths]: the fallback when it is missing or falsy, the text
    taken relative to the directory of the configuration file when it is
    a text that is not empty. *)
Lemma optional_path_cases (args : Args) (tbl : gmap string toml)
    (k fallback p : string) :
  optional_path args tbl k fallback = Some p →
  (truth (tbl !! k) = false → p = fallback)
  ∧ (∀ s, tbl !! k = Some (TString s) → s ≠ "" →
          p = abspath (normpath (join (base_dir args) s))).
Proof.
  unfold optional_path. destruct (tbl !! k) as [v|]; cycle 1.
  { intros [= <-]. split; [done|]. by intros s [=]. }
  destruct v as [s|z|b|o|l|tb]; cbn [truth].
  - destruct (String.eqb s "") eqn:Hs.
    + apply String.eqb_eq in Hs as ->. intros [= <-]. split; [done|].
      by intros s [= <-].
    + intros [= <-]. split; [done|]. by intros s' [= <-].
  - destruct (Z.eqb z 0); [|done]. intros [= <-]. split; [done|].
    by intros s [=].
  - destruct b; [done|]. intros [= <-]. split; [done|]. by intros s [=].
  - destruct o; [done|]. intros [= <-]. split; [done|]. by intros s [=].
  - destruct l; [|done]. intros [= <-]. split; [done|]. by intros s [=].
  - destruct (bool_decide (tb = ∅)); [|done]. intros [= <-].
    split; [done|]. by intros s [=].
Qed.

(** X19.  The paths handed to [generate_basechart_config]: the data path
    is the text of [paths.data] taken relative to the directory of the
    configuration file; a missing or falsy [map], [ruleset] or
    [chartsymbols] gives [../map] beside the data path, the [rules] below
    the resources, and the S-57 chart symbols of the resources; a text
    that is not empty is taken relative to the directory of the
    configuration file, the rule set with [rules] forced below it. *)
Theorem optional_paths_fall_back (args : Args) (a : BasechartArgs) :
  GenerateBasechartConfig a ∈ fst (main args) →
  ∃ tbl d,
    config args !! "paths" = Some (TTable tbl)
    ∧ tbl !! "data" = Some (TString d)
    ∧ bc_data_path a = abspath (normpath (join (base_dir args) d))
    ∧ bc_resources_path a = RESOURCES_PATH
    ∧ (truth (tbl !! "map") = false →
       bc_map_path a = normpath (join (bc_data_path a) "../map"))
    ∧ (truth (tbl !! "ruleset") = false →
       force_sub_dir RESOURCES_PATH "rules" = OK (bc_rule_set_path a))
    ∧ (truth (tbl !! "chartsymbols") = false →
       bc_chartsymbols a
       = abspath (join RESOURCES_PATH "chartsymbols/chartsymbols_S57.xml"))
    ∧ (∀ s, tbl !! "map" = Some (TString s) → s ≠ "" →
            bc_map_path a = abspath (normpath (join (base_dir args) s)))
    ∧ (∀ s, tbl !! "ruleset" = Some (TString s) → s ≠ "" →
            force_sub_dir (abspath (normpath (join (base_dir args) s)))
              "rules"
            = OK (bc_rule_set_path a))
    ∧ (∀ s, tbl !! "chartsymbols" = Some (TString s) → s ≠ "" →
            bc_chartsymbols a = abspath (normpath (join (base_dir args) s))).
Proof.
  intros Hin.
  destruct (basechart_call args a Hin)
    as (dp & mp & rs & cs & cats & topmark & flag & made & later
        & Hres & Hflag & Hfmt & -> & Hm & Hsplit).
  destruct Hres
    as (tbl & d & rules & Hp & Hd & -> & Hmap & Hrules & Hsub & Hcs & _ & _).
  apply optional_path_cases in Hmap as [Hmap1 Hmap2].
  apply optional_path_cases in Hrules as [Hr1 Hr2].
  apply optional_path_cases in Hcs as [Hcs1 Hcs2].
  exists tbl, d. cbn [basechart_args bc_data_path bc_map_path
                       bc_rule_set_path bc_chartsymbols bc_resources_path].
  repeat split; try done.
  - intros Hf. by rewrite <- (Hr1 Hf).
  - intros s Hs Hne. by rewrite <- (Hr2 s Hs Hne).
Qed.

(** X20.  The display categories handed to [generate_basechart_config]
    give the configured text back: without their last member,
    [Displaybase], and joined with commas they are the text of
    [displaycategory], [Standard] when the key is missing; none of them
    holds a comma, and there is at least one beside [Displaybase]. *)
Theorem displaycategory_round_trip (args : Args) (a : BasechartArgs) :
  GenerateBasechartConfig a ∈ fst (main args) →
  ∃ s,
    default (TString "Standard") (config args !! "displaycategory")
    = TString s
    ∧ str_join "," (removelast (bc_displaycategory a)) = s
    ∧ last (bc_displaycategory a) = Some "Displaybase"
    ∧ Forall (fun c => occurs "," c = false)
        (removelast (bc_displaycategory a))
    ∧ (2 <= length (bc_displaycategory a))%nat.
Proof.
  intros Hin.
  destruct (basechart_call args a Hin)
    as (dp & mp & rs & cs & cats & topmark & flag & made & later
        & Hres & Hflag & Hfmt & -> & Hm & Hsplit).
  destruct Hres as (tbl & d & rules & _ & _ & _ & _ & _ & _ & _ & Hsp & _).
  cbn [basechart_args bc_displaycategory].
  destruct (default (TString "Standard") (config args !! "displaycategory"))
    as [s| | | | |]; try done.
  cbn [split_method] in Hsp. injection Hsp as <-.
  exists s. split; [done|].
  rewrite removelast_last, last_snoc.
  split; [apply join_split|]. split; [done|].
  split; [apply split_parts_free|].
  rewrite length_app. cbn [length].
  pose proof (split_nonempty "," s) as Hne.
  destruct (split "," s); [done|]. cbn [length]. lia.
Qed.

End Script.

End RunFacts.

(** ** The theorems at work on the small catalog *)

Module Examples.

Import PyFacts Chartsymbols GenerateMapConfig CatalogFacts ScriptFacts Sample.

#[local] Existing Instance mapgen.
#[local] Existing Instance host.

Lemma catalog_lookups :
  iter "lookup" catalog
  = [boylat; odd_lookup; broken_lookup; m_qual; depare; boylat_again; depcnt].
Proof. vm_compute. reflexivity. Qed.

Lemma dead_catalog_lookups :
  iter "lookup" dead_catalog = [broken_lookup; m_qual].
Proof. vm_compute. reflexivity. Qed.

Lemma catalog_color_tables : iter "color-table" catalog = [day_bright; dusk].
Proof. vm_compute. reflexivity. Qed.

(** *** With the small instance the loops return

    Nothing raises in the instance but a filter on an [attrib-code]
    without text, so a catalog is built from every document whose lookups
    either parse or lack a child. *)

Lemma sample_expand_part lookup_type name (l : LookupV) (part : string) :
  ∃ l', expand_part lookup_type name l part = OK l'.
Proof.
  destruct part as [|c part]; [by eexists|].
  unfold expand_part. cbn.
  destruct (match c with "C"%char => _ | _ => _ end); by eexists.
Qed.

Lemma sample_expand_parts lookup_type name (parts : list string) :
  ∀ l : LookupV, ∃ l', expand_parts lookup_type name l parts = OK l'.
Proof.
  induction parts as [|p parts IH]; intros l; [by eexists|].
  unfold expand_parts. cbn [foldM].
  destruct (sample_expand_part lookup_type name l p) as [l1 ->]. apply IH.
Qed.

Lemma sample_entries (f : LookupFields) : ∃ new, lookup_entries f = OK new.
Proof.
  unfold lookup_entries. cbn [DisplayPriority_get mapgen Py.bind].
  destruct (sample_expand_parts (lf_lookup_type f) (lf_name f)
              (split ";" (lf_str_instruction f))
              (base_lookup f (lf_display_priority f))) as [l ->].
  by eexists.
Qed.

Lemma sample_sndg : virtual_sndg = OK sndg_entries.
Proof. vm_compute. reflexivity. Qed.

Lemma sample_body (point_style area_style : string) (dc : Container)
    (self : ChartSymbols) (lookup : Element) :
  parses_or_is_skipped lookup →
  ∃ self', load_lookups_body point_style area_style dc self lookup
           = OK self'.
Proof.
  unfold parses_or_is_skipped, load_lookups_body. intros Hskip.
  destruct (parse_lookup lookup) as [f|e].
  - destruct (is_excluded _ _); [by eexists|].
    unfold add_virtual_sndg. rewrite sample_sndg.
    destruct (passes_filter _ _ _ _); [|by eexists].
    unfold add_lookup. destruct (sample_entries f) as [new ->]. by eexists.
  - rewrite (Hskip e eq_refl). by eexists.
Qed.

Lemma sample_load_lookups (root : Element) (point_style area_style : string)
    (dc : option (list string)) (self : ChartSymbols) :
  Forall parses_or_is_skipped (iter "lookup" root) →
  ∃ final, load_lookups root point_style area_style dc self = OK final.
Proof.
  unfold load_lookups. generalize (iter "lookup" root). intros elems.
  revert self. induction elems as [|x elems IH]; intros self Hall.
  { by eexists. }
  apply Forall_cons in Hall as [Hx Hall]. cbn [foldM].
  destruct (sample_body point_style area_style (container_of dc) self x Hx)
    as [s1 ->].
  apply IH, Hall.
Qed.

Lemma sample_load_symbols (root : Element) (self : ChartSymbols) :
  ∃ self', load_symbols root self = OK self'.
Proof.
  unfold load_symbols.
  assert (Hline : ∀ l s, ∃ s', foldM load_linestyle_body s l = OK s').
  { induction l as [|x l IH]; intros s; [by eexists|]. cbn [foldM].
    unfold load_linestyle_body at 1. cbn.
    destruct (get x "name"); apply IH. }
  assert (Hpat : ∀ l s, ∃ s', foldM load_pattern_body s l = OK s').
  { induction l as [|x l IH]; intros s; [by eexists|]. cbn [foldM].
    unfold load_pattern_body at 1. cbn.
    destruct (get x "name"); apply IH. }
  destruct (Hline (iter "line-style" root)
              (fold_left load_symbols_body (iter "symbol" root) self))
    as [s1 ->].
  apply Hpat.
Qed.

Lemma sample_init (root : Element) (point_table area_table : string)
    (dc : option (list string)) (color_table : string)
    (excluded : option (list string)) :
  Forall parses_or_is_skipped (iter "lookup" root) →
  ∃ c, init true (OK root) point_table area_table dc color_table excluded
       = OK c.
Proof.
  intros Hall. unfold init. cbn [negb Py.bind].
  destruct (sample_load_symbols root
    (upd_area_symbols (fun _ => ∅)
       (upd_line_symbols (fun _ => ∅)
          (upd_symbols_def (fun _ => ∅)
             (upd_polygon_lookups (fun _ => ∅)
                (upd_line_lookups (fun _ => ∅)
                   (upd_point_lookups (fun _ => ∅)
                      (load_colors color_table
                         (set__color_tables (load_color_table root)
                            (set_root (Some root)
                               match excluded with
                               | Some l =>
                                   set_excluded_lookups l class_defaults
                               | None => class_defaults
                               end)))))))))) as [s1 Hs1].
  rewrite Hs1. by apply sample_load_lookups.
Qed.

Lemma sample_parse_skipped (lookup : Element) :
  findall lookup "attrib-code" = [] → parses_or_is_skipped lookup.
Proof.
  intros Hnone e. unfold parse_lookup, parse_rules, text_of.
  rewrite Hnone. cbn [mapM Py.bind MSAnd mapgen].
  repeat (match goal with
          | |- context [find lookup ?t] =>
              destruct (find lookup t); cbn [Py.bind];
              [|by intros [= <-]]
          end).
  done.
Qed.

Lemma catalog_parses : Forall parses_or_is_skipped (iter "lookup" catalog).
Proof.
  rewrite catalog_lookups.
  repeat (apply Forall_cons; split;
          [apply sample_parse_skipped; vm_compute; reflexivity|]).
  apply Forall_nil_2.
Qed.

Lemma dead_catalog_parses :
  Forall parses_or_is_skipped (iter "lookup" dead_catalog).
Proof.
  rewrite dead_catalog_lookups.
  repeat (apply Forall_cons; split;
          [apply sample_parse_skipped; vm_compute; reflexivity|]).
  apply Forall_nil_2.
Qed.

(** *** The claims on the small catalog *)

(** C1 as the specification words it does not hold: the lookup of type
    'Volume' passes the filter, and no table has anything under its name
    afterwards that it had not before. *)
Lemma filter_alone_adds_entry_fails : ¬ filter_alone_adds_entry.
Proof.
  intros Hclaim.
  assert (Hparse : parse_lookup odd_lookup = OK odd_fields)
    by (vm_compute; reflexivity).
  destruct (sample_body "Simplified" "Plain" (container_of None)
              class_defaults odd_lookup) as [self' Hbody].
  { intros e He. congruence. }
  destruct (Hclaim mapgen "Simplified" "Plain" None class_defaults self'
              odd_lookup odd_fields Hparse eq_refl Hbody) as [_ Hback].
  assert (Hadded : entry_added (lf_name odd_fields) class_defaults self').
  { apply Hback. split; [by left|by left]. }
  revert Hadded.
  by apply (odd_type_adds_nothing "Simplified" "Plain" (container_of None)
              class_defaults self' odd_lookup odd_fields).
Qed.

Lemma filter_adds_entry_witness :
  parse_lookup boylat = OK boylat_fields
  ∧ is_excluded (lf_name boylat_fields) (excluded_lookups class_defaults)
    = false
  ∧ ∃ self' s1,
      load_lookups_body "Simplified" "Plain" (container_of None)
        class_defaults boylat = OK self'
      ∧ add_virtual_sndg s1 = OK self'
      ∧ is_Some (point_lookups s1 !! Some "BOYLAT").
Proof.
  assert (H1 : parse_lookup boylat = OK boylat_fields)
    by (vm_compute; reflexivity).
  assert (H2 : is_excluded (lf_name boylat_fields)
                 (excluded_lookups class_defaults) = false)
    by (vm_compute; reflexivity).
  destruct (sample_body "Simplified" "Plain" (container_of None)
              class_defaults boylat) as [self' Hbody].
  { intros e He. congruence. }
  destruct (filter_adds_entry_of_typed_lookup "Simplified" "Plain" None
              class_defaults self' boylat boylat_fields H1 H2
              (or_introl eq_refl) Hbody)
    as (s1 & Hs1 & _ & _ & Hiff & _).
  split; [exact H1|]. split; [exact H2|]. exists self', s1.
  split; [exact Hbody|]. split; [exact Hs1|].
  apply Hiff; [apply lookup_empty|]. split; left; reflexivity.
Defined.




Lemma lookups_stored_by_type_witness :
  ∃ final,
    load_lookups catalog "Simplified" "Plain"
      (Some ["Standard"; "Displaybase"]) class_defaults = OK final
    ∧ point_lookups final !! Some "BOYLAT"
      = Some [ entry "1" "Simplified"
                 ["SY(BOYLAT13)"; "(TOPMAR01)/1"; "TX(OBJNAM)"];
               entry "1" "Simplified"
                 ["SY(BOYLAT13)"; "(TOPMAR01)/2"; "TX(OBJNAM)"];
               entry "1" "Simplified" ["SY(BOYLAT14)"] ]
    ∧ line_lookups final !! Some "DEPCNT"
      = Some [ entry "1" "Lines" ["LS(SOLD,1,DEPCN)"] ]
    ∧ polygon_lookups final !! Some "ACHARE" = None.
Proof.
  destruct (sample_load_lookups catalog "Simplified" "Plain"
              (Some ["Standard"; "Displaybase"]) class_defaults
              catalog_parses) as [final Hload].
  exists final. split; [exact Hload|].
  destruct (lookups_stored_by_type catalog "Simplified" "Plain"
              (Some ["Standard"; "Displaybase"]) class_defaults final Hload)
    as (_ & _ & _ & _ & Htab).
  split; [|split].
  - etrans; [exact (Htab InPoint (Some "BOYLAT") ltac:(discriminate)
                      ltac:(discriminate))|].
    vm_compute. reflexivity.
  - etrans; [exact (Htab InLine (Some "DEPCNT") ltac:(discriminate)
                      ltac:(discriminate))|].
    vm_compute. reflexivity.
  - etrans; [exact (Htab InPolygon (Some "ACHARE") ltac:(discriminate)
                      ltac:(discriminate))|].
    vm_compute. reflexivity.
Defined.

Lemma mapfile_layers_witness :
  get_point_mapfile class_defaults val (Some "LIGHTS") val val val
  = LightsLayer
      (Layer val (Some "LIGHTS") "POINT" val val val [] class_defaults)
  ∧ get_point_mapfile class_defaults val (Some "BOYLAT") val val val
    = Layer val (Some "BOYLAT") "POINT" val val val [] class_defaults.
Proof.
  destruct (mapfile_layers class_defaults val val val val (Some "LIGHTS"))
    as (_ & _ & Hlights & _ & Hbuilt & _).
  destruct (mapfile_layers class_defaults val val val val (Some "BOYLAT"))
    as (_ & _ & _ & Hplain & _ & Hempty & _).
  split.
  - rewrite (Hlights eq_refl), Hbuilt. reflexivity.
  - rewrite (Hplain ltac:(discriminate)). exact (Hempty eq_refl).
Defined.

Lemma color_tables_loaded_witness :
  load_color_table catalog !! Some "DUSK" = Some (table_colors dusk)
  ∧ table_colors day_bright !! Some "CURSR"
    = Some {| r := Some "235"; g := Some "125"; b := Some "54" |}
  ∧ color_table
      (load_colors "NIGHT"
         (set__color_tables (load_color_table catalog) class_defaults))
    = ∅.
Proof.
  destruct (color_tables_loaded catalog "NIGHT" class_defaults)
    as (Htab & _ & Hcol & _ & _ & Hnone).
  split; [|split].
  - etrans; [exact (Htab (Some "DUSK"))|]. rewrite catalog_color_tables.
    vm_compute. reflexivity.
  - etrans; [exact (Hcol day_bright (Some "CURSR"))|]. vm_compute.
    reflexivity.
  - apply Hnone. intros t. rewrite catalog_color_tables.
    intros [->|Ht]%elem_of_cons; [vm_compute; discriminate|].
    apply elem_of_cons in Ht as [->|Ht]; [vm_compute; discriminate|].
    by apply elem_of_nil in Ht.
Defined.

(** C7 as the specification words it does not hold: a [paths] that is a
    text has no [data] either, and the run dies of a [TypeError] without
    a line printed. *)
Lemma missing_data_path_exits_fails : ¬ missing_data_path_exits.
Proof.
  intros Hclaim.
  assert (Hno : no_data_path (config (args_of flat_config))).
  { intros t Ht. vm_compute in Ht. discriminate Ht. }
  pose proof (Hclaim host (args_of flat_config) Hno) as Hexit.
  assert (Hrun : main (args_of flat_config) = ([], Uncaught TypeError))
    by (vm_compute; reflexivity).
  rewrite Hrun in Hexit. discriminate Hexit.
Qed.

Lemma data_path_missing_witness :
  lacks_data_path (config (args_of {[ "paths" := TTable ∅ ]}))
  ∧ main (args_of {[ "paths" := TTable ∅ ]})
    = ([Print Stderr "Data path missing from configuration file"],
       Exited 1%Z)
  ∧ no_data_path (config (args_of flat_config))
  ∧ main (args_of flat_config) = ([], Uncaught TypeError).
Proof.
  assert (Hl : lacks_data_path (config (args_of {[ "paths" := TTable ∅ ]}))).
  { right. exists ∅. split; vm_compute; reflexivity. }
  assert (Hno : no_data_path (config (args_of flat_config))).
  { intros t Ht. vm_compute in Ht. discriminate Ht. }
  split; [exact Hl|].
  split; [exact (proj1 (data_path_missing _) Hl)|].
  split; [exact Hno|].
  destruct (proj1 (proj2 (data_path_missing (args_of flat_config))) Hno)
    as [[[Hnone|(t & Ht & _)] _]|[_ Hrun]].
  - vm_compute in Hnone. discriminate Hnone.
  - vm_compute in Ht. discriminate Ht.
  - exact Hrun.
Defined.

Lemma displaybase_always_passed_witness :
  ∃ a, GenerateBasechartConfig a ∈ fst (main (args_of good_config))
       ∧ bc_displaycategory a = ["Standard"; "Other"; "Displaybase"].
Proof.
  assert (Hrun : ∃ a, GenerateBasechartConfig a
                      ∈ fst (main (args_of good_config))).
  { vm_compute. eexists. do 2 constructor 2. constructor 1. }
  destruct Hrun as [a Ha]. exists a. split; [exact Ha|].
  destruct (displaybase_always_passed (args_of good_config) a Ha)
    as (s & Hs & Hcat & _).
  vm_compute in Hs. injection Hs as <-. exact Hcat.
Defined.


Lemma virtual_sndg_iff_live_lookup_witness :
  (∃ c, init true (OK catalog) "Simplified" "Plain" None "DAY_BRIGHT" None
        = OK c
        ∧ point_lookups c !! Some "X-SNDG" = Some sndg_entries)
  ∧ (∃ c, init true (OK dead_catalog) "Simplified" "Plain" None "DAY_BRIGHT"
            None = OK c
          ∧ point_lookups c !! Some "X-SNDG" = None).
Proof.
  split.
  - destruct (sample_init catalog "Simplified" "Plain" None "DAY_BRIGHT"
                None catalog_parses) as [c Hinit].
    exists c. split; [exact Hinit|].
    destruct (virtual_sndg_iff_live_lookup _ _ _ _ _ _ _ c Hinit)
      as (root & Hroot & Hiff & _ & _ & Hvalue).
    injection Hroot as <-.
    assert (Hsome : is_Some (point_lookups c !! sndg_key)).
    { apply Hiff. exists boylat, boylat_fields. split; [|split].
      - rewrite catalog_lookups. constructor 1.
      - vm_compute. reflexivity.
      - vm_compute. reflexivity. }
    destruct Hsome as [sndg Hsndg].
    destruct (Hvalue sndg Hsndg) as (tables & cs & all & Ht & Hcs & Hall & ->).
    vm_compute in Ht. injection Ht as <-.
    vm_compute in Hcs. injection Hcs as <-.
    vm_compute in Hall. injection Hall as <-.
    exact Hsndg.
  - destruct (sample_init dead_catalog "Simplified" "Plain" None
                "DAY_BRIGHT" None dead_catalog_parses) as [c Hinit].
    exists c. split; [exact Hinit|].
    destruct (virtual_sndg_iff_live_lookup _ _ _ _ _ _ _ c Hinit)
      as (root & Hroot & _ & _ & Hnone & _).
    injection Hroot as <-. apply Hnone. intros lookup.
    rewrite dead_catalog_lookups.
    intros [->|Hin]%elem_of_cons; [vm_compute; reflexivity|].
    apply elem_of_cons in Hin as [->|Hin]; [vm_compute; reflexivity|].
    by apply elem_of_nil in Hin.
Defined.

End Examples.

(** ** Further properties on the small instance *)

Module Cases.

Import PyFacts Chartsymbols GenerateMapConfig CatalogFacts ScriptFacts Sample.
Import StringFacts SymbolFacts LookupFacts RunFacts Examples.

#[local] Existing Instance mapgen.
#[local] Existing Instance host.

Lemma rgb_joins_components_witness :
  rgb {| r := Some "163"; g := Some "180"; b := Some "183" |}
  = OK "163 180 183"
  ∧ split " " "163 180 183" = ["163"; "180"; "183"].
Proof.
  destruct (rgb_joins_components
              {| r := Some "163"; g := Some "180"; b := Some "183" |})
    as (Hok & _ & Hsplit & _).
  assert (Hrgb : rgb {| r := Some "163"; g := Some "180"; b := Some "183" |}
                 = OK "163 180 183").
  { apply Hok. exists "163", "180", "183". by repeat split. }
  split; [exact Hrgb|].
  exact (Hsplit _ "163" "180" "183" Hrgb eq_refl eq_refl eq_refl eq_refl
           eq_refl eq_refl).
Defined.

Lemma symbols_def_last_well_formed_witness :
  ∃ self',
    load_symbols catalog class_defaults = OK self'
    ∧ symbols_def self' !! Some "BOYLAT13"
      = Some {| pivot := (6, 4)%Z; size := (12, 8)%Z |}
    ∧ symbols_def self' !! Some "ACHARE02" = None.
Proof.
  destruct (sample_load_symbols catalog class_defaults) as [self' Hload].
  exists self'. split; [exact Hload|]. split.
  - etrans; [exact (symbols_def_last_well_formed catalog class_defaults self'
                      (Some "BOYLAT13") Hload)|].
    vm_compute. reflexivity.
  - etrans; [exact (symbols_def_last_well_formed catalog class_defaults self'
                      (Some "ACHARE02") Hload)|].
    vm_compute. reflexivity.
Defined.

Lemma truthy_symbols_stored_witness :
  ∃ self',
    load_symbols styled_catalog class_defaults = OK self'
    ∧ line_symbols self' !! Some "DASH" = Some (Some "DASH")
    ∧ line_symbols self' !! None = None
    ∧ area_symbols self' !! Some "DIAMOND1" = Some (Some "DIAMOND1").
Proof.
  destruct (sample_load_symbols styled_catalog class_defaults)
    as [self' Hload].
  exists self'. split; [exact Hload|].
  destruct (truthy_symbols_stored styled_catalog class_defaults self' Hload)
    as (lines & patterns & Hl & Hp & Hline & Harea).
  vm_compute in Hl. injection Hl as <-.
  vm_compute in Hp. injection Hp as <-.
  split; [|split].
  - etrans; [exact (Hline (Some "DASH"))|]. vm_compute. reflexivity.
  - etrans; [exact (Hline None)|]. vm_compute. reflexivity.
  - etrans; [exact (Harea (Some "DIAMOND1"))|]. vm_compute. reflexivity.
Defined.

Lemma load_symbols_frame_witness :
  ∃ self',
    load_symbols catalog class_defaults = OK self'
    ∧ point_lookups self' = point_lookups class_defaults
    ∧ excluded_lookups self' = ["M_QUAL"].
Proof.
  destruct (sample_load_symbols catalog class_defaults) as [self' Hload].
  exists self'. split; [exact Hload|].
  destruct (load_symbols_frame catalog class_defaults self' Hload)
    as (Hp & _ & _ & _ & _ & Hex & _).
  split; [exact Hp|exact Hex].
Defined.

Lemma symbol_constructor_errors_abort_witness :
  @load_symbols strict styled_catalog (@class_defaults strict)
  = Raise KeyError.
Proof.
  apply (proj1 (@symbol_constructor_errors_abort strict styled_catalog
                  (@class_defaults strict) [line_style "DASH"] []
                  nameless_style KeyError)).
  - vm_compute. reflexivity.
  - constructor; [|constructor]. eexists. vm_compute. reflexivity.
  - vm_compute. reflexivity.
Defined.

Lemma load_lookups_frame_witness :
  ∃ final,
    load_lookups catalog "Simplified" "Plain" None class_defaults = OK final
    ∧ symbols_def final = symbols_def class_defaults
    ∧ excluded_lookups final = ["M_QUAL"].
Proof.
  destruct (sample_load_lookups catalog "Simplified" "Plain" None
              class_defaults catalog_parses) as [final Hload].
  exists final. split; [exact Hload|].
  destruct (load_lookups_frame catalog "Simplified" "Plain" None
              class_defaults final Hload)
    as (Hs & _ & _ & _ & _ & Hex & _).
  split; [exact Hs|exact Hex].
Defined.

Lemma tables_only_grow_witness :
  ∃ final more,
    load_lookups catalog "Simplified" "Plain" None stocked = OK final
    ∧ line_lookups final !! Some "DEPCNT" = Some ([old_entry] ++ more).
Proof.
  destruct (sample_load_lookups catalog "Simplified" "Plain" None stocked
              catalog_parses) as [final Hload].
  assert (Hold : table_of InLine stocked !! Some "DEPCNT" = Some [old_entry])
    by (vm_compute; reflexivity).
  destruct (tables_only_grow catalog "Simplified" "Plain" None stocked final
              InLine (Some "DEPCNT") [old_entry] Hload ltac:(discriminate)
              Hold) as [_ Hgrow].
  destruct (Hgrow ltac:(discriminate)) as [more Hmore].
  exists final, more. split; [exact Hload|exact Hmore].
Defined.

Lemma keys_are_accepted_names_witness :
  ∃ final,
    load_lookups catalog "Simplified" "Plain" None class_defaults = OK final
    ∧ is_Some (line_lookups final !! Some "DEPCNT").
Proof.
  destruct (sample_load_lookups catalog "Simplified" "Plain" None
              class_defaults catalog_parses) as [final Hload].
  exists final. split; [exact Hload|].
  apply (keys_are_accepted_names catalog "Simplified" "Plain" None
           class_defaults final InLine (Some "DEPCNT") Hload
           ltac:(discriminate) ltac:(discriminate)).
  right.
  exists depcnt,
    (fields "DEPCNT" "Line" "Lines" "Displaybase" "LS(SOLD,1,DEPCN)").
  split; [rewrite catalog_lookups; do 6 constructor 2; constructor 1|].
  split; [vm_compute; reflexivity|]. split; reflexivity.
Defined.

Lemma layers_of_constructed_catalog_witness :
  ∃ c,
    init true (OK catalog) "Simplified" "Plain" None "DAY_BRIGHT" None = OK c
    ∧ get_line_mapfile c val (Some "DEPCNT") val val val
      = Layer val (Some "DEPCNT") "LINE" val val val
          [entry "1" "Lines" ["LS(SOLD,1,DEPCN)"]] c
    ∧ get_poly_mapfile c val (Some "M_QUAL") val val val
      = Layer val (Some "M_QUAL") "POLYGON" val val val [] c.
Proof.
  destruct (sample_init catalog "Simplified" "Plain" None "DAY_BRIGHT" None
              catalog_parses) as [c Hinit].
  exists c. split; [exact Hinit|].
  destruct (layers_of_constructed_catalog _ _ _ _ _ _ _ c val val val val
              (Some "DEPCNT") Hinit) as (root & Hroot & Hline & _).
  destruct (layers_of_constructed_catalog _ _ _ _ _ _ _ c val val val val
              (Some "M_QUAL") Hinit) as (root' & Hroot' & _ & Hpoly & _).
  injection Hroot as <-. injection Hroot' as <-. split.
  - etrans; [exact Hline|]. f_equal; vm_compute; reflexivity.
  - etrans; [exact Hpoly|]. f_equal; vm_compute; reflexivity.
Defined.

Lemma nameless_parses :
  Forall parses_or_is_skipped (iter "lookup" nameless_catalog).
Proof.
  repeat (apply Forall_cons; split;
          [apply sample_parse_skipped; vm_compute; reflexivity|]).
  apply Forall_nil_2.
Qed.

Lemma nameless_lookup_is_stored_witness :
  ∃ final new before after,
    load_lookups nameless_catalog "Simplified" "Plain" None class_defaults
    = OK final
    ∧ lookup_entries nameless_fields = OK new
    ∧ point_lookups final !! None = Some (before ++ new ++ after).
Proof.
  destruct (sample_load_lookups nameless_catalog "Simplified" "Plain" None
              class_defaults nameless_parses) as [final Hload].
  destruct (nameless_lookup_is_stored nameless_catalog "Simplified" "Plain"
              None class_defaults final nameless_lookup nameless_fields Hload)
    as (_ & _ & new & before & after & Hnew & Htab).
  - constructor 1.
  - vm_compute. reflexivity.
  - vm_compute. reflexivity.
  - vm_compute. reflexivity.
  - discriminate.
  - exists final, new, before, after.
    split; [exact Hload|]. split; [exact Hnew|exact Htab].
Defined.

Lemma empty_instruction_keeps_base_witness :
  lookup_entries blank_fields
  = OK (iter_lookups (base_lookup blank_fields (Some "Area 1"))).
Proof.
  refine (proj1 (empty_instruction_keeps_base blank_fields _)).
  vm_compute. repeat constructor.
Defined.

Lemma other_errors_abort_load_witness :
  load_lookups strange_catalog "Simplified" "Plain" None class_defaults
  = Raise TypeError.
Proof.
  destruct (sample_body "Simplified" "Plain" (container_of None)
              class_defaults boylat) as [s1 Hs1].
  { apply sample_parse_skipped. vm_compute. reflexivity. }
  apply (other_errors_abort_load strange_catalog "Simplified" "Plain" None
           class_defaults s1 [boylat] [depcnt] unfiltered_lookup TypeError).
  - vm_compute. reflexivity.
  - cbn [foldM]. rewrite Hs1. reflexivity.
  - left. split; vm_compute; reflexivity.
Defined.

Lemma init_keeps_document_witness :
  ∃ c,
    init true (OK catalog) "Simplified" "Plain" None "DAY_BRIGHT" None = OK c
    ∧ Chartsymbols.root c = Some catalog
    ∧ excluded_lookups c = ["M_QUAL"]
    ∧ symbols_def c !! Some "BOYLAT13"
      = Some {| pivot := (6, 4)%Z; size := (12, 8)%Z |}.
Proof.
  destruct (sample_init catalog "Simplified" "Plain" None "DAY_BRIGHT" None
              catalog_parses) as [c Hinit].
  exists c. split; [exact Hinit|].
  destruct (init_keeps_document _ _ _ _ _ _ _ c Hinit)
    as (_ & root & Hroot & Hr & _ & _ & Hex & Hdef).
  injection Hroot as <-.
  split; [exact Hr|]. split; [exact Hex|].
  etrans; [exact (Hdef (Some "BOYLAT13"))|]. vm_compute. reflexivity.
Defined.

Lemma exits_explained_witness :
  main (args_of sideways_config)
  = ([Print Stdout topmark_message], Exited 2%Z)
  ∧ Forall (fun e => generates e = false) [Print Stdout topmark_message].
Proof.
  assert (Hm : main (args_of sideways_config)
               = ([Print Stdout topmark_message], Exited 2%Z))
    by (vm_compute; reflexivity).
  split; [exact Hm|].
  exact (proj1 (exits_explained (args_of sideways_config) _ _ Hm)).
Defined.



Lemma good_run :
  ∃ t, main (args_of good_config) = (t, Returned tt).
Proof. vm_compute. eexists. reflexivity. Qed.

Lemma good_call :
  ∃ a, GenerateBasechartConfig a ∈ fst (main (args_of good_config)).
Proof. vm_compute. eexists. do 2 constructor 2. constructor 1. Qed.

Lemma returned_run_witness :
  ∃ t, main (args_of good_config) = (t, Returned tt)
       ∧ format (args_of good_config) = Chart.
Proof.
  destruct good_run as [t Hm]. exists t. split; [exact Hm|].
  exact (proj1 (returned_run (args_of good_config) t Hm)).
Defined.


Lemma tablename_overrides_point_table_witness :
  ∃ a, GenerateBasechartConfig a ∈ fst (main (args_of old_config))
       ∧ bc_point_table a = TString "Paper"
       ∧ Print Stdout tablename_warning ∈ fst (main (args_of old_config)).
Proof.
  assert (Hrun : ∃ a, GenerateBasechartConfig a
                      ∈ fst (main (args_of old_config))).
  { vm_compute. eexists. do 3 constructor 2. constructor 1. }
  destruct Hrun as [a Ha]. exists a. split; [exact Ha|].
  pose proof (tablename_overrides_point_table (args_of old_config) a Ha)
    as Hpt.
  assert (Ht : config (args_of old_config) !! "tablename"
               = Some (TString "Paper")) by (vm_compute; reflexivity).
  rewrite Ht in Hpt. exact Hpt.
Defined.

Lemma optional_paths_fall_back_witness :
  ∃ a, GenerateBasechartConfig a ∈ fst (main (args_of good_config))
       ∧ bc_data_path a = "./enc"
       ∧ bc_map_path a = normpath (join (bc_data_path a) "../map").
Proof.
  destruct good_call as [a Ha]. exists a. split; [exact Ha|].
  destruct (optional_paths_fall_back (args_of good_config) a Ha)
    as (tbl & d & Hp & Hd & Hdata & _ & Hmap & _).
  vm_compute in Hp. injection Hp as <-.
  vm_compute in Hd. injection Hd as <-.
  split; [exact Hdata|]. apply Hmap. vm_compute. reflexivity.
Defined.

Lemma displaycategory_round_trip_witness :
  ∃ a, GenerateBasechartConfig a ∈ fst (main (args_of good_config))
       ∧ str_join "," (removelast (bc_displaycategory a)) = "Standard,Other".
Proof.
  destruct good_call as [a Ha]. exists a. split; [exact Ha|].
  destruct (displaycategory_round_trip (args_of good_config) a Ha)
    as (s & Hs & Hjoin & _).
  vm_compute in Hs. injection Hs as <-. exact Hjoin.
Defined.

End Cases.
